(** * claudia: the transcript core of the agent-run viewers

    A shallow embedding of the transcript logic of
    [src/components/AgentExecution.tsx] and
    [src/components/AgentRunOutputViewer.tsx]: ingestion of JSONL output
    lines, the visibility filter [displayableMessages], the output cache
    rule of [loadOutput], the auto-scroll state and the two exports.

    Conventions of the embedding.
    - A parsed stream message is an untyped JavaScript value ([value]); the
      TypeScript interface [ClaudeStreamMessage] is only asserted by a cast.
    - A computation that can raise a [TypeError] returns [option]; [None] is
      the raised exception.
    - React state is threaded explicitly: an event handler is a function
      from the component state to the component state.
    - Numbers are integers (indices, milliseconds, token counts); strings
      are byte strings, and the case mapping and the blank test act on the
      ASCII range. *)

From Stdlib Require Import ZArith String Ascii List Bool Lia.
From stdpp Require Import base option list gmap strings pretty.

Local Open Scope string_scope.
Local Open Scope list_scope.
Set Warnings "-register-all".

(** ** JavaScript values *)

Inductive value : Type :=
| JUndefined
| JNull
| JBool (b : bool)
| JNum (n : Z)
| JStr (s : string)
| JArr (elems : list value)
| JObj (props : list (string * value)).

(** Own properties of an object literal as JSON.parse builds it. *)
Fixpoint assoc (k : string) (props : list (string * value)) : value :=
  match props with
  | [] => JUndefined
  | (k', v) :: rest => if String.eqb k k' then v else assoc k rest
  end.

(** [v.k] for a [v] that is neither [undefined] nor [null]: primitives and
    arrays have none of the properties the viewers read. *)
Definition prop (v : value) (k : string) : value :=
  match v with
  | JObj props => assoc k props
  | _ => JUndefined
  end.

Definition nullish (v : value) : bool :=
  match v with
  | JUndefined | JNull => true
  | _ => false
  end.

(** [v.k]: a property read on [undefined] or [null] raises a TypeError. *)
Definition get (v : value) (k : string) : option value :=
  if nullish v then None else Some (prop v k).

(** [v?.k] *)
Definition get_opt (v : value) (k : string) : value :=
  if nullish v then JUndefined else prop v k.

(** ToBoolean *)
Definition truthy (v : value) : bool :=
  match v with
  | JUndefined | JNull => false
  | JBool b => b
  | JNum n => negb (n =? 0)%Z
  | JStr s => negb (String.eqb s "")
  | JArr _ | JObj _ => true
  end.

(** [a === b]. Objects and arrays compare by identity; every comparison of
    the modelled code has a literal on one side or two values read from
    different messages, which are never the same object. *)
Definition strict_eq (a b : value) : bool :=
  match a, b with
  | JUndefined, JUndefined => true
  | JNull, JNull => true
  | JBool x, JBool y => Bool.eqb x y
  | JNum x, JNum y => (x =? y)%Z
  | JStr x, JStr y => String.eqb x y
  | _, _ => false
  end.

Definition isArray (v : value) : bool :=
  match v with
  | JArr _ => true
  | _ => false
  end.

Definition array_length (v : value) : nat :=
  match v with
  | JArr elems => length elems
  | _ => 0
  end.

(** [Array.prototype.includes] *)
Definition includes (l : list value) (v : value) : bool :=
  existsb (strict_eq v) l.

(** ** Strings *)

Definition lower_ascii (c : ascii) : ascii :=
  let n := nat_of_ascii c in
  if Nat.leb 65 n && Nat.leb n 90 then ascii_of_nat (n + 32) else c.

(** [s.toLowerCase()] on a text of ASCII characters: the letters A to Z are
    mapped to a to z. On other texts the runtime applies the Unicode
    mapping, which this function does not follow (U+212A, the Kelvin sign,
    becomes k there); the properties that rest on the lower case of a name
    are stated for names of ASCII characters ([is_ascii] below). *)
Fixpoint toLowerCase (s : string) : string :=
  match s with
  | EmptyString => EmptyString
  | String c rest => String (lower_ascii c) (toLowerCase rest)
  end.

Fixpoint startsWith (s p : string) : bool :=
  match p, s with
  | EmptyString, _ => true
  | String _ _, EmptyString => false
  | String b p', String a s' => Ascii.eqb a b && startsWith s' p'
  end.

(** [name?.toLowerCase()]: [undefined] on a missing name, a TypeError on a
    name that is not a string (it has no such method). *)
Definition opt_toLowerCase (name : value) : option value :=
  match name with
  | JUndefined | JNull => Some JUndefined
  | JStr s => Some (JStr (toLowerCase s))
  | _ => None
  end.

(** [name?.startsWith(p)] *)
Definition opt_startsWith (name : value) (p : string) : option value :=
  match name with
  | JUndefined | JNull => Some JUndefined
  | JStr s => Some (JBool (startsWith s p))
  | _ => None
  end.

(** ** The visibility filter

    [displayableMessages] of AgentExecution.tsx (lines 97-161) and of
    AgentRunOutputViewer.tsx (lines 313-355). The two copies differ in one
    expression: the first scans back from the callback's [index], the second
    from [messages.indexOf(message)]; every element of [messages] is an
    object of its own, so both are the position of the message filtered. *)

Definition toolsWithWidgets : list string :=
  ["task"; "edit"; "multiedit"; "todowrite"; "ls"; "read";
   "glob"; "bash"; "write"; "grep"].

(** The test guarding [willBeSkipped = true]. *)
Definition hasWidget (toolUse : value) : option bool :=
  name ← get toolUse "name";
  toolName ← opt_toLowerCase name;
  if includes (map JStr toolsWithWidgets) toolName then Some true
  else sw ← opt_startsWith name "mcp__"; Some (truthy sw).

(** [content.find(c => c.type === 'tool_use' && c.id === tool_use_id)] *)
Fixpoint find_tool_use (contents : list value) (tool_use_id : value)
  : option (option value) :=
  match contents with
  | [] => Some None
  | c :: rest =>
      ty ← get c "type";
      if strict_eq ty (JStr "tool_use") && strict_eq (prop c "id") tool_use_id
      then Some (Some c)
      else find_tool_use rest tool_use_id
  end.

(** The loop [for (let i = index - 1; i >= 0; i--)], over the preceding
    messages listed from the most recent one. *)
Fixpoint scan_previous (preceding : list value) (tool_use_id : value)
  : option bool :=
  match preceding with
  | [] => Some false
  | prevMsg :: older =>
      ty ← get prevMsg "type";
      let content := get_opt (prop prevMsg "message") "content" in
      if strict_eq ty (JStr "assistant") && truthy content && isArray content
      then
        match content with
        | JArr contents =>
            toolUse ← find_tool_use contents tool_use_id;
            match toolUse with
            | Some toolUse => hasWidget toolUse
            | None => scan_previous older tool_use_id
            end
        | _ => scan_previous older tool_use_id
        end
      else scan_previous older tool_use_id
  end.

(** The value of [willBeSkipped] for one tool_result block. *)
Definition willBeSkipped (messages : list value) (index : nat)
    (content : value) : option bool :=
  let tool_use_id := prop content "tool_use_id" in
  if truthy tool_use_id
  then scan_previous (rev (take index messages)) tool_use_id
  else Some false.

(** The value of [hasVisibleContent] after the loop over the blocks. *)
Fixpoint hasVisibleContent (messages : list value) (index : nat)
    (contents : list value) : option bool :=
  match contents with
  | [] => Some false
  | content :: rest =>
      ty ← get content "type";
      if strict_eq ty (JStr "text") then Some true
      else if strict_eq ty (JStr "tool_result") then
        skipped ← willBeSkipped messages index content;
        if (skipped : bool) then hasVisibleContent messages index rest else Some true
      else hasVisibleContent messages index rest
  end.

(** The callback passed to [messages.filter]. *)
Definition isDisplayable (messages : list value) (index : nat)
    (message : value) : option bool :=
  isMeta ← get message "isMeta";
  if truthy isMeta && negb (truthy (prop message "leafUuid"))
     && negb (truthy (prop message "summary"))
  then Some false
  else if strict_eq (prop message "type") (JStr "user")
          && truthy (prop message "message")
  then
    if truthy isMeta then Some false
    else
      let msg := prop message "message" in
      let content := prop msg "content" in
      if negb (truthy content)
         || (isArray content && Nat.eqb (array_length content) 0)
      then Some false
      else
        match content with
        | JArr contents =>
            visible ← hasVisibleContent messages index contents;
            if negb (visible : bool) then Some false else Some true
        | _ => Some true
        end
  else Some true.

(** [Array.prototype.filter]: the callback runs on every element in order,
    and an exception it raises leaves the filter. *)
Fixpoint filter_from (messages : list value) (index : nat)
    (rest : list value) : option (list value) :=
  match rest with
  | [] => Some []
  | message :: rest' =>
      keep ← isDisplayable messages index message;
      tl ← filter_from messages (S index) rest';
      Some (if (keep : bool) then message :: tl else tl)
  end.

Definition displayableMessages (messages : list value) : option (list value) :=
  filter_from messages 0 messages.

(** Messages on which no property read of the filter can raise: the message
    and its content blocks are not [null], and a block's [name], when
    present, is a string. *)
Definition block_ok (c : value) : bool :=
  negb (nullish c) &&
  match prop c "name" with
  | JUndefined | JNull | JStr _ => true
  | _ => false
  end.

Definition message_ok (m : value) : bool :=
  negb (nullish m) &&
  match get_opt (prop m "message") "content" with
  | JArr contents => forallb block_ok contents
  | _ => true
  end.

(** Scenario messages. *)
Definition tool_use_block (id name : string) : value :=
  JObj [("type", JStr "tool_use"); ("id", JStr id); ("name", JStr name);
        ("input", JObj [])].

Definition tool_result_block (tool_use_id content : string) : value :=
  JObj [("type", JStr "tool_result"); ("tool_use_id", JStr tool_use_id);
        ("content", JStr content)].

Definition assistant_message (contents : list value) : value :=
  JObj [("type", JStr "assistant"); ("message", JObj [("content", JArr contents)])].

Definition user_message (contents : list value) : value :=
  JObj [("type", JStr "user"); ("message", JObj [("content", JArr contents)])].

(** ** Built-ins of the JavaScript runtime

    The functions of the runtime the components call and that are no code
    of the repository. A line that is no JSON text makes [JSON.parse] raise
    a SyntaxError ([None]). *)
Class Parser := {
  (** [JSON.parse(line)] *)
  JSON_parse : string -> option value
}.

Class Formatter := {
  (** [JSON.stringify(v, null, 2)] inside a template literal *)
  JSON_stringify : value -> string;
  (** [v.toFixed(4)]: a TypeError when [v] is no number *)
  toFixed4 : value -> option string;
  (** [(v / 1000).toFixed(2)] *)
  seconds_toFixed2 : value -> string;
  (** [a + b] inside a template literal *)
  sum_text : value -> value -> string
}.

Definition LF : string := String "010" EmptyString.

(** ToString, as a template literal applies it. *)
Fixpoint ToString (v : value) : string :=
  match v with
  | JUndefined => "undefined"
  | JNull => "null"
  | JBool true => "true"
  | JBool false => "false"
  | JNum n => pretty n
  | JStr s => s
  | JArr elems =>
      String.concat ","
        (map (fun e => if nullish e then "" else ToString e) elems)
  | JObj _ => "[object Object]"
  end.

(** [tools.join(', ')] *)
Definition join (sep : string) (elems : list value) : string :=
  String.concat sep (map (fun e => if nullish e then "" else ToString e) elems).

(** ** Lines of a raw output: [raw.split('\n').filter(line => line.trim())]

    A string is held as the bytes of its UTF-8 text. [trim] removes the
    white space and line terminator characters of ECMAScript: the ASCII
    ones (U+0009 to U+000D and U+0020) and U+00A0, U+1680, U+2000 to
    U+200A, U+2028, U+2029, U+202F, U+205F, U+3000 and U+FEFF. *)

(** One byte: U+0009 to U+000D, U+0020. *)
Definition is_blank (c : ascii) : bool :=
  let n := nat_of_ascii c in
  Nat.eqb n 32 || (Nat.leb 9 n && Nat.leb n 13).

(** Two bytes: U+00A0 (C2 A0). *)
Definition is_blank2 (c d : ascii) : bool :=
  Nat.eqb (nat_of_ascii d) 160 && Nat.eqb (nat_of_ascii c) 194.

(** Three bytes: U+1680 (E1 9A 80); U+2000 to U+200A, U+2028, U+2029 and
    U+202F (E2 80 80 to E2 80 8A, E2 80 A8, E2 80 A9, E2 80 AF); U+205F
    (E2 81 9F); U+3000 (E3 80 80); U+FEFF (EF BB BF). *)
Definition is_blank3 (c d e : ascii) : bool :=
  let n := nat_of_ascii c in
  let m := nat_of_ascii d in
  let k := nat_of_ascii e in
  if Nat.eqb m 128 then
    ((Nat.leb 128 k && Nat.leb k 138) || Nat.eqb k 168 || Nat.eqb k 169
     || Nat.eqb k 175) && Nat.eqb n 226
    || (Nat.eqb k 128 && Nat.eqb n 227)
  else if Nat.eqb m 129 then Nat.eqb k 159 && Nat.eqb n 226
  else if Nat.eqb m 154 then Nat.eqb k 128 && Nat.eqb n 225
  else if Nat.eqb m 187 then Nat.eqb k 191 && Nat.eqb n 239
  else false.

(** [line.trim()] is the empty string: the line is made of white space and
    line terminators only. *)
Fixpoint trim_is_empty (line : string) : bool :=
  match line with
  | EmptyString => true
  | String c rest =>
      if is_blank c then trim_is_empty rest
      else
        match rest with
        | EmptyString => false
        | String d rest' =>
            if is_blank2 c d then trim_is_empty rest'
            else
              match rest' with
              | EmptyString => false
              | String e rest'' => is_blank3 c d e && trim_is_empty rest''
              end
        end
  end.

Fixpoint split (sep : ascii) (s : string) : list string :=
  match s with
  | EmptyString => [EmptyString]
  | String c rest =>
      if Ascii.eqb c sep then EmptyString :: split sep rest
      else
        match split sep rest with
        | [] => [String c EmptyString]
        | first :: others => String c first :: others
        end
  end.

Definition jsonl_lines (raw : string) : list string :=
  List.filter (fun line => negb (trim_is_empty line)) (split "010" raw).

(** [lines.join('\n')] *)
Definition join_lines (lines : list string) : string := String.concat LF lines.

(** The parse loop of [loadOutput]: a line that fails to parse is reported
    with [console.error] and the loop goes on. The result is the array
    [parsedMessages] and the lines reported. *)
Fixpoint parse_lines `{Parser} (jsonlLines : list string)
  : list value * list string :=
  match jsonlLines with
  | [] => ([], [])
  | line :: rest =>
      let '(parsedMessages, failed) := parse_lines rest in
      match JSON_parse line with
      | Some message => (message :: parsedMessages, failed)
      | None => (parsedMessages, line :: failed)
      end
  end.

(** ** The scroll container

    [isAtBottom] is the same function in both components
    (AgentExecution.tsx lines 189-197, AgentRunOutputViewer.tsx lines 82-90). *)

(** The scroll container, with the end marker as its last child. *)
Record container := {
  scrollTop : Z;
  scrollHeight : Z;
  clientHeight : Z
}.

Definition distanceFromBottom (c : container) : Z :=
  scrollHeight c - scrollTop c - clientHeight c.

(** [None] is a ref that holds no element. *)
Definition isAtBottom (c : option container) : bool :=
  match c with
  | Some c => (distanceFromBottom c <? 1)%Z
  | None => true
  end.

(** A new item of height [h] is laid out at the end of the container. *)
Definition grow (h : Z) (c : container) : container :=
  {| scrollTop := scrollTop c; scrollHeight := scrollHeight c + h;
     clientHeight := clientHeight c |}.

(** Where [scrollIntoView] on the end marker, or [scrollToIndex] on the
    last row, leaves the container: scrolled as far down as it goes. The
    smooth animation towards that position is not part of the model. *)
Definition scrollIntoView (c : container) : container :=
  {| scrollTop := Z.max 0 (scrollHeight c - clientHeight c);
     scrollHeight := scrollHeight c; clientHeight := clientHeight c |}.

(** ** AgentRunOutputViewer.tsx *)

Module AgentRunOutputViewer.

(** An entry of the output cache: what [setCachedOutput] stores. *)
Record CachedSessionOutput := {
  output : string;
  cached_messages : list value;
  lastUpdated : Z;
  status : string
}.

(** The [run] prop: [run.id] is optional, [run.status] is the status the
    caller last knew. *)
Record AgentRunWithMetrics := {
  run_id : option Z;
  run_status : string
}.

Inductive console_entry :=
| ParseFailed (line : string)
| LoadFailed.

(** Component state: the React state cells, [unlistenRefs] (whether the
    output listener is registered), the console, and the output cache the
    hook [useOutputCache] gives access to. *)
Record state := {
  messages : list value;
  rawJsonlOutput : list string;
  loading : bool;
  hasUserScrolled : bool;
  toast : option string;
  listening : bool;
  console : list console_entry;
  outputCache : gmap Z CachedSessionOutput
}.

Definition initial (cache : gmap Z CachedSessionOutput) : state :=
  {| messages := []; rawJsonlOutput := []; loading := false;
     hasUserScrolled := false; toast := None; listening := false;
     console := []; outputCache := cache |}.

Definition setMessages (v : list value) (st : state) : state :=
  {| messages := v; rawJsonlOutput := rawJsonlOutput st; loading := loading st;
     hasUserScrolled := hasUserScrolled st; toast := toast st;
     listening := listening st; console := console st;
     outputCache := outputCache st |}.

Definition setRawJsonlOutput (v : list string) (st : state) : state :=
  {| messages := messages st; rawJsonlOutput := v; loading := loading st;
     hasUserScrolled := hasUserScrolled st; toast := toast st;
     listening := listening st; console := console st;
     outputCache := outputCache st |}.

Definition setLoading (v : bool) (st : state) : state :=
  {| messages := messages st; rawJsonlOutput := rawJsonlOutput st; loading := v;
     hasUserScrolled := hasUserScrolled st; toast := toast st;
     listening := listening st; console := console st;
     outputCache := outputCache st |}.

Definition setHasUserScrolled (v : bool) (st : state) : state :=
  {| messages := messages st; rawJsonlOutput := rawJsonlOutput st;
     loading := loading st; hasUserScrolled := v; toast := toast st;
     listening := listening st; console := console st;
     outputCache := outputCache st |}.

Definition setToast (v : string) (st : state) : state :=
  {| messages := messages st; rawJsonlOutput := rawJsonlOutput st;
     loading := loading st; hasUserScrolled := hasUserScrolled st;
     toast := Some v; listening := listening st; console := console st;
     outputCache := outputCache st |}.

Definition setListening (v : bool) (st : state) : state :=
  {| messages := messages st; rawJsonlOutput := rawJsonlOutput st;
     loading := loading st; hasUserScrolled := hasUserScrolled st;
     toast := toast st; listening := v; console := console st;
     outputCache := outputCache st |}.

Definition console_error (entries : list console_entry) (st : state) : state :=
  {| messages := messages st; rawJsonlOutput := rawJsonlOutput st;
     loading := loading st; hasUserScrolled := hasUserScrolled st;
     toast := toast st; listening := listening st;
     console := console st ++ entries; outputCache := outputCache st |}.

(** Modelled from the spec: [getCachedOutput] of [@/lib/outputCache], a file
    that is not among the sources; [get(runId)] returns the entry stored
    for the run or none, with no I/O (spec 4.2). *)
Definition getCachedOutput (id : Z) (st : state) : option CachedSessionOutput :=
  outputCache st !! id.

(** Modelled from the spec: [setCachedOutput] of [@/lib/outputCache];
    [put(runId, entry)] overwrites the entry of that run (spec 4.2). *)
Definition setCachedOutput (id : Z) (entry : CachedSessionOutput) (st : state)
  : state :=
  {| messages := messages st; rawJsonlOutput := rawJsonlOutput st;
     loading := loading st; hasUserScrolled := hasUserScrolled st;
     toast := toast st; listening := listening st; console := console st;
     outputCache := <[id := entry]> (outputCache st) |}.

(** [run.id] when it is truthy: [if (!run.id) return]. *)
Definition truthy_id (run : AgentRunWithMetrics) : option Z :=
  match run_id run with
  | Some id => if (id =? 0)%Z then None else Some id
  | None => None
  end.

Definition is_running (run : AgentRunWithMetrics) : bool :=
  String.eqb (run_status run) "running".

(** Painting the cached entry: lines 124-126 and 304-306. *)
Definition paint_cached (cached : CachedSessionOutput) (st : state) : state :=
  setMessages (cached_messages cached)
    (setRawJsonlOutput (jsonl_lines (output cached)) st).

(** How the synchronous part of [loadOutput] ends: it returns, or it waits
    for [api.getSessionOutput(run.id)]. *)
Inductive load_step :=
| Returned
| Fetching.

(** [loadOutput(skipCache)] up to its first [await] (lines 116-135), at time
    [now = Date.now()]. A [return] inside the [try] runs the [finally]. *)
Definition loadOutput (skipCache : bool) (now : Z) (run : AgentRunWithMetrics)
    (st : state) : state * load_step :=
  match truthy_id run with
  | None => (st, Returned)
  | Some id =>
      let cached := if skipCache then None else getCachedOutput id st in
      match cached with
      | Some cached =>
          let st := paint_cached cached st in
          if (now - lastUpdated cached <? 5000)%Z && negb (is_running run)
          then (setLoading false st, Returned)
          else (setLoading true st, Fetching)
      | None => (setLoading true st, Fetching)
      end
  end.

(** [setupLiveEventListeners] (lines 178-217): the former listeners are
    dropped and the four listeners of the run are registered. *)
Definition setupLiveEventListeners (run : AgentRunWithMetrics) (st : state)
  : state :=
  match truthy_id run with
  | None => st
  | Some _ => setListening true st
  end.

(** [loadOutput] from the point where the fetch resolved with [rawOutput]
    (lines 138-175), at time [now]. The call [api.streamSessionOutput] that
    ends it for a running run asks the backend to emit the live events; a
    failure of that call is logged as a warning and changes no state. *)
Definition loadOutput_resolved `{Parser} (now : Z) (run : AgentRunWithMetrics)
    (rawOutput : string) (st : state) : state :=
  match truthy_id run with
  | None => st
  | Some id =>
      let jsonlLines := jsonl_lines rawOutput in
      let st := setRawJsonlOutput jsonlLines st in
      let '(parsedMessages, failed) := parse_lines jsonlLines in
      let st := console_error (map ParseFailed failed) st in
      let st := setMessages parsedMessages st in
      let st :=
        setCachedOutput id
          {| output := rawOutput; cached_messages := parsedMessages;
             lastUpdated := now; status := run_status run |} st in
      let st := if is_running run then setupLiveEventListeners run st else st in
      setLoading false st
  end.

(** [loadOutput] from the point where the fetch was rejected (lines 170-175). *)
Definition loadOutput_rejected (st : state) : state :=
  setLoading false (setToast "加载代理输出失败" (console_error [LoadFailed] st)).

(** The listener of [agent-output:${run.id}] (lines 187-198) on one payload;
    an event reaches the component only while the listener is registered. *)
Definition on_agent_output `{Parser} (payload : string) (st : state) : state :=
  if listening st then
    let st := setRawJsonlOutput (rawJsonlOutput st ++ [payload]) st in
    match JSON_parse payload with
    | Some message => setMessages (messages st ++ [message]) st
    | None => console_error [ParseFailed payload] st
    end
  else st.

(** Live payloads in arrival order. *)
Definition feed `{Parser} (payloads : list string) (st : state) : state :=
  fold_left (fun st payload => on_agent_output payload st) payloads st.

(** The mount effect (lines 298-311): the cached entry is painted, then
    [loadOutput()] runs. *)
Definition mount (now : Z) (run : AgentRunWithMetrics) (st : state)
  : state * load_step :=
  match truthy_id run with
  | None => (st, Returned)
  | Some id =>
      let st :=
        match getCachedOutput id st with
        | Some cached => paint_cached cached st
        | None => st
        end in
      loadOutput false now run st
  end.

(** [refreshOutput]: [loadOutput(true)]. *)
Definition refreshOutput (now : Z) (run : AgentRunWithMetrics) (st : state)
  : state * load_step :=
  loadOutput true now run st.

Definition handleCopyAsJsonl (st : state) : string :=
  join_lines (rawJsonlOutput st).

(** *** Auto-scroll *)

(** [scrollToBottom] (lines 92-99) *)
Definition scrollToBottom (st : state) (c : option container)
  : option container :=
  if negb (hasUserScrolled st) then scrollIntoView <$> c else c.

(** The effect on [messages] (lines 108-114). *)
Definition autoScroll (st : state) (c : option container) : option container :=
  let shouldAutoScroll := negb (hasUserScrolled st) || isAtBottom c in
  if shouldAutoScroll then scrollToBottom st c else c.

(** [handleScroll] (lines 290-295) *)
Definition handleScroll (target : container) (st : state) : state :=
  setHasUserScrolled (50 <? distanceFromBottom target)%Z st.

(** An appended item is rendered, then the effect on [messages] runs. *)
Definition append_item (st : state) (h : Z) (c : option container)
  : option container :=
  autoScroll st (grow h <$> c).

(** Items of heights [hs] appended one after the other. *)
Definition append_items (st : state) (hs : list Z) (c : option container)
  : option container :=
  fold_left (fun c h => append_item st h c) hs c.

(** *** The other listeners, and the events of a viewer *)

(** The listener of [agent-complete:${run.id}] (lines 205-207). *)
Definition on_agent_complete (st : state) : state :=
  if listening st then setToast "代理执行已完成" st else st.

(** The listener of [agent-cancelled:${run.id}] (lines 209-211). *)
Definition on_agent_cancelled (st : state) : state :=
  if listening st then setToast "代理执行已取消" st else st.

(** What happens to a viewer: its effects and handlers run, fetches settle
    and events arrive, each for the [run] prop of the moment. *)
Inductive event :=
| Mount (now : Z)
| Refresh (now : Z)
| Resolved (now : Z) (rawOutput : string)
| Rejected
| Output (payload : string)
| Complete
| Cancelled
| Scroll (target : container).

Definition step `{Parser} (run : AgentRunWithMetrics) (e : event) (st : state)
  : state :=
  match e with
  | Mount now => fst (mount now run st)
  | Refresh now => fst (refreshOutput now run st)
  | Resolved now rawOutput => loadOutput_resolved now run rawOutput st
  | Rejected => loadOutput_rejected st
  | Output payload => on_agent_output payload st
  | Complete => on_agent_complete st
  | Cancelled => on_agent_cancelled st
  | Scroll target => handleScroll target st
  end.

Definition run_events `{Parser} (trace : list (AgentRunWithMetrics * event))
    (st : state) : state :=
  fold_left (fun st '(run, e) => step run e st) trace st.




End AgentRunOutputViewer.

(** ** AgentExecution.tsx *)

Module AgentExecution.

(** Component state: the React state cells the transcript logic reads or
    writes, [unlistenRefs] and the console.

    [listening] is whether [unlistenRefs.current] holds the listeners of
    the execution started last. [handleExecute] replaces that list without
    removing the listeners it held (line 318), so the listeners of a former
    execution can stay registered; the events of the model are those of
    the execution started last, and a line that a listener of a former
    execution would deliver is not among them.

    [totalTokens] and [elapsedTime] are the cells the effects of lines
    214-245 keep up to date. [totalTokens] is held as an integer. The
    effect of lines 233-245 that computes it from the messages is the
    function [tokens] below, whose result can also be NaN or a text; no
    event of the model runs it, so the cell changes with [handleExecute]
    alone. *)
Record state := {
  projectPath : string;
  task : string;
  model : string;
  isRunning : bool;
  messages : list value;
  rawJsonlOutput : list string;
  error : option string;
  executionStartTime : option Z;
  totalTokens : Z;
  elapsedTime : Z;
  hasUserScrolled : bool;
  listening : bool;
  console : list string
}.

Definition setMessages (v : list value) (st : state) : state :=
  {| projectPath := projectPath st; task := task st; model := model st;
     isRunning := isRunning st; messages := v;
     rawJsonlOutput := rawJsonlOutput st; error := error st;
     executionStartTime := executionStartTime st;
     totalTokens := totalTokens st; elapsedTime := elapsedTime st;
     hasUserScrolled := hasUserScrolled st; listening := listening st;
     console := console st |}.

Definition setRawJsonlOutput (v : list string) (st : state) : state :=
  {| projectPath := projectPath st; task := task st; model := model st;
     isRunning := isRunning st; messages := messages st;
     rawJsonlOutput := v; error := error st;
     executionStartTime := executionStartTime st;
     totalTokens := totalTokens st; elapsedTime := elapsedTime st;
     hasUserScrolled := hasUserScrolled st; listening := listening st;
     console := console st |}.

(** [setIsRunning(false); setExecutionStartTime(null)] *)
Definition setStopped (st : state) : state :=
  {| projectPath := projectPath st; task := task st; model := model st;
     isRunning := false; messages := messages st;
     rawJsonlOutput := rawJsonlOutput st; error := error st;
     executionStartTime := None;
     totalTokens := totalTokens st; elapsedTime := elapsedTime st;
     hasUserScrolled := hasUserScrolled st; listening := listening st;
     console := console st |}.

Definition setError (v : option string) (st : state) : state :=
  {| projectPath := projectPath st; task := task st; model := model st;
     isRunning := isRunning st; messages := messages st;
     rawJsonlOutput := rawJsonlOutput st; error := v;
     executionStartTime := executionStartTime st;
     totalTokens := totalTokens st; elapsedTime := elapsedTime st;
     hasUserScrolled := hasUserScrolled st; listening := listening st;
     console := console st |}.

Definition setHasUserScrolled (v : bool) (st : state) : state :=
  {| projectPath := projectPath st; task := task st; model := model st;
     isRunning := isRunning st; messages := messages st;
     rawJsonlOutput := rawJsonlOutput st; error := error st;
     executionStartTime := executionStartTime st;
     totalTokens := totalTokens st; elapsedTime := elapsedTime st;
     hasUserScrolled := v; listening := listening st;
     console := console st |}.

Definition setListening (v : bool) (st : state) : state :=
  {| projectPath := projectPath st; task := task st; model := model st;
     isRunning := isRunning st; messages := messages st;
     rawJsonlOutput := rawJsonlOutput st; error := error st;
     executionStartTime := executionStartTime st;
     totalTokens := totalTokens st; elapsedTime := elapsedTime st;
     hasUserScrolled := hasUserScrolled st; listening := v;
     console := console st |}.

Definition console_error (line : string) (st : state) : state :=
  {| projectPath := projectPath st; task := task st; model := model st;
     isRunning := isRunning st; messages := messages st;
     rawJsonlOutput := rawJsonlOutput st; error := error st;
     executionStartTime := executionStartTime st;
     totalTokens := totalTokens st; elapsedTime := elapsedTime st;
     hasUserScrolled := hasUserScrolled st; listening := listening st;
     console := console st ++ [line] |}.

(** [handleExecute] up to [await api.executeAgent] (lines 268-283), at time
    [now]: the transcript of the former execution is cleared. *)
Definition handleExecute (now : Z) (st : state) : state :=
  if String.eqb (projectPath st) "" || trim_is_empty (task st) then st
  else
    {| projectPath := projectPath st; task := task st; model := model st;
       isRunning := true; messages := []; rawJsonlOutput := [];
       error := None; executionStartTime := Some now;
       totalTokens := 0; elapsedTime := 0;
       hasUserScrolled := hasUserScrolled st; listening := listening st;
       console := console st |}.

(** [handleExecute] once the run id is known (lines 285-318): the four
    listeners of the run are registered. *)
Definition handleExecute_started (st : state) : state := setListening true st.

(** The listener of [agent-output:${runId}] (lines 286-297). *)
Definition on_agent_output `{Parser} (payload : string) (st : state) : state :=
  if listening st then
    let st := setRawJsonlOutput (rawJsonlOutput st ++ [payload]) st in
    match JSON_parse payload with
    | Some message => setMessages (messages st ++ [message]) st
    | None => console_error payload st
    end
  else st.

Definition feed `{Parser} (payloads : list string) (st : state) : state :=
  fold_left (fun st payload => on_agent_output payload st) payloads st.

(** The message [handleStop] appends (lines 339-349). *)
Definition stopMessage (elapsedTime totalTokens : Z) : value :=
  JObj [("type", JStr "result");
        ("subtype", JStr "error");
        ("is_error", JBool true);
        ("result", JStr "执行已被用户停止");
        ("duration_ms", JNum (elapsedTime * 1000));
        ("usage", JObj [("input_tokens", JNum totalTokens);
                        ("output_tokens", JNum 0)])].

(** [handleStop] (lines 327-353) *)
Definition handleStop (st : state) : state :=
  let st := setStopped st in
  let st := setListening false st in
  setMessages (messages st ++ [stopMessage (elapsedTime st) (totalTokens st)]) st.

(** [handleCopyAsJsonl] (lines 374-378): the text written to the clipboard. *)
Definition handleCopyAsJsonl (st : state) : string :=
  join_lines (rawJsonlOutput st).

(** *** The Markdown export (lines 380-444) *)

(** [a || b] *)
Definition or_else (a b : value) : value := if truthy a then a else b.

(** The values [for (const content of v || [])] iterates over: the elements
    of an array, the characters of a string; any other truthy value is not
    iterable. *)
Definition iterate (v : value) : option (list value) :=
  if negb (truthy v) then Some []
  else
    match v with
    | JArr elems => Some elems
    | JStr s => Some (map (fun c => JStr (String c EmptyString)) (list_ascii_of_string s))
    | _ => None
    end.

Fixpoint concat_sections (render : value -> option string) (vs : list value)
  : option string :=
  match vs with
  | [] => Some ""
  | v :: rest =>
      first ← render v;
      others ← concat_sections render rest;
      Some (first +:+ others)
  end.

(** [if (msg.tools?.length) markdown += ... msg.tools.join(', ')] *)
Definition tools_line (tools : value) : option string :=
  match tools with
  | JArr elems =>
      Some (if Nat.eqb (length elems) 0 then ""
            else "- 工具: " +:+ join ", " elems +:+ LF)
  | JStr s => if String.eqb s "" then Some "" else None
  | JObj _ => if truthy (prop tools "length") then None else Some ""
  | _ => Some ""
  end.

Definition system_section (msg : value) : option string :=
  tools ← tools_line (prop msg "tools");
  Some ("## 系统初始化" +:+ LF +:+ LF
        +:+ "- 会话 ID: `" +:+ ToString (or_else (prop msg "session_id") (JStr "无")) +:+ "`" +:+ LF
        +:+ "- 模型: `" +:+ ToString (or_else (prop msg "model") (JStr "默认")) +:+ "`" +:+ LF
        +:+ (if truthy (prop msg "cwd")
             then "- 工作目录: `" +:+ ToString (prop msg "cwd") +:+ "`" +:+ LF
             else "")
        +:+ tools +:+ LF).

Definition assistant_block `{Formatter} (content : value) : option string :=
  ty ← get content "type";
  if strict_eq ty (JStr "text") then
    Some (ToString (prop content "text") +:+ LF +:+ LF)
  else if strict_eq ty (JStr "tool_use") then
    Some ("### 工具: " +:+ ToString (prop content "name") +:+ LF +:+ LF
          +:+ "```json" +:+ LF +:+ JSON_stringify (prop content "input") +:+ LF
          +:+ "```" +:+ LF +:+ LF)
  else Some "".

Definition assistant_section `{Formatter} (msg : value) : option string :=
  let message := prop msg "message" in
  contents ← iterate (prop message "content");
  blocks ← concat_sections assistant_block contents;
  let usage := prop message "usage" in
  Some ("## 助手" +:+ LF +:+ LF +:+ blocks
        +:+ (if truthy usage
             then "*令牌数: 输入 " +:+ ToString (prop usage "input_tokens")
                  +:+ ", 输出 " +:+ ToString (prop usage "output_tokens")
                  +:+ "*" +:+ LF +:+ LF
             else "")).

Definition user_block (content : value) : option string :=
  ty ← get content "type";
  if strict_eq ty (JStr "text") then
    Some (ToString (prop content "text") +:+ LF +:+ LF)
  else if strict_eq ty (JStr "tool_result") then
    Some ("### 工具结果" +:+ LF +:+ LF
          +:+ "```" +:+ LF +:+ ToString (prop content "content") +:+ LF
          +:+ "```" +:+ LF +:+ LF)
  else Some "".

Definition user_section (msg : value) : option string :=
  contents ← iterate (prop (prop msg "message") "content");
  blocks ← concat_sections user_block contents;
  Some ("## 用户" +:+ LF +:+ LF +:+ blocks).

Definition result_section `{Formatter} (msg : value) : option string :=
  cost ←
    (if negb (strict_eq (prop msg "cost_usd") JUndefined) then
       text ← toFixed4 (prop msg "cost_usd");
       Some ("- **成本:** $" +:+ text +:+ " USD" +:+ LF)
     else Some "");
  let usage := prop msg "usage" in
  Some ("## 执行结果" +:+ LF +:+ LF
        +:+ (if truthy (prop msg "result")
             then ToString (prop msg "result") +:+ LF +:+ LF else "")
        +:+ (if truthy (prop msg "error")
             then "**错误:** " +:+ ToString (prop msg "error") +:+ LF +:+ LF
             else "")
        +:+ cost
        +:+ (if negb (strict_eq (prop msg "duration_ms") JUndefined)
             then "- **持续时间:** " +:+ seconds_toFixed2 (prop msg "duration_ms")
                  +:+ "秒" +:+ LF
             else "")
        +:+ (if negb (strict_eq (prop msg "num_turns") JUndefined)
             then "- **回合数:** " +:+ ToString (prop msg "num_turns") +:+ LF
             else "")
        +:+ (if truthy usage
             then "- **总令牌数:** "
                  +:+ sum_text (prop usage "input_tokens") (prop usage "output_tokens")
                  +:+ " (输入 " +:+ ToString (prop usage "input_tokens")
                  +:+ ", 输出 " +:+ ToString (prop usage "output_tokens")
                  +:+ ")" +:+ LF
             else "")).

(** The text one message adds to the export: the body of the loop
    [for (const msg of messages)]. *)
Definition markdown_section `{Formatter} (msg : value) : option string :=
  ty ← get msg "type";
  if strict_eq ty (JStr "system") && strict_eq (prop msg "subtype") (JStr "init")
  then system_section msg
  else if strict_eq ty (JStr "assistant") && truthy (prop msg "message")
  then assistant_section msg
  else if strict_eq ty (JStr "user") && truthy (prop msg "message")
  then user_section msg
  else if strict_eq ty (JStr "result")
  then result_section msg
  else Some "".

Definition markdown_header (agent_name date : string) (st : state) : string :=
  "# 代理执行: " +:+ agent_name +:+ LF +:+ LF
  +:+ "**任务:** " +:+ task st +:+ LF
  +:+ "**模型:** "
  +:+ (if String.eqb (model st) "opus" then "Claude 4 Opus" else "Claude 4 Sonnet")
  +:+ LF
  +:+ "**日期:** " +:+ date +:+ LF +:+ LF
  +:+ "---" +:+ LF +:+ LF.

(** [handleCopyAsMarkdown]: the text written to the clipboard, for the
    agent named [agent_name] when the clock reads [date]. *)
Definition handleCopyAsMarkdown `{Formatter} (agent_name date : string)
    (st : state) : option string :=
  body ← concat_sections markdown_section (messages st);
  Some (markdown_header agent_name date st +:+ body).

(** *** Auto-scroll *)

(** The [onScroll] handler of the two scroll containers (lines 686-696 and
    829-839); [c] is the container [isAtBottom] reads. *)
Definition onScroll (c : option container) (st : state) : state :=
  let st := if negb (hasUserScrolled st) then setHasUserScrolled true st else st in
  if isAtBottom c then setHasUserScrolled false st else st.

(** The effect on [displayableMessages.length] (lines 199-212). *)
Definition autoScroll (displayable : list value) (st : state)
    (c : option container) : option container :=
  if Nat.eqb (length displayable) 0 then c
  else
    let shouldAutoScroll := negb (hasUserScrolled st) || isAtBottom c in
    if shouldAutoScroll then scrollIntoView <$> c else c.

(** A row of height [h] is appended to the visible list [displayable] (the
    list with the new row), then the effect runs. *)
Definition append_row (displayable : list value) (st : state) (h : Z)
    (c : option container) : option container :=
  autoScroll displayable st (grow h <$> c).

(** *** The row virtualizer (lines 163-176 and 722-742)

    [useVirtualizer] is given the number of rows, a constant size estimate
    and the overscan, and no [getItemKey]: a row is known to it by its
    position in [displayableMessages] alone. Each rendered row carries that
    position as [data-index], which is how [measureElement] attributes the
    measured height. *)
Record VirtualizerOptions := {
  count : nat;
  estimateSize : nat -> Z;
  overscan : nat
}.

Definition rowVirtualizer (displayable : list value) : VirtualizerOptions :=
  {| count := length displayable; estimateSize := fun _ => 150%Z;
     overscan := 5 |}.

Record VirtualItem := {
  index : nat;
  key : nat;
  size : Z;
  start : Z
}.

(** The measured heights, by row key. *)
Definition measureElement (data_index : nat) (height : Z)
    (sizes : gmap nat Z) : gmap nat Z :=
  <[data_index := height]> sizes.

Definition itemSize (options : VirtualizerOptions) (sizes : gmap nat Z)
    (i : nat) : Z :=
  default (estimateSize options i) (sizes !! i).

Fixpoint measurements_from (options : VirtualizerOptions) (sizes : gmap nat Z)
    (i n : nat) (offset : Z) : list VirtualItem :=
  match n with
  | O => []
  | S n' =>
      let sz := itemSize options sizes i in
      {| index := i; key := i; size := sz; start := offset |}
      :: measurements_from options sizes (S i) n' (offset + sz)
  end.

(** One item per row, in order, with its offset. *)
Definition getMeasurements (options : VirtualizerOptions) (sizes : gmap nat Z)
  : list VirtualItem :=
  measurements_from options sizes 0 (count options) 0.

(** The message a row shows: [displayableMessages[virtualItem.index]]. *)
Definition row_message (displayable : list value) (item : VirtualItem)
  : option value :=
  displayable !! index item.

(** *** The other listeners and effects, and the events of an execution *)

Definition setElapsedTime (v : Z) (st : state) : state :=
  {| projectPath := projectPath st; task := task st; model := model st;
     isRunning := isRunning st; messages := messages st;
     rawJsonlOutput := rawJsonlOutput st; error := error st;
     executionStartTime := executionStartTime st;
     totalTokens := totalTokens st; elapsedTime := v;
     hasUserScrolled := hasUserScrolled st; listening := listening st;
     console := console st |}.

(** The interval callback of the effect of lines 215-231, at time [now]:
    the interval exists while the execution runs and has a start time. *)
Definition tick (now : Z) (st : state) : state :=
  match executionStartTime st with
  | Some start =>
      if isRunning st && negb (start =? 0)%Z
      then setElapsedTime ((now - start) / 1000)%Z st
      else st
  | None => st
  end.

(** The listener of [agent-error:${runId}] (lines 299-302). *)
Definition on_agent_error (text : string) (st : state) : state :=
  if listening st then setError (Some text) (console_error text st) else st.

(** The listener of [agent-complete:${runId}] (lines 304-310); [success] is
    the payload. *)
Definition on_agent_complete (success : bool) (st : state) : state :=
  if listening st then
    let st := setStopped st in
    if negb success then setError (Some "代理执行失败") st else st
  else st.

(** The listener of [agent-cancelled:${runId}] (lines 312-316). *)
Definition on_agent_cancelled (st : state) : state :=
  if listening st then setError (Some "代理执行已取消") (setStopped st) else st.

(** [handleBackWithConfirmation] (lines 355-372); [shouldLeave] is the
    answer to the confirmation asked while the execution runs. *)
Definition handleBackWithConfirmation (shouldLeave : bool) (st : state) : state :=
  if isRunning st && negb shouldLeave then st else setListening false st.

Inductive event :=
| Execute (now : Z)
| Started
| Output (payload : string)
| AgentError (text : string)
| Complete (success : bool)
| Cancelled
| Tick (now : Z)
| Stop
| Back (shouldLeave : bool)
| Scroll (c : option container).

Definition step `{Parser} (e : event) (st : state) : state :=
  match e with
  | Execute now => handleExecute now st
  | Started => handleExecute_started st
  | Output payload => on_agent_output payload st
  | AgentError text => on_agent_error text st
  | Complete success => on_agent_complete success st
  | Cancelled => on_agent_cancelled st
  | Tick now => tick now st
  | Stop => handleStop st
  | Back shouldLeave => handleBackWithConfirmation shouldLeave st
  | Scroll c => onScroll c st
  end.

Definition run_events `{Parser} (trace : list event) (st : state) : state :=
  fold_left (fun st e => step e st) trace st.

Definition is_stop (e : event) : bool :=
  match e with
  | Stop => true
  | _ => false
  end.

(** *** The token total (lines 233-245) *)

(** What [+] returns on the values met there: a number, NaN or a string. *)
Inductive sum_value :=
| SumNum (n : Z)
| SumNaN
| SumStr (s : string).

Definition sum_ToString (a : sum_value) : string :=
  match a with
  | SumNum n => pretty n
  | SumNaN => "NaN"
  | SumStr s => s
  end.

(** [a + v]: a string, an array or an object on the right makes it a
    concatenation, and so does a string on the left; otherwise the right
    operand is turned into a number ([undefined] into NaN). The sum of two
    numbers is the sum of the integers, which is what the runtime computes
    as long as the operands and the sum are within 2^53 in absolute value;
    beyond that the runtime rounds. *)
Definition js_add (a : sum_value) (v : value) : sum_value :=
  match v with
  | JStr _ | JArr _ | JObj _ => SumStr (sum_ToString a +:+ ToString v)
  | JUndefined =>
      match a with
      | SumStr s => SumStr (s +:+ "undefined")
      | _ => SumNaN
      end
  | JNull =>
      match a with
      | SumStr s => SumStr (s +:+ "null")
      | _ => a
      end
  | JBool b =>
      match a with
      | SumStr s => SumStr (s +:+ ToString (JBool b))
      | SumNaN => SumNaN
      | SumNum n => SumNum (n + if b then 1 else 0)
      end
  | JNum m =>
      match a with
      | SumStr s => SumStr (s +:+ pretty m)
      | SumNaN => SumNaN
      | SumNum n => SumNum (n + m)
      end
  end.

(** The usage object the callback of [reduce] counts for one message:
    [msg.message?.usage] when it is truthy, else [msg.usage] when it is
    truthy, else none. *)
Definition counted_usage (msg : value) : option (option value) :=
  message ← get msg "message";
  let usage := get_opt message "usage" in
  if truthy usage then Some (Some usage)
  else if truthy (prop msg "usage") then Some (Some (prop msg "usage"))
  else Some None.

(** [messages.reduce(..., total)] *)
Fixpoint reduce_tokens (total : sum_value) (messages : list value)
  : option sum_value :=
  match messages with
  | [] => Some total
  | msg :: rest =>
      usage ← counted_usage msg;
      match usage with
      | Some usage =>
          reduce_tokens
            (js_add (js_add total (prop usage "input_tokens"))
               (prop usage "output_tokens")) rest
      | None => reduce_tokens total rest
      end
  end.

(** The value the effect passes to [setTotalTokens]. *)
Definition tokens (messages : list value) : option sum_value :=
  reduce_tokens (SumNum 0) messages.

End AgentExecution.

(** ** ErrorBoundary.tsx *)

Module ErrorBoundary.

(** An [Error]: the boundary reads its message. *)
Record Error := {
  message : string
}.

Record state := {
  hasError : bool;
  error : option Error
}.

(** The state the constructor sets. *)
Definition initial : state := {| hasError := false; error := None |}.

Definition getDerivedStateFromError (e : Error) : state :=
  {| hasError := true; error := Some e |}.

Definition reset (st : state) : state := {| hasError := false; error := None |}.

(** What [render] returns: the children, the custom fallback applied to the
    error, or the default card, with the details when the message is not
    empty. *)
Inductive rendered :=
| Children
| Fallback (e : Error)
| DefaultCard (details : option string).

Definition render (has_fallback : bool) (st : state) : rendered :=
  match hasError st, error st with
  | true, Some e =>
      if has_fallback then Fallback e
      else DefaultCard (if String.eqb (message e) "" then None
                        else Some (message e))
  | _, _ => Children
  end.

Inductive event :=
| Caught (e : Error)
| Reset.

Definition step (ev : event) (st : state) : state :=
  match ev with
  | Caught e => getDerivedStateFromError e
  | Reset => reset st
  end.

Definition run_events (trace : list event) (st : state) : state :=
  fold_left (fun st ev => step ev st) trace st.

End ErrorBoundary.

(** ** Vocabulary of the properties *)

(** A tool_use block that carries the id [tool_use_id]. *)
Definition is_tool_use_for (tool_use_id c : value) : bool :=
  strict_eq (prop c "type") (JStr "tool_use")
  && strict_eq (prop c "id") tool_use_id.

(** The content blocks of an assistant message whose content is a list. *)
Definition assistant_contents (m : value) : option (list value) :=
  if strict_eq (prop m "type") (JStr "assistant") then
    match get_opt (prop m "message") "content" with
    | JArr contents => Some contents
    | _ => None
    end
  else None.

(** An assistant message with a tool_use block for [tool_use_id]. *)
Definition has_tool_use_for (tool_use_id m : value) : bool :=
  match assistant_contents m with
  | Some contents => existsb (is_tool_use_for tool_use_id) contents
  | None => false
  end.

(** The tool_use block a backward scan of [preceding] (most recent message
    first) matches to [tool_use_id]: the first such block of the first
    assistant message that has one (spec 4.3, first match wins). *)
Definition first_tool_use_for (tool_use_id : value) (preceding : list value)
  : option value :=
  prevMsg ← List.find (has_tool_use_for tool_use_id) preceding;
  contents ← assistant_contents prevMsg;
  List.find (is_tool_use_for tool_use_id) contents.

(** The tool_use block matched to the tool_result block [content] of the
    message at position [index]. *)
Definition matching_tool_use (messages : list value) (index : nat)
    (content : value) : option value :=
  first_tool_use_for (prop content "tool_use_id") (rev (take index messages)).

(** The self-rendering classification of a tool name (spec 4.3): the name
    in lower case is one of the ten widget tools, or the name as written
    starts with [mcp__]. *)
Definition selfRendering (name : value) : bool :=
  match name with
  | JStr s =>
      existsb (String.eqb (toLowerCase s)) toolsWithWidgets
      || startsWith s "mcp__"
  | _ => false
  end.

(** The merge the spec describes for a snapshot of [snapshot] lines and the
    live lines [buffered] while it was fetched (spec 4.1): the log starts as
    the snapshot, each buffered line that is already a line of the log is
    discarded, the others are appended in order. *)
Definition snapshot_then_subscribe (snapshot buffered : list string)
  : list string :=
  fold_left
    (fun log line =>
       if existsb (String.eqb line) log then log else log ++ [line])
    buffered snapshot.

(** The validity rule the spec words (spec 4.2): the entry is younger than
    the freshness window of 5000 ms and the status stored in it when it was
    captured is not running. *)
Definition valid_at_capture (now : Z)
    (entry : AgentRunOutputViewer.CachedSessionOutput) : bool :=
  (now - AgentRunOutputViewer.lastUpdated entry <? 5000)%Z
  && negb (String.eqb (AgentRunOutputViewer.status entry) "running").


(** [JSON.parse] on the lines of a scenario: a line of [table] parses to the
    value listed for it, any other line is no JSON text. *)
Definition table_parser (table : list (string * value)) : Parser :=
  {| JSON_parse := fun line =>
       snd <$> List.find (fun entry => String.eqb line (fst entry)) table |}.

(** A line with no line feed in it. *)
Fixpoint no_line_feed (line : string) : bool :=
  match line with
  | EmptyString => true
  | String c rest => negb (Ascii.eqb c "010") && no_line_feed rest
  end.

(** A message flagged meta that has neither a leaf link nor a summary. *)
Definition bare_meta (message : value) : bool :=
  truthy (prop message "isMeta")
  && negb (truthy (prop message "leafUuid"))
  && negb (truthy (prop message "summary")).

(** A block that makes a user message visible: a text block, or a
    tool_result block that has no tool_use_id or is matched to no
    self-rendering tool. *)
Definition block_visible (messages : list value) (index : nat)
    (content : value) : bool :=
  strict_eq (prop content "type") (JStr "text")
  || (strict_eq (prop content "type") (JStr "tool_result")
      && negb (truthy (prop content "tool_use_id")
               && match matching_tool_use messages index content with
                  | Some toolUse => selfRendering (prop toolUse "name")
                  | None => false
                  end)).

(** The visibility of the message at position [index], stated without the
    loops: the meta rule, then for a user message with a [message] field
    the content rule. *)
Definition visible (messages : list value) (index : nat) (message : value)
  : bool :=
  negb (bare_meta message)
  && (if strict_eq (prop message "type") (JStr "user")
         && truthy (prop message "message")
      then
        negb (truthy (prop message "isMeta"))
        && match prop (prop message "message") "content" with
           | JArr contents => existsb (block_visible messages index) contents
           | content => truthy content
           end
      else true).

(** The messages of [rest], which starts at position [index] of the log,
    that are visible. *)
Fixpoint select_from (messages : list value) (index : nat) (rest : list value)
  : list value :=
  match rest with
  | [] => []
  | message :: rest' =>
      if visible messages index message
      then message :: select_from messages (S index) rest'
      else select_from messages (S index) rest'
  end.

(** The state of a viewer agrees with itself: the parsed messages are the
    raw lines parsed in order, and so are those of every cached entry. *)
Definition consistent `{Parser} (st : AgentRunOutputViewer.state) : Prop :=
  AgentRunOutputViewer.messages st
  = omap JSON_parse (AgentRunOutputViewer.rawJsonlOutput st)
  /\ forall (id : Z) (entry : AgentRunOutputViewer.CachedSessionOutput),
       AgentRunOutputViewer.outputCache st !! id = Some entry ->
       AgentRunOutputViewer.cached_messages entry
       = omap JSON_parse (jsonl_lines (AgentRunOutputViewer.output entry)).

(** The usage a message is counted with: that of its [message] field when
    there is one, else its own. *)
Definition usage_of (msg : value) : value :=
  if truthy (prop (prop msg "message") "usage")
  then prop (prop msg "message") "usage"
  else prop msg "usage".

(** The token count of a message: the sum of the two counts of the usage
    it is counted with when both are integers that are not negative,
    nothing when it has no usage. *)
Definition integer_usage (msg : value) : option Z :=
  if nullish msg then None
  else if truthy (usage_of msg) then
    match prop (usage_of msg) "input_tokens",
          prop (usage_of msg) "output_tokens" with
    | JNum i, JNum o =>
        if (0 <=? i)%Z && (0 <=? o)%Z then Some (i + o)%Z else None
    | _, _ => None
    end
  else Some 0%Z.

(** A total that is a number. *)
Definition is_number (total : AgentExecution.sum_value) : bool :=
  match total with
  | AgentExecution.SumNum _ => true
  | _ => false
  end.

(** An event that is the resolution of a fetch. *)
Definition is_resolved (e : AgentRunOutputViewer.event) : bool :=
  match e with
  | AgentRunOutputViewer.Resolved _ _ => true
  | _ => false
  end.

(** An event of the viewer that comes from a listener. *)
Definition is_live (e : AgentRunOutputViewer.event) : bool :=
  match e with
  | AgentRunOutputViewer.Output _
  | AgentRunOutputViewer.Complete
  | AgentRunOutputViewer.Cancelled => true
  | _ => false
  end.

(** A text of ASCII characters: every byte is below 128. *)
Fixpoint is_ascii (s : string) : bool :=
  match s with
  | EmptyString => true
  | String c rest => Nat.ltb (nat_of_ascii c) 128 && is_ascii rest
  end.

(** A tool name that is no text, or a text of ASCII characters. *)
Definition ascii_name (name : value) : bool :=
  match name with
  | JStr s => is_ascii s
  | _ => true
  end.

(** The content blocks of a message all have such names. *)
Definition ascii_tool_names (message : value) : bool :=
  match prop (prop message "message") "content" with
  | JArr contents => forallb (fun c => ascii_name (prop c "name")) contents
  | _ => true
  end.

(** The largest integer up to which every integer is a number of the
    runtime, so that sums up to it are exact: 2^53. *)
Definition exact_limit : Z := 9007199254740992.


(** * Properties *)

(** ** Property reads and the widget test *)

Lemma get_Some (v : value) (k : string) :
  nullish v = false -> get v k = Some (prop v k).
Proof. intros Hv. unfold get. now rewrite Hv. Qed.

Lemma block_ok_not_null (c : value) : block_ok c = true -> nullish c = false.
Proof.
  unfold block_ok. intros H. apply andb_prop in H as [H _].
  now apply negb_true_iff in H.
Qed.

Lemma message_ok_not_null (m : value) : message_ok m = true -> nullish m = false.
Proof.
  unfold message_ok. intros H. apply andb_prop in H as [H _].
  now apply negb_true_iff in H.
Qed.

Lemma message_ok_contents (m : value) (contents : list value) :
  message_ok m = true ->
  get_opt (prop m "message") "content" = JArr contents ->
  forallb block_ok contents = true.
Proof.
  unfold message_ok. intros H Hc. apply andb_prop in H as [_ H].
  now rewrite Hc in H.
Qed.

Lemma includes_JStr (l : list string) (s : string) :
  includes (map JStr l) (JStr s) = existsb (String.eqb s) l.
Proof.
  unfold includes. induction l as [|x l IH]; simpl; [reflexivity|].
  now rewrite IH.
Qed.

Lemma includes_JUndefined (l : list string) :
  includes (map JStr l) JUndefined = false.
Proof. unfold includes. induction l as [|x l IH]; simpl; auto. Qed.

(** On a block whose name is a string or missing, the test of the code is
    the self-rendering classification of the name. *)
Lemma hasWidget_selfRendering (toolUse : value) :
  block_ok toolUse = true ->
  hasWidget toolUse = Some (selfRendering (prop toolUse "name")).
Proof.
  intros Hok. pose proof (block_ok_not_null _ Hok) as Hnn.
  unfold hasWidget. rewrite (get_Some _ _ Hnn).
  unfold block_ok in Hok. rewrite Hnn in Hok. simpl in Hok.
  destruct (prop toolUse "name") as [| |b|n|s|l|o]; try discriminate;
    cbn [mbind option_bind opt_toLowerCase opt_startsWith selfRendering].
  - now rewrite includes_JUndefined.
  - now rewrite includes_JUndefined.
  - rewrite includes_JStr.
    destruct (existsb (String.eqb (toLowerCase s)) toolsWithWidgets); [reflexivity|].
    cbn [orb truthy]. reflexivity.
Qed.

Lemma find_tool_use_find (contents : list value) (tool_use_id : value) :
  forallb block_ok contents = true ->
  find_tool_use contents tool_use_id
  = Some (List.find (is_tool_use_for tool_use_id) contents).
Proof.
  induction contents as [|c rest IH]; simpl; [reflexivity|].
  intros H. apply andb_prop in H as [Hc Hrest].
  rewrite (get_Some _ _ (block_ok_not_null _ Hc)). simpl.
  unfold is_tool_use_for at 1.
  destruct (strict_eq (prop c "type") (JStr "tool_use") && strict_eq (prop c "id") tool_use_id);
    [reflexivity | now apply IH].
Qed.

(** One step of the backward scan on a well-formed message. *)
Lemma scan_previous_cons (prevMsg : value) (older : list value) (tool_use_id : value) :
  message_ok prevMsg = true ->
  scan_previous (prevMsg :: older) tool_use_id
  = match assistant_contents prevMsg with
    | Some contents =>
        match List.find (is_tool_use_for tool_use_id) contents with
        | Some toolUse => hasWidget toolUse
        | None => scan_previous older tool_use_id
        end
    | None => scan_previous older tool_use_id
    end.
Proof.
  intros Hok. simpl.
  rewrite (get_Some _ _ (message_ok_not_null _ Hok)). simpl.
  unfold assistant_contents.
  destruct (strict_eq (prop prevMsg "type") (JStr "assistant")); simpl; [|reflexivity].
  pose proof (message_ok_contents prevMsg) as Hcs.
  destruct (get_opt (prop prevMsg "message") "content") as [| |b|n|s|contents|o];
    simpl; try reflexivity.
  - now destruct b.
  - now destruct (negb (n =? 0)%Z).
  - now destruct (negb (String.eqb s "")).
  - rewrite (find_tool_use_find contents tool_use_id (Hcs contents Hok eq_refl)).
    simpl. reflexivity.
Qed.

(** ** The backward scan *)

Lemma scan_previous_total (preceding : list value) (tool_use_id : value) :
  forallb message_ok preceding = true ->
  exists skipped, scan_previous preceding tool_use_id = Some skipped.
Proof.
  induction preceding as [|m older IH]; intros H.
  - now exists false.
  - apply andb_prop in H as [Hm Holder].
    rewrite (scan_previous_cons _ _ _ Hm).
    destruct (assistant_contents m) as [contents|] eqn:Hc; [|now apply IH].
    destruct (List.find (is_tool_use_for tool_use_id) contents) as [toolUse|] eqn:Hf;
      [|now apply IH].
    unfold assistant_contents in Hc.
    destruct (strict_eq (prop m "type") (JStr "assistant")); [|discriminate].
    destruct (get_opt (prop m "message") "content") eqn:Hg; try discriminate.
    injection Hc as ->.
    pose proof (message_ok_contents _ _ Hm Hg) as Hblocks.
    apply find_some in Hf as [Hin _].
    rewrite forallb_forall in Hblocks.
    rewrite (hasWidget_selfRendering _ (Hblocks _ Hin)). eauto.
Qed.

(** No preceding assistant message has a tool_use block for the id: the
    scan runs to the start of the log and skips nothing. *)
Lemma scan_previous_no_match (preceding : list value) (tool_use_id : value) :
  forallb message_ok preceding = true ->
  (forall m, In m preceding -> has_tool_use_for tool_use_id m = false) ->
  scan_previous preceding tool_use_id = Some false.
Proof.
  induction preceding as [|m older IH]; intros H Hno; [reflexivity|].
  apply andb_prop in H as [Hm Holder].
  rewrite (scan_previous_cons _ _ _ Hm).
  pose proof (Hno m (or_introl eq_refl)) as Hm_no.
  unfold has_tool_use_for in Hm_no.
  destruct (assistant_contents m) as [contents|].
  - destruct (List.find (is_tool_use_for tool_use_id) contents) as [toolUse|] eqn:Hf.
    + apply find_some in Hf as [Hin Ht].
      assert (existsb (is_tool_use_for tool_use_id) contents = true) as Hex
        by (apply existsb_exists; eauto).
      congruence.
    + apply IH; [assumption | intros; apply Hno; now right].
  - apply IH; [assumption | intros; apply Hno; now right].
Qed.

(** The scan stops at the most recent preceding assistant message that
    holds a tool_use block for the id, and the first such block of that
    message decides. *)
Lemma scan_previous_matching (preceding : list value) (tool_use_id : value) :
  forallb message_ok preceding = true ->
  scan_previous preceding tool_use_id
  = Some match first_tool_use_for tool_use_id preceding with
         | Some toolUse => selfRendering (prop toolUse "name")
         | None => false
         end.
Proof.
  unfold first_tool_use_for.
  induction preceding as [|m older IH]; intros H; [reflexivity|].
  apply andb_prop in H as [Hm Holder].
  rewrite (scan_previous_cons _ _ _ Hm). cbn [List.find].
  unfold has_tool_use_for at 1.
  destruct (assistant_contents m) as [contents|] eqn:Hc; [|now apply IH].
  destruct (List.find (is_tool_use_for tool_use_id) contents) as [toolUse|] eqn:Hf.
  - assert (existsb (is_tool_use_for tool_use_id) contents = true) as ->.
    { apply find_some in Hf as [Hin Ht]. apply existsb_exists. eauto. }
    cbn [mbind option_bind]. rewrite Hc. cbn [mbind option_bind]. rewrite Hf.
    apply hasWidget_selfRendering.
    unfold assistant_contents in Hc.
    destruct (strict_eq (prop m "type") (JStr "assistant")); [|discriminate].
    destruct (get_opt (prop m "message") "content") eqn:Hg; try discriminate.
    injection Hc as ->.
    pose proof (message_ok_contents _ _ Hm Hg) as Hblocks.
    rewrite forallb_forall in Hblocks. apply Hblocks.
    now apply find_some in Hf as [Hin _].
  - assert (existsb (is_tool_use_for tool_use_id) contents = false) as ->.
    { destruct (existsb (is_tool_use_for tool_use_id) contents) eqn:Hex; [|reflexivity].
      apply existsb_exists in Hex as (c & Hin & Hc').
      pose proof (find_none _ _ Hf c Hin). congruence. }
    now apply IH.
Qed.

Lemma forallb_take {A} (f : A -> bool) (n : nat) (l : list A) :
  forallb f l = true -> forallb f (take n l) = true.
Proof.
  revert n. induction l as [|x l IH]; intros [|n] H; simpl; try reflexivity.
  simpl in H. apply andb_prop in H as [Hx Hl]. rewrite Hx. now apply IH.
Qed.

Lemma forallb_rev {A} (f : A -> bool) (l : list A) :
  forallb f l = true -> forallb f (rev l) = true.
Proof.
  intros H. apply forallb_forall. intros x Hin.
  rewrite forallb_forall in H. apply H. now apply in_rev.
Qed.

Lemma preceding_ok (messages : list value) (index : nat) :
  forallb message_ok messages = true ->
  forallb message_ok (rev (take index messages)) = true.
Proof. intros H. now apply forallb_rev, forallb_take. Qed.

Lemma willBeSkipped_total (messages : list value) (index : nat) (content : value) :
  forallb message_ok messages = true ->
  exists skipped, willBeSkipped messages index content = Some skipped.
Proof.
  intros H. unfold willBeSkipped.
  destruct (truthy (prop content "tool_use_id")); [|now exists false].
  now apply scan_previous_total, preceding_ok.
Qed.

(** ** The loop over the content blocks *)

Lemma hasVisibleContent_total (messages : list value) (index : nat)
    (contents : list value) :
  forallb message_ok messages = true ->
  forallb block_ok contents = true ->
  exists visible, hasVisibleContent messages index contents = Some visible.
Proof.
  intros Hok. induction contents as [|c rest IH]; intros H; simpl.
  - now exists false.
  - apply andb_prop in H as [Hc Hrest].
    rewrite (get_Some _ _ (block_ok_not_null _ Hc)). simpl.
    destruct (strict_eq (prop c "type") (JStr "text")); [now exists true|].
    destruct (strict_eq (prop c "type") (JStr "tool_result")); [|now apply IH].
    destruct (willBeSkipped_total messages index c Hok) as [skipped ->]. simpl.
    destruct skipped; [now apply IH | now exists true].
Qed.

(** A tool_result block that is not skipped makes the content visible,
    wherever it stands among the blocks. *)
Lemma hasVisibleContent_unskipped (messages : list value) (index : nat)
    (contents : list value) (content : value) :
  forallb message_ok messages = true ->
  forallb block_ok contents = true ->
  In content contents ->
  strict_eq (prop content "type") (JStr "tool_result") = true ->
  willBeSkipped messages index content = Some false ->
  hasVisibleContent messages index contents = Some true.
Proof.
  intros Hok. induction contents as [|c rest IH]; intros H Hin Hty Hskip.
  - destruct Hin.
  - apply andb_prop in H as [Hc Hrest]. simpl.
    rewrite (get_Some _ _ (block_ok_not_null _ Hc)). simpl.
    destruct (strict_eq (prop c "type") (JStr "text")) eqn:Htext; [reflexivity|].
    destruct Hin as [->|Hin].
    + rewrite Hty, Hskip. reflexivity.
    + destruct (strict_eq (prop c "type") (JStr "tool_result")); [|now apply IH].
      destruct (willBeSkipped_total messages index c Hok) as [skipped ->]. simpl.
      destruct skipped; [now apply IH | reflexivity].
Qed.

(** The blocks of a content none of which is a text block or an unskipped
    tool_result block: nothing is visible. *)
Lemma hasVisibleContent_all_skipped (messages : list value) (index : nat)
    (contents : list value) :
  forallb block_ok contents = true ->
  (forall c, In c contents ->
     strict_eq (prop c "type") (JStr "text") = false /\
     (strict_eq (prop c "type") (JStr "tool_result") = true ->
      willBeSkipped messages index c = Some true)) ->
  hasVisibleContent messages index contents = Some false.
Proof.
  induction contents as [|c rest IH]; intros H Hall; [reflexivity|].
  apply andb_prop in H as [Hc Hrest]. simpl.
  rewrite (get_Some _ _ (block_ok_not_null _ Hc)). simpl.
  destruct (Hall c (or_introl eq_refl)) as [-> Hres].
  destruct (strict_eq (prop c "type") (JStr "tool_result")).
  - rewrite (Hres eq_refl). simpl. apply IH; [assumption|]. intros; apply Hall; now right.
  - apply IH; [assumption|]. intros; apply Hall; now right.
Qed.

(** ** The filter callback and the filter *)

(** On a user message with a non-empty list of blocks that is not flagged
    meta, the callback returns what the loop over the blocks found. *)
Lemma isDisplayable_user (messages : list value) (index : nat)
    (message : value) (contents : list value) :
  nullish message = false ->
  strict_eq (prop message "type") (JStr "user") = true ->
  prop (prop message "message") "content" = JArr contents ->
  contents <> [] ->
  truthy (prop message "isMeta") = false ->
  isDisplayable messages index message
  = hasVisibleContent messages index contents.
Proof.
  intros Hnn Hty Hc Hne Hmeta. unfold isDisplayable.
  rewrite (get_Some _ _ Hnn). cbn [mbind option_bind].
  rewrite Hmeta, Hty. cbn [andb negb].
  assert (truthy (prop message "message") = true) as ->.
  { destruct (prop message "message"); simpl in Hc; try discriminate; reflexivity. }
  rewrite Hc. cbn [truthy negb isArray array_length orb andb].
  destruct contents as [|c rest]; [congruence|]. cbn [length Nat.eqb].
  destruct (hasVisibleContent messages index (c :: rest)) as [[|]|]; reflexivity.
Qed.

(** A user message flagged meta is dropped, whatever it contains. *)
Lemma isDisplayable_meta_user (messages : list value) (index : nat)
    (message : value) :
  nullish message = false ->
  strict_eq (prop message "type") (JStr "user") = true ->
  truthy (prop message "message") = true ->
  truthy (prop message "isMeta") = true ->
  isDisplayable messages index message = Some false.
Proof.
  intros Hnn Hty Hm Hmeta. unfold isDisplayable.
  rewrite (get_Some _ _ Hnn). cbn [mbind option_bind].
  rewrite Hmeta, Hty, Hm. cbn [andb negb].
  destruct (negb (truthy (prop message "leafUuid")) && negb (truthy (prop message "summary")));
    reflexivity.
Qed.

(** A message that is not flagged meta and is no user message is kept. *)
Lemma isDisplayable_other (messages : list value) (index : nat) (message : value) :
  nullish message = false ->
  truthy (prop message "isMeta") = false ->
  strict_eq (prop message "type") (JStr "user") = false ->
  isDisplayable messages index message = Some true.
Proof.
  intros Hnn Hmeta Hty. unfold isDisplayable.
  rewrite (get_Some _ _ Hnn). cbn [mbind option_bind].
  rewrite Hmeta, Hty. reflexivity.
Qed.

Lemma isDisplayable_total (messages : list value) (index : nat) (message : value) :
  forallb message_ok messages = true ->
  message_ok message = true ->
  exists keep, isDisplayable messages index message = Some keep.
Proof.
  intros Hok Hm. unfold isDisplayable.
  rewrite (get_Some _ _ (message_ok_not_null _ Hm)). cbn [mbind option_bind].
  destruct (truthy (prop message "isMeta") && negb (truthy (prop message "leafUuid"))
            && negb (truthy (prop message "summary"))); [eauto|].
  destruct (strict_eq (prop message "type") (JStr "user")
            && truthy (prop message "message")) eqn:Huser; [|eauto].
  destruct (truthy (prop message "isMeta")); [eauto|].
  apply andb_prop in Huser as [_ Htruthy].
  pose proof (message_ok_contents message) as Hcs.
  assert (get_opt (prop message "message") "content"
          = prop (prop message "message") "content") as Hget.
  { unfold get_opt. destruct (prop message "message"); try discriminate; reflexivity. }
  rewrite Hget in Hcs.
  destruct (negb (truthy (prop (prop message "message") "content"))
            || isArray (prop (prop message "message") "content")
               && Nat.eqb (array_length (prop (prop message "message") "content")) 0);
    [eauto|].
  destruct (prop (prop message "message") "content") as [| |b|n|s|contents|o]; eauto.
  destruct (hasVisibleContent_total messages index contents Hok (Hcs _ Hm eq_refl))
    as [visible ->].
  cbn [mbind option_bind]. destruct visible; eauto.
Qed.

Lemma filter_from_total (messages : list value) (index : nat) (rest : list value) :
  forallb message_ok messages = true ->
  forallb message_ok rest = true ->
  exists kept, filter_from messages index rest = Some kept.
Proof.
  intros Hok. revert index. induction rest as [|m rest IH]; intros index H; simpl.
  - eauto.
  - apply andb_prop in H as [Hm Hrest].
    destruct (isDisplayable_total messages index m Hok Hm) as [keep ->].
    destruct (IH (S index) Hrest) as [kept ->]. simpl. eauto.
Qed.

(** On a log without [null] entries the filter returns a list. *)
Lemma displayableMessages_total (messages : list value) :
  forallb message_ok messages = true ->
  exists kept, displayableMessages messages = Some kept.
Proof. intros H. now apply filter_from_total. Qed.

(** ** The filter on a log that grows *)

Lemma willBeSkipped_app (messages more : list value) (index : nat) (content : value) :
  index <= length messages ->
  willBeSkipped (messages ++ more) index content
  = willBeSkipped messages index content.
Proof. intros H. unfold willBeSkipped. now rewrite take_app_le. Qed.

Lemma hasVisibleContent_app (messages more : list value) (index : nat)
    (contents : list value) :
  index <= length messages ->
  hasVisibleContent (messages ++ more) index contents
  = hasVisibleContent messages index contents.
Proof.
  intros H. induction contents as [|c rest IH]; simpl; [reflexivity|].
  rewrite IH, (willBeSkipped_app _ _ _ _ H). reflexivity.
Qed.

Lemma isDisplayable_app (messages more : list value) (index : nat) (message : value) :
  index <= length messages ->
  isDisplayable (messages ++ more) index message
  = isDisplayable messages index message.
Proof.
  intros H. unfold isDisplayable.
  destruct (get message "isMeta") as [isMeta|]; [|reflexivity]. cbn [mbind option_bind].
  destruct (prop (prop message "message") "content") as [| |b|n|s|contents|o];
    try reflexivity.
  now rewrite (hasVisibleContent_app _ _ _ _ H).
Qed.

Lemma filter_from_app_log (messages more rest : list value) (index : nat) :
  index + length rest <= length messages ->
  filter_from (messages ++ more) index rest = filter_from messages index rest.
Proof.
  revert index. induction rest as [|m rest IH]; intros index H; simpl; [reflexivity|].
  simpl in H. rewrite isDisplayable_app by lia. rewrite IH by lia. reflexivity.
Qed.

Lemma filter_from_app_rest (messages first second : list value) (index : nat) :
  filter_from messages index (first ++ second)
  = kept ← filter_from messages index first;
    added ← filter_from messages (index + length first) second;
    Some (kept ++ added).
Proof.
  revert index. induction first as [|m first IH]; intros index; simpl.
  - rewrite Nat.add_0_r. destruct (filter_from messages index second); reflexivity.
  - destruct (isDisplayable messages index m) as [keep|]; [|reflexivity]. simpl.
    rewrite IH. replace (S index + length first) with (index + S (length first)) by lia.
    destruct (filter_from messages (S index) first) as [kept|]; [|reflexivity]. simpl.
    destruct (filter_from messages (index + S (length first)) second) as [added|];
      [|reflexivity]. simpl.
    now destruct keep.
Qed.

(** Messages appended to the log leave the decisions on the earlier ones
    unchanged: the visible list of the longer log extends the former one. *)
Lemma displayableMessages_app (messages more : list value) :
  displayableMessages (messages ++ more)
  = kept ← displayableMessages messages;
    added ← filter_from (messages ++ more) (length messages) more;
    Some (kept ++ added).
Proof.
  unfold displayableMessages. rewrite filter_from_app_rest. simpl.
  now rewrite (filter_from_app_log messages more messages 0) by (simpl; lia).
Qed.

(** ** Classification of tool results *)

Lemma strict_eq_JStr (v : value) (s : string) :
  strict_eq v (JStr s) = true -> v = JStr s.
Proof.
  destruct v; simpl; try discriminate. intros H.
  apply String.eqb_eq in H. now subst.
Qed.

Lemma typed_not_null (v : value) (s : string) :
  strict_eq (prop v "type") (JStr s) = true -> nullish v = false.
Proof. destruct v; simpl; try discriminate; reflexivity. Qed.

(** The value of [willBeSkipped] on a well-formed log: the block has a
    truthy [tool_use_id], and the tool_use block matched to it is
    self-rendering. *)
Lemma willBeSkipped_matching (messages : list value) (index : nat) (content : value) :
  forallb message_ok messages = true ->
  willBeSkipped messages index content
  = Some (truthy (prop content "tool_use_id")
          && match matching_tool_use messages index content with
             | Some toolUse => selfRendering (prop toolUse "name")
             | None => false
             end).
Proof.
  intros Hok. unfold willBeSkipped, matching_tool_use.
  destruct (truthy (prop content "tool_use_id")); [|reflexivity].
  now rewrite scan_previous_matching by now apply preceding_ok.
Qed.

(** A user message whose content is one tool_result block is kept exactly
    when the block is not skipped. *)
Lemma isDisplayable_single_result (messages : list value) (index : nat)
    (message content : value) :
  forallb message_ok messages = true ->
  strict_eq (prop message "type") (JStr "user") = true ->
  truthy (prop message "isMeta") = false ->
  prop (prop message "message") "content" = JArr [content] ->
  strict_eq (prop content "type") (JStr "tool_result") = true ->
  isDisplayable messages index message
  = negb <$> willBeSkipped messages index content.
Proof.
  intros Hok Hty Hmeta Hc Hres.
  rewrite (isDisplayable_user _ _ _ [content]);
    [|now apply (typed_not_null _ "user")|assumption|assumption|discriminate|assumption].
  cbn [hasVisibleContent].
  rewrite (get_Some _ _ (typed_not_null _ _ Hres)). cbn [mbind option_bind].
  rewrite (strict_eq_JStr _ _ Hres). cbn [strict_eq]. simpl String.eqb. cbn iota.
  destruct (willBeSkipped_total messages index content Hok) as [skipped ->].
  now destruct skipped.
Qed.

Lemma mcp_prefix_not_widget (l : string) :
  startsWith l "mcp__" = true ->
  existsb (String.eqb l) toolsWithWidgets = false.
Proof.
  intros H.
  destruct l as [|a1 [|a2 [|a3 [|a4 [|a5 r]]]]]; simpl in H; try discriminate H;
    repeat match type of H with
           | (Ascii.eqb ?a ?b && _) = true =>
               let Ha := fresh in
               apply andb_prop in H as [Ha H]; apply Ascii.eqb_eq in Ha; subst a
           end; try discriminate H.
  reflexivity.
Qed.

(** A user message whose only block is a tool_result matched to a tool_use
    block is kept exactly when the tool is not self-rendering. *)
Lemma isDisplayable_matched_result (messages : list value) (index : nat)
    (message content toolUse : value) :
  forallb message_ok messages = true ->
  strict_eq (prop message "type") (JStr "user") = true ->
  truthy (prop message "isMeta") = false ->
  prop (prop message "message") "content" = JArr [content] ->
  strict_eq (prop content "type") (JStr "tool_result") = true ->
  truthy (prop content "tool_use_id") = true ->
  matching_tool_use messages index content = Some toolUse ->
  isDisplayable messages index message
  = Some (negb (selfRendering (prop toolUse "name"))).
Proof.
  intros Hok Hty Hmeta Hc Hres Hid Hmatch.
  rewrite (isDisplayable_single_result _ _ _ content) by assumption.
  rewrite willBeSkipped_matching by assumption.
  now rewrite Hid, Hmatch.
Qed.

(** The two-message scenario of the spec, for any tool name. *)
Lemma scenario_displayable (name : string) :
  displayableMessages
    [assistant_message [tool_use_block "t1" name];
     user_message [tool_result_block "t1" "ok"]]
  = Some (assistant_message [tool_use_block "t1" name]
          :: if selfRendering (JStr name) then []
             else [user_message [tool_result_block "t1" "ok"]]).
Proof.
  unfold displayableMessages. cbn [filter_from].
  rewrite (isDisplayable_other _ 0 (assistant_message [tool_use_block "t1" name]))
    by reflexivity.
  rewrite (isDisplayable_matched_result _ 1 _ (tool_result_block "t1" "ok")
             (tool_use_block "t1" name)) by reflexivity.
  cbn [mbind option_bind prop tool_use_block assoc String.eqb Ascii.eqb Bool.eqb].
  now destruct (selfRendering (JStr name)).
Qed.

(** A tool_result block that is not skipped makes its message visible. *)
Lemma unskipped_result_visible (messages : list value) (index : nat)
    (message : value) (contents : list value) (content : value) :
  forallb message_ok messages = true ->
  messages !! index = Some message ->
  strict_eq (prop message "type") (JStr "user") = true ->
  prop (prop message "message") "content" = JArr contents ->
  In content contents ->
  strict_eq (prop content "type") (JStr "tool_result") = true ->
  willBeSkipped messages index content = Some false ->
  hasVisibleContent messages index contents = Some true
  /\ (truthy (prop message "isMeta") = false ->
      isDisplayable messages index message = Some true).
Proof.
  intros Hok Hidx Hty Hc Hin Hres Hskip.
  assert (forallb block_ok contents = true) as Hblocks.
  { apply (message_ok_contents message).
    - rewrite forallb_forall in Hok. apply Hok.
      apply list_elem_of_In. eapply list_elem_of_lookup_2. eassumption.
    - unfold get_opt. destruct (prop message "message"); simpl in Hc; try discriminate.
      exact Hc. }
  assert (hasVisibleContent messages index contents = Some true) as Hvis
    by (eapply hasVisibleContent_unskipped; eassumption).
  split; [exact Hvis|].
  intros Hmeta.
  rewrite (isDisplayable_user _ _ _ contents); try assumption.
  - now apply (typed_not_null _ "user").
  - intros ->. destruct Hin.
Qed.

Lemma startsWith_prefix (s p : string) :
  startsWith s p = true <-> exists suffix : string, s = p +:+ suffix.
Proof.
  revert s. induction p as [|b p IH]; intros s.
  - split; [intros _; now exists s|intros _; now destruct s].
  - destruct s as [|a s]; cbn [startsWith].
    + split; [discriminate|]. intros (suffix & Heq).
      change ("" = String b (p +:+ suffix)) in Heq. discriminate.
    + rewrite andb_true_iff, Ascii.eqb_eq, IH. split.
      * intros (-> & suffix & ->). now exists suffix.
      * intros (suffix & Heq).
        change (String a s = String b (p +:+ suffix)) in Heq.
        injection Heq as -> ->. split; [reflexivity|now exists suffix].
Qed.

(** C3 (as the code has it). A tool_result block is looked up only when its
    tool_use_id is truthy: then the scan over the preceding messages, most
    recent first, stops at the first tool_use block of an assistant message
    whose id is that tool_use_id, and the result is skipped exactly when
    the name of that tool_use, in lower case, is one of task, edit,
    multiedit, todowrite, ls, read, glob, bash, write, grep, or the name as
    written starts with mcp__ (names of ASCII characters, on which the
    lower case is that of the runtime). A block whose tool_use_id is
    missing or empty is never looked up and never skipped, whatever
    tool_use carries the same id. A message that is not flagged meta and
    whose only block is a result that was looked up is dropped when the
    result is skipped and kept otherwise: a result matched to the tool
    Read is excluded, one matched to UnknownTool is included, and one
    matched to a tool whose name starts with mcp__ is excluded. *)
Theorem C3_self_rendering_classification :
  (forall (messages : list value) (index : nat) (content : value),
      forallb message_ok messages = true ->
      forallb ascii_tool_names messages = true ->
      truthy (prop content "tool_use_id") = true ->
      willBeSkipped messages index content
      = Some match matching_tool_use messages index content with
             | Some toolUse => selfRendering (prop toolUse "name")
             | None => false
             end)
  /\ (forall (messages : list value) (index : nat) (content : value),
         truthy (prop content "tool_use_id") = false ->
         willBeSkipped messages index content = Some false)
  /\ (forall (messages : list value) (index : nat) (message content toolUse : value),
         forallb message_ok messages = true ->
         forallb ascii_tool_names messages = true ->
         strict_eq (prop message "type") (JStr "user") = true ->
         truthy (prop message "isMeta") = false ->
         prop (prop message "message") "content" = JArr [content] ->
         strict_eq (prop content "type") (JStr "tool_result") = true ->
         truthy (prop content "tool_use_id") = true ->
         matching_tool_use messages index content = Some toolUse ->
         isDisplayable messages index message
         = Some (negb (selfRendering (prop toolUse "name"))))
  /\ (forall name : string,
         selfRendering (JStr name) = true
         <-> In (toLowerCase name) toolsWithWidgets
             \/ exists suffix : string, name = "mcp__" +:+ suffix)
  /\ (forall name : string,
         is_ascii name = true ->
         displayableMessages
           [assistant_message [tool_use_block "t1" name];
            user_message [tool_result_block "t1" "ok"]]
         = Some (assistant_message [tool_use_block "t1" name]
                 :: if selfRendering (JStr name) then []
                    else [user_message [tool_result_block "t1" "ok"]]))
  /\ (forall suffix : string,
         displayableMessages
           [assistant_message [tool_use_block "t1" ("mcp__" +:+ suffix)];
            user_message [tool_result_block "t1" "ok"]]
         = Some [assistant_message [tool_use_block "t1" ("mcp__" +:+ suffix)]])
  /\ displayableMessages
       [assistant_message [tool_use_block "t1" "Read"];
        user_message [tool_result_block "t1" "ok"]]
     = Some [assistant_message [tool_use_block "t1" "Read"]]
  /\ displayableMessages
       [assistant_message [tool_use_block "t1" "UnknownTool"];
        user_message [tool_result_block "t1" "ok"]]
     = Some [assistant_message [tool_use_block "t1" "UnknownTool"];
             user_message [tool_result_block "t1" "ok"]].
Proof.
  split; [|split; [|split; [|split; [|split; [|split; [|split]]]]]].
  - intros messages index content Hok _ Hid.
    rewrite willBeSkipped_matching by assumption. now rewrite Hid.
  - intros messages index content Hid. unfold willBeSkipped. now rewrite Hid.
  - intros messages index message content toolUse Hok _.
    now apply isDisplayable_matched_result.
  - intros name. cbn [selfRendering].
    rewrite orb_true_iff, startsWith_prefix, existsb_exists. split.
    + intros [(known & Hin & Heq)|Hprefix]; [left|now right].
      apply String.eqb_eq in Heq. now subst known.
    + intros [Hin|Hprefix]; [left|now right].
      exists (toLowerCase name). split; [exact Hin|apply String.eqb_refl].
  - intros name _. apply scenario_displayable.
  - intros suffix. rewrite (scenario_displayable ("mcp__" +:+ suffix)).
    assert (selfRendering (JStr ("mcp__" +:+ suffix)) = true) as ->;
      [|reflexivity].
    cbn [selfRendering]. apply orb_true_iff. right.
    apply startsWith_prefix. now exists suffix.
  - apply (scenario_displayable "Read").
  - apply (scenario_displayable "UnknownTool").
Qed.

(** The scan of C3 on a log of three messages: the more recent of two
    tool_use blocks for the same id decides. *)
Lemma C3_witness :
  willBeSkipped
    [assistant_message [tool_use_block "t1" "UnknownTool"];
     assistant_message [tool_use_block "t1" "Read"];
     user_message [tool_result_block "t1" "ok"]]
    2 (tool_result_block "t1" "ok")
  = Some true
  /\ displayableMessages
       [assistant_message [tool_use_block "t1" "Glob"];
        user_message [tool_result_block "t1" "ok"]]
     = Some [assistant_message [tool_use_block "t1" "Glob"]].
Proof.
  split.
  - exact (proj1 C3_self_rendering_classification
             [assistant_message [tool_use_block "t1" "UnknownTool"];
              assistant_message [tool_use_block "t1" "Read"];
              user_message [tool_result_block "t1" "ok"]]
             2 (tool_result_block "t1" "ok") eq_refl eq_refl eq_refl).
  - exact (proj1 (proj2 (proj2 (proj2 (proj2 C3_self_rendering_classification))))
             "Glob" eq_refl).
Defined.

(** The claim as the spec has it fails on a result whose tool_use_id is
    the empty text: a tool_use block named bash carries the same id, and
    the message is kept, since the code looks up no result without a
    truthy tool_use_id. *)
Lemma C3_counterexample :
  strict_eq (prop (tool_use_block "" "bash") "id")
    (prop (tool_result_block "" "ok") "tool_use_id") = true
  /\ matching_tool_use
       [assistant_message [tool_use_block "" "bash"];
        user_message [tool_result_block "" "ok"]]
       1 (tool_result_block "" "ok")
     = Some (tool_use_block "" "bash")
  /\ selfRendering (prop (tool_use_block "" "bash") "name") = true
  /\ displayableMessages
       [assistant_message [tool_use_block "" "bash"];
        user_message [tool_result_block "" "ok"]]
     = Some [assistant_message [tool_use_block "" "bash"];
             user_message [tool_result_block "" "ok"]].
Proof. repeat split. Qed.

(** C4. The log made of an assistant message with the single tool_use block
    (id t1, name bash) and a user message with the single tool_result block
    (tool_use_id t1, content ok) has exactly one visible message, the
    assistant message. *)
Theorem C4_bash_scenario_one_visible :
  displayableMessages
    [assistant_message [tool_use_block "t1" "bash"];
     user_message [tool_result_block "t1" "ok"]]
  = Some [assistant_message [tool_use_block "t1" "bash"]]
  /\ (length <$> displayableMessages
        [assistant_message [tool_use_block "t1" "bash"];
         user_message [tool_result_block "t1" "ok"]]) = Some 1.
Proof.
  pose proof (scenario_displayable "bash") as H.
  split; [exact H | now rewrite H].
Qed.

(** C5. A user message with a tool_result block whose tool_use_id is the id
    of no tool_use block of a preceding assistant message has visible
    content; the message, which the meta rule comes before, is kept when it
    is not flagged meta. *)
Theorem C5_orphan_tool_result_fail_open
    (messages : list value) (index : nat) (message : value)
    (contents : list value) (content : value) :
  forallb message_ok messages = true ->
  messages !! index = Some message ->
  strict_eq (prop message "type") (JStr "user") = true ->
  prop (prop message "message") "content" = JArr contents ->
  In content contents ->
  strict_eq (prop content "type") (JStr "tool_result") = true ->
  (forall (j : nat) (prevMsg : value),
      j < index -> messages !! j = Some prevMsg ->
      has_tool_use_for (prop content "tool_use_id") prevMsg = false) ->
  willBeSkipped messages index content = Some false
  /\ hasVisibleContent messages index contents = Some true
  /\ (truthy (prop message "isMeta") = false ->
      isDisplayable messages index message = Some true).
Proof.
  intros Hok Hidx Hty Hc Hin Hres Horphan.
  assert (willBeSkipped messages index content = Some false) as Hskip.
  { unfold willBeSkipped.
    destruct (truthy (prop content "tool_use_id")); [|reflexivity].
    apply scan_previous_no_match; [now apply preceding_ok|].
    intros m Hm. apply in_rev in Hm. apply list_elem_of_In in Hm.
    apply elem_of_take in Hm as (j & Hj & Hlt). eauto. }
  split; [exact Hskip|].
  eapply unskipped_result_visible; eassumption.
Qed.

(** C5 on a log whose only assistant message names another id. *)
Lemma C5_witness :
  willBeSkipped
    [assistant_message [tool_use_block "t0" "bash"];
     user_message [tool_result_block "t1" "ok"]]
    1 (tool_result_block "t1" "ok") = Some false
  /\ hasVisibleContent
       [assistant_message [tool_use_block "t0" "bash"];
        user_message [tool_result_block "t1" "ok"]]
       1 [tool_result_block "t1" "ok"] = Some true
  /\ isDisplayable
        [assistant_message [tool_use_block "t0" "bash"];
         user_message [tool_result_block "t1" "ok"]]
        1 (user_message [tool_result_block "t1" "ok"]) = Some true.
Proof.
  destruct (C5_orphan_tool_result_fail_open
              [assistant_message [tool_use_block "t0" "bash"];
               user_message [tool_result_block "t1" "ok"]]
              1 (user_message [tool_result_block "t1" "ok"])
              [tool_result_block "t1" "ok"] (tool_result_block "t1" "ok"))
    as (Hskip & Hvis & Hkeep).
  - reflexivity.
  - reflexivity.
  - reflexivity.
  - reflexivity.
  - simpl. now left.
  - reflexivity.
  - intros [|[|j]] prevMsg Hlt Hj; [|lia|lia].
    injection Hj as <-. reflexivity.
  - split; [exact Hskip|split; [exact Hvis|apply Hkeep; reflexivity]].
Defined.

(** C9. The ten tool names are compared with the name in lower case, the
    prefix mcp__ with the name as written (the test is stated for names of
    ASCII characters, on which the lower case is that of the runtime): a
    tool_result matched to a tool_use whose name carries the prefix in
    another casing (MCP__x) is not skipped and its message stays visible,
    while Bash and READ are suppressed. *)
Theorem C9_mcp_prefix_case_sensitive :
  (forall (toolUse : value) (name : string),
      block_ok toolUse = true ->
      prop toolUse "name" = JStr name ->
      is_ascii name = true ->
      hasWidget toolUse
      = Some (existsb (String.eqb (toLowerCase name)) toolsWithWidgets
              || startsWith name "mcp__"))
  /\ (forall (messages : list value) (index : nat) (message : value)
             (contents : list value) (content toolUse : value) (name : string),
         forallb message_ok messages = true ->
         messages !! index = Some message ->
         strict_eq (prop message "type") (JStr "user") = true ->
         prop (prop message "message") "content" = JArr contents ->
         In content contents ->
         strict_eq (prop content "type") (JStr "tool_result") = true ->
         matching_tool_use messages index content = Some toolUse ->
         prop toolUse "name" = JStr name ->
         startsWith (toLowerCase name) "mcp__" = true ->
         startsWith name "mcp__" = false ->
         willBeSkipped messages index content = Some false
         /\ hasVisibleContent messages index contents = Some true
         /\ (truthy (prop message "isMeta") = false ->
             isDisplayable messages index message = Some true))
  /\ displayableMessages
       [assistant_message [tool_use_block "t1" "MCP__x"];
        user_message [tool_result_block "t1" "ok"]]
     = Some [assistant_message [tool_use_block "t1" "MCP__x"];
             user_message [tool_result_block "t1" "ok"]]
  /\ displayableMessages
       [assistant_message [tool_use_block "t1" "Bash"];
        user_message [tool_result_block "t1" "ok"]]
     = Some [assistant_message [tool_use_block "t1" "Bash"]]
  /\ displayableMessages
       [assistant_message [tool_use_block "t1" "READ"];
        user_message [tool_result_block "t1" "ok"]]
     = Some [assistant_message [tool_use_block "t1" "READ"]].
Proof.
  split; [|split; [|split; [|split]]].
  - intros toolUse name Hok Hname _.
    rewrite (hasWidget_selfRendering _ Hok), Hname. reflexivity.
  - intros messages index message contents content toolUse name
      Hok Hidx Hty Hc Hin Hres Hmatch Hname Hlower Hexact.
    assert (willBeSkipped messages index content = Some false) as Hskip.
    { rewrite willBeSkipped_matching by assumption.
      rewrite Hmatch, Hname. cbn [selfRendering].
      rewrite (mcp_prefix_not_widget _ Hlower), Hexact.
      now rewrite andb_false_r. }
    split; [exact Hskip|].
    eapply unskipped_result_visible; eassumption.
  - apply (scenario_displayable "MCP__x").
  - apply (scenario_displayable "Bash").
  - apply (scenario_displayable "READ").
Qed.

(** C9 on the scenario log with the tool named MCP__x. *)
Lemma C9_witness :
  hasWidget (tool_use_block "t1" "MCP__x") = Some false
  /\ hasWidget (tool_use_block "t1" "READ") = Some true
  /\ willBeSkipped
       [assistant_message [tool_use_block "t1" "MCP__x"];
        user_message [tool_result_block "t1" "ok"]]
       1 (tool_result_block "t1" "ok") = Some false
  /\ hasVisibleContent
       [assistant_message [tool_use_block "t1" "MCP__x"];
        user_message [tool_result_block "t1" "ok"]]
       1 [tool_result_block "t1" "ok"] = Some true
  /\ isDisplayable
        [assistant_message [tool_use_block "t1" "MCP__x"];
         user_message [tool_result_block "t1" "ok"]]
        1 (user_message [tool_result_block "t1" "ok"]) = Some true.
Proof.
  split; [|split].
  - exact (proj1 C9_mcp_prefix_case_sensitive
             (tool_use_block "t1" "MCP__x") "MCP__x" eq_refl eq_refl eq_refl).
  - exact (proj1 C9_mcp_prefix_case_sensitive
             (tool_use_block "t1" "READ") "READ" eq_refl eq_refl eq_refl).
  - destruct (proj1 (proj2 C9_mcp_prefix_case_sensitive)
                [assistant_message [tool_use_block "t1" "MCP__x"];
                 user_message [tool_result_block "t1" "ok"]]
                1 (user_message [tool_result_block "t1" "ok"])
                [tool_result_block "t1" "ok"] (tool_result_block "t1" "ok")
                (tool_use_block "t1" "MCP__x") "MCP__x")
      as (Hskip & Hvis & Hkeep).
    + reflexivity.
    + reflexivity.
    + reflexivity.
    + reflexivity.
    + simpl. now left.
    + reflexivity.
    + reflexivity.
    + reflexivity.
    + reflexivity.
    + reflexivity.
    + split; [exact Hskip|split; [exact Hvis|apply Hkeep; reflexivity]].
Defined.

(** ** Ingestion in the run viewer *)

Section ViewerIngestion.
Context `{Parser}.
Import AgentRunOutputViewer.

Lemma parse_lines_messages (jsonlLines : list string) :
  fst (parse_lines jsonlLines) = omap JSON_parse jsonlLines.
Proof.
  induction jsonlLines as [|line rest IH]; simpl; [reflexivity|].
  destruct (parse_lines rest) as [parsed failed]. simpl in IH.
  destruct (JSON_parse line); simpl; now rewrite IH.
Qed.

Lemma parse_lines_failed (jsonlLines : list string) :
  snd (parse_lines jsonlLines)
  = List.filter
      (fun line => match JSON_parse line with Some _ => false | None => true end)
      jsonlLines.
Proof.
  induction jsonlLines as [|line rest IH]; simpl; [reflexivity|].
  destruct (parse_lines rest) as [parsed failed]. simpl in IH.
  destruct (JSON_parse line) as [message|]; simpl; [exact IH|now rewrite IH].
Qed.

Lemma on_agent_output_listening (payload : string) (st : state) :
  listening (on_agent_output payload st) = listening st.
Proof.
  unfold on_agent_output. destruct (listening st) eqn:Hl; [|assumption].
  destruct (JSON_parse payload); simpl; assumption.
Qed.

Lemma on_agent_output_raw (payload : string) (st : state) :
  rawJsonlOutput (on_agent_output payload st)
  = rawJsonlOutput st ++ (if listening st then [payload] else []).
Proof.
  unfold on_agent_output. destruct (listening st).
  - destruct (JSON_parse payload); reflexivity.
  - now rewrite app_nil_r.
Qed.

Lemma on_agent_output_messages (payload : string) (st : state) :
  messages (on_agent_output payload st)
  = messages st ++ (if listening st then omap JSON_parse [payload] else []).
Proof.
  unfold on_agent_output. destruct (listening st).
  - simpl. destruct (JSON_parse payload); simpl; [reflexivity|now rewrite app_nil_r].
  - now rewrite app_nil_r.
Qed.

Lemma on_agent_output_console (payload : string) (st : state) :
  console (on_agent_output payload st)
  = console st
    ++ (if listening st
        then match JSON_parse payload with
             | Some _ => []
             | None => [ParseFailed payload]
             end
        else []).
Proof.
  unfold on_agent_output. destruct (listening st).
  - destruct (JSON_parse payload); simpl; [now rewrite app_nil_r|reflexivity].
  - now rewrite app_nil_r.
Qed.

Lemma feed_listening (payloads : list string) (st : state) :
  listening (feed payloads st) = listening st.
Proof.
  revert st. induction payloads as [|p rest IH]; intros st; simpl; [reflexivity|].
  unfold feed in *. simpl. now rewrite IH, on_agent_output_listening.
Qed.

(** Live lines are appended to the raw list in arrival order, each as it
    arrives, when the listener is registered. *)
Lemma feed_raw (payloads : list string) (st : state) :
  rawJsonlOutput (feed payloads st)
  = rawJsonlOutput st ++ (if listening st then payloads else []).
Proof.
  revert st. induction payloads as [|p rest IH]; intros st.
  - simpl. destruct (listening st); now rewrite app_nil_r.
  - unfold feed in *. simpl. rewrite IH, on_agent_output_raw, on_agent_output_listening.
    destruct (listening st); [now rewrite <- app_assoc|now rewrite !app_nil_r].
Qed.

Lemma feed_messages (payloads : list string) (st : state) :
  messages (feed payloads st)
  = messages st ++ (if listening st then omap JSON_parse payloads else []).
Proof.
  revert st. induction payloads as [|p rest IH]; intros st.
  - simpl. destruct (listening st); now rewrite app_nil_r.
  - unfold feed in *. simpl fold_left.
    rewrite IH, on_agent_output_messages, on_agent_output_listening.
    destruct (listening st); [|now rewrite !app_nil_r].
    rewrite <- app_assoc. f_equal. simpl. now destruct (JSON_parse p).
Qed.

Lemma loadOutput_listening (skipCache : bool) (now : Z)
    (run : AgentRunWithMetrics) (st : state) :
  listening (fst (loadOutput skipCache now run st)) = listening st.
Proof.
  unfold loadOutput. destruct (truthy_id run) as [id|]; [|reflexivity].
  destruct (if skipCache then None else getCachedOutput id st) as [cached|];
    [|reflexivity].
  now destruct ((now - lastUpdated cached <? 5000)%Z && negb (is_running run)).
Qed.

(** What the resolved fetch leaves: the raw list is the list of the
    non-blank lines of the snapshot, whatever it held before. *)
Lemma loadOutput_resolved_state (now : Z) (run : AgentRunWithMetrics) (id : Z)
    (rawOutput : string) (st : state) :
  truthy_id run = Some id ->
  let loaded := loadOutput_resolved now run rawOutput st in
  rawJsonlOutput loaded = jsonl_lines rawOutput
  /\ messages loaded = omap JSON_parse (jsonl_lines rawOutput)
  /\ listening loaded = (is_running run || listening st)
  /\ console loaded
     = console st ++ map ParseFailed (snd (parse_lines (jsonl_lines rawOutput)))
  /\ getCachedOutput id loaded
     = Some {| output := rawOutput;
               cached_messages := omap JSON_parse (jsonl_lines rawOutput);
               lastUpdated := now; status := run_status run |}
  /\ loading loaded = false.
Proof.
  intros Hid. unfold loadOutput_resolved, setupLiveEventListeners. rewrite Hid.
  rewrite <- parse_lines_messages.
  destruct (parse_lines (jsonl_lines rawOutput)) as [parsed failed].
  cbn zeta. destruct (is_running run); simpl;
    unfold getCachedOutput; simpl; rewrite lookup_insert_eq; repeat split.
Qed.

End ViewerIngestion.

(** C1 (as the code has it). A load registers the output listener only once
    the snapshot has resolved, and only for a running run, so while a
    snapshot is fetched live lines reach the viewer only through a listener
    kept from an earlier load; those lines are appended on arrival, in
    arrival order, not buffered. When the snapshot resolves, the log is
    exactly the non-blank lines of the snapshot: what was appended before is
    replaced, nothing is replayed and no duplicate is looked for. Lines that
    arrive afterwards follow the snapshot lines in arrival order, so no live
    line is ever ahead of a snapshot line. *)
Theorem C1_snapshot_replaces_then_live_appends `{Parser}
    (run : AgentRunOutputViewer.AgentRunWithMetrics) (id : Z)
    (skipCache : bool) (now now' : Z) (st : AgentRunOutputViewer.state)
    (during later : list string) (rawOutput : string) :
  AgentRunOutputViewer.truthy_id run = Some id ->
  let pending := fst (AgentRunOutputViewer.loadOutput skipCache now run st) in
  let arrived := AgentRunOutputViewer.feed during pending in
  let loaded :=
    AgentRunOutputViewer.loadOutput_resolved now' run rawOutput arrived in
  let listens :=
    AgentRunOutputViewer.is_running run || AgentRunOutputViewer.listening st in
  AgentRunOutputViewer.listening (AgentRunOutputViewer.initial ∅) = false
  /\ AgentRunOutputViewer.listening pending = AgentRunOutputViewer.listening st
  /\ AgentRunOutputViewer.rawJsonlOutput arrived
     = AgentRunOutputViewer.rawJsonlOutput pending
       ++ (if AgentRunOutputViewer.listening st then during else [])
  /\ AgentRunOutputViewer.rawJsonlOutput loaded = jsonl_lines rawOutput
  /\ AgentRunOutputViewer.messages loaded
     = omap JSON_parse (jsonl_lines rawOutput)
  /\ AgentRunOutputViewer.listening loaded = listens
  /\ AgentRunOutputViewer.rawJsonlOutput (AgentRunOutputViewer.feed later loaded)
     = jsonl_lines rawOutput ++ (if listens then later else [])
  /\ AgentRunOutputViewer.messages (AgentRunOutputViewer.feed later loaded)
     = omap JSON_parse (jsonl_lines rawOutput)
       ++ (if listens then omap JSON_parse later else []).
Proof.
  intros Hid pending arrived loaded listens.
  assert (AgentRunOutputViewer.listening arrived = AgentRunOutputViewer.listening st)
    as Harrived.
  { unfold arrived, pending. now rewrite feed_listening, loadOutput_listening. }
  destruct (loadOutput_resolved_state now' run id rawOutput arrived Hid)
    as (Hraw & Hmsgs & Hlistening & _).
  fold loaded in Hraw, Hmsgs, Hlistening. rewrite Harrived in Hlistening.
  fold listens in Hlistening.
  split; [reflexivity|].
  split; [apply loadOutput_listening|].
  split; [unfold arrived; rewrite feed_raw; unfold pending;
          now rewrite loadOutput_listening|].
  split; [exact Hraw|]. split; [exact Hmsgs|]. split; [exact Hlistening|].
  split.
  - now rewrite feed_raw, Hraw, Hlistening.
  - now rewrite feed_messages, Hmsgs, Hlistening.
Qed.

(** C1 on a running run refreshed while its listener is registered: the
    line 2 arrives during the fetch, the snapshot holds the line 1 twice
    (one blank line between), the line 3 arrives afterwards. *)
Lemma C1_witness :
  let parser := table_parser [("1", JNum 1); ("2", JNum 2); ("3", JNum 3)] in
  let run := {| AgentRunOutputViewer.run_id := Some 7%Z;
                AgentRunOutputViewer.run_status := "running" |} in
  let st := AgentRunOutputViewer.setListening true
              (AgentRunOutputViewer.initial ∅) in
  let pending := fst (AgentRunOutputViewer.loadOutput true 2000 run st) in
  let loaded :=
    @AgentRunOutputViewer.loadOutput_resolved parser 3000 run
      ("1" +:+ LF +:+ LF +:+ "1")
      (@AgentRunOutputViewer.feed parser ["2"] pending) in
  AgentRunOutputViewer.rawJsonlOutput loaded = ["1"; "1"]
  /\ AgentRunOutputViewer.rawJsonlOutput
       (@AgentRunOutputViewer.feed parser ["3"] loaded) = ["1"; "1"; "3"].
Proof.
  cbv zeta.
  destruct (@C1_snapshot_replaces_then_live_appends
              (table_parser [("1", JNum 1); ("2", JNum 2); ("3", JNum 3)])
              {| AgentRunOutputViewer.run_id := Some 7%Z;
                 AgentRunOutputViewer.run_status := "running" |}
              7%Z true 2000%Z 3000%Z
              (AgentRunOutputViewer.setListening true
                 (AgentRunOutputViewer.initial ∅))
              ["2"] ["3"] ("1" +:+ LF +:+ LF +:+ "1") eq_refl)
    as (_ & _ & _ & Hraw & _ & _ & Hlater & _).
  split; [exact Hraw | exact Hlater].
Defined.

(** C1 as the spec words it does not hold. A running run is opened,
    then refreshed; while the second snapshot is fetched the live line 2
    arrives. The code appends it at once and drops it when the snapshot
    (the line 1 alone) resolves, where the spec's merge keeps it after the
    snapshot line. *)
Lemma C1_counterexample :
  let parser := table_parser [("1", JNum 1); ("2", JNum 2)] in
  let run := {| AgentRunOutputViewer.run_id := Some 7%Z;
                AgentRunOutputViewer.run_status := "running" |} in
  let opened :=
    @AgentRunOutputViewer.loadOutput_resolved parser 1000 run "1"
      (fst (AgentRunOutputViewer.mount 0 run (AgentRunOutputViewer.initial ∅))) in
  let pending := fst (AgentRunOutputViewer.refreshOutput 2000 run opened) in
  let arrived := @AgentRunOutputViewer.feed parser ["2"] pending in
  let loaded := @AgentRunOutputViewer.loadOutput_resolved parser 3000 run "1" arrived in
  snd (AgentRunOutputViewer.refreshOutput 2000 run opened)
  = AgentRunOutputViewer.Fetching
  /\ AgentRunOutputViewer.rawJsonlOutput pending = ["1"]
  /\ AgentRunOutputViewer.rawJsonlOutput arrived = ["1"; "2"]
  /\ AgentRunOutputViewer.messages arrived = [JNum 1; JNum 2]
  /\ AgentRunOutputViewer.rawJsonlOutput loaded = ["1"]
  /\ snapshot_then_subscribe (jsonl_lines "1") ["2"] = ["1"; "2"]
  /\ AgentRunOutputViewer.rawJsonlOutput loaded
     <> snapshot_then_subscribe (jsonl_lines "1") ["2"].
Proof.
  cbv zeta. repeat split; try (vm_compute; reflexivity).
  vm_compute. discriminate.
Qed.

(** ** The output cache rule *)

(** The mount effect on a run with a cached entry. *)
Lemma mount_cached (now : Z) (run : AgentRunOutputViewer.AgentRunWithMetrics)
    (id : Z) (cached : AgentRunOutputViewer.CachedSessionOutput)
    (st : AgentRunOutputViewer.state) :
  AgentRunOutputViewer.truthy_id run = Some id ->
  AgentRunOutputViewer.getCachedOutput id st = Some cached ->
  AgentRunOutputViewer.mount now run st
  = let painted :=
      AgentRunOutputViewer.paint_cached cached
        (AgentRunOutputViewer.paint_cached cached st) in
    if (now - AgentRunOutputViewer.lastUpdated cached <? 5000)%Z
       && negb (AgentRunOutputViewer.is_running run)
    then (AgentRunOutputViewer.setLoading false painted, AgentRunOutputViewer.Returned)
    else (AgentRunOutputViewer.setLoading true painted, AgentRunOutputViewer.Fetching).
Proof.
  intros Hid Hcached.
  unfold AgentRunOutputViewer.mount, AgentRunOutputViewer.loadOutput.
  rewrite Hid, Hcached.
  change (AgentRunOutputViewer.getCachedOutput id
            (AgentRunOutputViewer.paint_cached cached st))
    with (AgentRunOutputViewer.getCachedOutput id st).
  now rewrite Hcached.
Qed.

Lemma fresh_and_not_running (now : Z)
    (run : AgentRunOutputViewer.AgentRunWithMetrics)
    (cached : AgentRunOutputViewer.CachedSessionOutput) :
  (now - AgentRunOutputViewer.lastUpdated cached <? 5000)%Z
  && negb (AgentRunOutputViewer.is_running run) = true
  <-> (now - AgentRunOutputViewer.lastUpdated cached < 5000)%Z
      /\ AgentRunOutputViewer.run_status run <> "running".
Proof.
  unfold AgentRunOutputViewer.is_running.
  rewrite andb_true_iff, Z.ltb_lt, negb_true_iff.
  destruct (String.eqb_spec (AgentRunOutputViewer.run_status run) "running");
    intuition congruence.
Qed.

(** C2 (as the code has it). When a run with a cached entry is opened, the
    entry is painted; it is used with no fetch exactly when it is less than
    5000 ms old and the status of the run as the viewer is given it
    ([run.status], not the status stored in the entry) is not running. An
    entry 3000 ms old for a run given as completed is used with no fetch. A
    refresh skips the cache and always fetches. *)
Theorem C2_cache_fresh_and_run_not_running
    (now : Z) (run : AgentRunOutputViewer.AgentRunWithMetrics) (id : Z)
    (cached : AgentRunOutputViewer.CachedSessionOutput)
    (st : AgentRunOutputViewer.state) :
  AgentRunOutputViewer.truthy_id run = Some id ->
  AgentRunOutputViewer.getCachedOutput id st = Some cached ->
  (snd (AgentRunOutputViewer.mount now run st) = AgentRunOutputViewer.Returned
   <-> (now - AgentRunOutputViewer.lastUpdated cached < 5000)%Z
       /\ AgentRunOutputViewer.run_status run <> "running")
  /\ (snd (AgentRunOutputViewer.mount now run st) = AgentRunOutputViewer.Fetching
      <-> ~ ((now - AgentRunOutputViewer.lastUpdated cached < 5000)%Z
             /\ AgentRunOutputViewer.run_status run <> "running"))
  /\ AgentRunOutputViewer.loadOutput false now run st
     = AgentRunOutputViewer.mount now run st
  /\ AgentRunOutputViewer.messages (fst (AgentRunOutputViewer.mount now run st))
     = AgentRunOutputViewer.cached_messages cached
  /\ AgentRunOutputViewer.rawJsonlOutput (fst (AgentRunOutputViewer.mount now run st))
     = jsonl_lines (AgentRunOutputViewer.output cached)
  /\ (AgentRunOutputViewer.lastUpdated cached = (now - 3000)%Z ->
      AgentRunOutputViewer.run_status run = "completed" ->
      snd (AgentRunOutputViewer.mount now run st) = AgentRunOutputViewer.Returned)
  /\ snd (AgentRunOutputViewer.refreshOutput now run st)
     = AgentRunOutputViewer.Fetching.
Proof.
  intros Hid Hcached.
  assert (AgentRunOutputViewer.loadOutput false now run st
          = AgentRunOutputViewer.mount now run st) as Hload.
  { rewrite (mount_cached now run id cached st Hid Hcached).
    unfold AgentRunOutputViewer.loadOutput. rewrite Hid, Hcached. cbv zeta.
    now destruct ((now - AgentRunOutputViewer.lastUpdated cached <? 5000)%Z
                  && negb (AgentRunOutputViewer.is_running run)). }
  rewrite Hload.
  rewrite (mount_cached now run id cached st Hid Hcached). cbv zeta.
  pose proof (fresh_and_not_running now run cached) as Hrule.
  destruct ((now - AgentRunOutputViewer.lastUpdated cached <? 5000)%Z
            && negb (AgentRunOutputViewer.is_running run)) eqn:Hfresh; simpl.
  - assert ((now - AgentRunOutputViewer.lastUpdated cached < 5000)%Z
            /\ AgentRunOutputViewer.run_status run <> "running") as Hyes
      by now apply Hrule.
    repeat split; try tauto; try discriminate.
    unfold AgentRunOutputViewer.refreshOutput, AgentRunOutputViewer.loadOutput.
    now rewrite Hid.
  - assert (~ ((now - AgentRunOutputViewer.lastUpdated cached < 5000)%Z
               /\ AgentRunOutputViewer.run_status run <> "running")) as Hno.
    { intros Hyes. apply Hrule in Hyes. discriminate. }
    repeat split; try tauto; try discriminate.
    + intros Hage Hcompleted. exfalso. apply Hno. split; [lia|].
      rewrite Hcompleted. discriminate.
    + unfold AgentRunOutputViewer.refreshOutput, AgentRunOutputViewer.loadOutput.
      now rewrite Hid.
Qed.

(** C2 on an entry 3000 ms old, captured as completed, for a run given as
    completed. *)
Lemma C2_witness :
  snd (AgentRunOutputViewer.mount 10000
         {| AgentRunOutputViewer.run_id := Some 7%Z;
            AgentRunOutputViewer.run_status := "completed" |}
         (AgentRunOutputViewer.initial
            {[ 7%Z := {| AgentRunOutputViewer.output := "1";
                         AgentRunOutputViewer.cached_messages := [JNum 1];
                         AgentRunOutputViewer.lastUpdated := 7000;
                         AgentRunOutputViewer.status := "completed" |} ]}))
  = AgentRunOutputViewer.Returned.
Proof.
  refine (proj2 (proj1 (C2_cache_fresh_and_run_not_running 10000
           {| AgentRunOutputViewer.run_id := Some 7%Z;
              AgentRunOutputViewer.run_status := "completed" |}
           7%Z
           {| AgentRunOutputViewer.output := "1";
              AgentRunOutputViewer.cached_messages := [JNum 1];
              AgentRunOutputViewer.lastUpdated := 7000;
              AgentRunOutputViewer.status := "completed" |}
           _ _ _)) _).
  - reflexivity.
  - apply lookup_singleton_eq.
  - simpl. split; [lia | discriminate].
Defined.

(** C2 as the spec words it does not hold on the status it names. An
    entry 3000 ms old captured while the run was running is not valid by
    the rule of the spec, yet it is used with no fetch once the run is
    given as completed; an entry 3000 ms old captured as completed is valid
    by that rule, yet the output is fetched when the run is given as
    running. *)
Lemma C2_counterexample :
  let captured_running :=
    {| AgentRunOutputViewer.output := "1";
       AgentRunOutputViewer.cached_messages := [JNum 1];
       AgentRunOutputViewer.lastUpdated := 7000;
       AgentRunOutputViewer.status := "running" |} in
  let captured_completed :=
    {| AgentRunOutputViewer.output := "1";
       AgentRunOutputViewer.cached_messages := [JNum 1];
       AgentRunOutputViewer.lastUpdated := 7000;
       AgentRunOutputViewer.status := "completed" |} in
  valid_at_capture 10000 captured_running = false
  /\ snd (AgentRunOutputViewer.mount 10000
            {| AgentRunOutputViewer.run_id := Some 7%Z;
               AgentRunOutputViewer.run_status := "completed" |}
            (AgentRunOutputViewer.initial {[ 7%Z := captured_running ]}))
     = AgentRunOutputViewer.Returned
  /\ valid_at_capture 10000 captured_completed = true
  /\ snd (AgentRunOutputViewer.mount 10000
            {| AgentRunOutputViewer.run_id := Some 7%Z;
               AgentRunOutputViewer.run_status := "running" |}
            (AgentRunOutputViewer.initial {[ 7%Z := captured_completed ]}))
     = AgentRunOutputViewer.Fetching.
Proof. cbv zeta. repeat split; vm_compute; reflexivity. Qed.

(** ** Lines that fail to parse *)

(** C6 (as the code has it). A line that fails to parse is reported on the
    console; no counter is kept. The parsed messages gain no entry for it,
    while the line itself stays in the raw list, both when it arrives live
    and when it is a line of a snapshot. The failure ends nothing: the
    lines after it are parsed and appended as if it had not been there. *)
Theorem C6_parse_failure_skipped `{Parser} (line : string) :
  JSON_parse line = None ->
  (forall st : AgentRunOutputViewer.state,
      AgentRunOutputViewer.listening st = true ->
      let st' := AgentRunOutputViewer.on_agent_output line st in
      AgentRunOutputViewer.messages st' = AgentRunOutputViewer.messages st
      /\ AgentRunOutputViewer.rawJsonlOutput st'
         = AgentRunOutputViewer.rawJsonlOutput st ++ [line]
      /\ AgentRunOutputViewer.console st'
         = AgentRunOutputViewer.console st
           ++ [AgentRunOutputViewer.ParseFailed line]
      /\ AgentRunOutputViewer.listening st' = true)
  /\ (forall (st : AgentRunOutputViewer.state) (before after : list string),
         AgentRunOutputViewer.messages
           (AgentRunOutputViewer.feed (before ++ line :: after) st)
         = AgentRunOutputViewer.messages
             (AgentRunOutputViewer.feed (before ++ after) st))
  /\ (forall before after : list string,
         fst (parse_lines (before ++ line :: after))
         = fst (parse_lines (before ++ after))
         /\ In line (snd (parse_lines (before ++ line :: after))))
  /\ (forall (now : Z) (run : AgentRunOutputViewer.AgentRunWithMetrics) (id : Z)
             (rawOutput : string) (st : AgentRunOutputViewer.state),
         AgentRunOutputViewer.truthy_id run = Some id ->
         In line (jsonl_lines rawOutput) ->
         let loaded := AgentRunOutputViewer.loadOutput_resolved now run rawOutput st in
         In line (AgentRunOutputViewer.rawJsonlOutput loaded)
         /\ AgentRunOutputViewer.messages loaded
            = omap JSON_parse
                (List.filter (fun l => negb (String.eqb l line)) (jsonl_lines rawOutput))
         /\ In (AgentRunOutputViewer.ParseFailed line)
              (AgentRunOutputViewer.console loaded)).
Proof.
  intros Hfail.
  assert (forall before after : list string,
             omap JSON_parse (before ++ line :: after)
             = omap JSON_parse (before ++ after)) as Homap.
  { intros before after. rewrite !omap_app. simpl. now rewrite Hfail. }
  split; [|split; [|split]].
  - intros st Hl st'. unfold st'.
    rewrite on_agent_output_messages, on_agent_output_raw,
      on_agent_output_console, on_agent_output_listening, Hl.
    cbn [omap list_omap]. rewrite Hfail, app_nil_r. repeat split.
  - intros st before after. rewrite !feed_messages.
    destruct (AgentRunOutputViewer.listening st); [|reflexivity].
    now rewrite Homap.
  - intros before after. rewrite !parse_lines_messages, parse_lines_failed.
    split; [apply Homap|].
    apply filter_In. rewrite Hfail. split; [|reflexivity].
    apply in_or_app. right. now left.
  - intros now run id rawOutput st Hid Hin loaded.
    destruct (loadOutput_resolved_state now run id rawOutput st Hid)
      as (Hraw & Hmsgs & _ & Hconsole & _).
    fold loaded in Hraw, Hmsgs, Hconsole.
    rewrite Hraw, Hmsgs, Hconsole. split; [exact Hin|split].
    + clear Hin Hraw Hmsgs Hconsole.
      induction (jsonl_lines rawOutput) as [|l rest IH]; [reflexivity|].
      cbn [List.filter]. destruct (String.eqb_spec l line) as [->|Hne]; cbn [negb].
      * cbn [omap list_omap]. rewrite Hfail. exact IH.
      * cbn [omap list_omap]. destruct (JSON_parse l); [f_equal|]; exact IH.
    + apply in_or_app. right. apply in_map. rewrite parse_lines_failed.
      apply filter_In. rewrite Hfail. now split.
Qed.

(** C6 on the live lines oops and 1: the message of the line 1 is appended
    whether or not the line oops came before it. *)
Lemma C6_witness :
  let parser := table_parser [("1", JNum 1)] in
  let st := AgentRunOutputViewer.setListening true
              (AgentRunOutputViewer.initial ∅) in
  AgentRunOutputViewer.messages (@AgentRunOutputViewer.feed parser ["oops"; "1"] st)
  = AgentRunOutputViewer.messages (@AgentRunOutputViewer.feed parser ["1"] st).
Proof.
  cbv zeta.
  exact (proj1 (proj2 (@C6_parse_failure_skipped
                         (table_parser [("1", JNum 1)]) "oops" eq_refl))
           (AgentRunOutputViewer.setListening true (AgentRunOutputViewer.initial ∅))
           [] ["1"]).
Defined.

(** C6 as the spec words it does not hold: the line is not discarded.
    The live line oops, which is no JSON text, is kept in the raw list and
    is the JSONL export of the viewer; as a line of a snapshot it is kept
    in the raw list too. *)
Lemma C6_counterexample :
  let parser := table_parser [("1", JNum 1)] in
  let run := {| AgentRunOutputViewer.run_id := Some 7%Z;
                AgentRunOutputViewer.run_status := "running" |} in
  let opened :=
    @AgentRunOutputViewer.loadOutput_resolved parser 1000 run ""
      (fst (AgentRunOutputViewer.mount 0 run (AgentRunOutputViewer.initial ∅))) in
  let received := @AgentRunOutputViewer.on_agent_output parser "oops" opened in
  let reloaded :=
    @AgentRunOutputViewer.loadOutput_resolved parser 2000 run
      ("oops" +:+ LF +:+ "1") opened in
  @JSON_parse parser "oops" = None
  /\ AgentRunOutputViewer.rawJsonlOutput opened = []
  /\ AgentRunOutputViewer.rawJsonlOutput received = ["oops"]
  /\ AgentRunOutputViewer.handleCopyAsJsonl received = "oops"
  /\ AgentRunOutputViewer.messages received = []
  /\ AgentRunOutputViewer.console received = [AgentRunOutputViewer.ParseFailed "oops"]
  /\ AgentRunOutputViewer.rawJsonlOutput reloaded = ["oops"; "1"]
  /\ AgentRunOutputViewer.messages reloaded = [JNum 1].
Proof. cbv zeta. repeat split; vm_compute; reflexivity. Qed.

(** ** Auto-scroll of the run viewer *)

Lemma append_item_pinned (st : AgentRunOutputViewer.state) (h : Z)
    (c : option container) :
  AgentRunOutputViewer.hasUserScrolled st = true ->
  AgentRunOutputViewer.append_item st h c = grow h <$> c.
Proof.
  intros Hp. unfold AgentRunOutputViewer.append_item, AgentRunOutputViewer.autoScroll,
    AgentRunOutputViewer.scrollToBottom.
  rewrite Hp. simpl. now destruct (isAtBottom (grow h <$> c)).
Qed.

Lemma append_items_pinned (st : AgentRunOutputViewer.state) (hs : list Z)
    (c : option container) :
  AgentRunOutputViewer.hasUserScrolled st = true ->
  scrollTop <$> AgentRunOutputViewer.append_items st hs c = scrollTop <$> c.
Proof.
  intros Hp. unfold AgentRunOutputViewer.append_items.
  revert c. induction hs as [|h hs IH]; intros c; [reflexivity|].
  simpl. rewrite IH, (append_item_pinned _ _ _ Hp). now destruct c.
Qed.

Lemma scrollIntoView_bottom (c : container) :
  (clientHeight c <= scrollHeight c)%Z ->
  distanceFromBottom (scrollIntoView c) = 0%Z.
Proof. unfold distanceFromBottom, scrollIntoView. simpl. lia. Qed.

(** C7. A viewer starts following. While it follows, an appended item
    scrolls the container to the bottom (distance 0 once the content fills
    the container). A scroll event with a distance from the bottom above 50
    pins the view, and the appends that follow leave scrollTop where it is;
    a scroll event with a distance of 50 or less makes the view follow. *)
Theorem C7_follow_until_scrolled_away
    (cache : gmap Z AgentRunOutputViewer.CachedSessionOutput)
    (st : AgentRunOutputViewer.state) (c target : container)
    (h : Z) (hs : list Z) :
  AgentRunOutputViewer.hasUserScrolled (AgentRunOutputViewer.initial cache) = false
  /\ (AgentRunOutputViewer.hasUserScrolled st = false ->
      AgentRunOutputViewer.append_item st h (Some c)
      = Some (scrollIntoView (grow h c))
      /\ ((clientHeight c <= scrollHeight c + h)%Z ->
          distanceFromBottom (scrollIntoView (grow h c)) = 0%Z))
  /\ ((50 < distanceFromBottom target)%Z ->
      AgentRunOutputViewer.hasUserScrolled
        (AgentRunOutputViewer.handleScroll target st) = true
      /\ scrollTop <$> AgentRunOutputViewer.append_items
                         (AgentRunOutputViewer.handleScroll target st) hs (Some c)
         = Some (scrollTop c))
  /\ ((distanceFromBottom target <= 50)%Z ->
      AgentRunOutputViewer.hasUserScrolled
        (AgentRunOutputViewer.handleScroll target st) = false).
Proof.
  split; [reflexivity|split; [|split]].
  - intros Hf. split.
    + unfold AgentRunOutputViewer.append_item, AgentRunOutputViewer.autoScroll,
        AgentRunOutputViewer.scrollToBottom. now rewrite Hf.
    + intros Hfill. apply scrollIntoView_bottom. simpl. lia.
  - intros Hfar.
    assert (AgentRunOutputViewer.hasUserScrolled
              (AgentRunOutputViewer.handleScroll target st) = true) as Hp.
    { simpl. now apply Z.ltb_lt. }
    split; [exact Hp|]. now rewrite (append_items_pinned _ _ _ Hp).
  - intros Hnear. simpl. apply Z.ltb_ge. lia.
Qed.

(** C7 on a container 400 high with 1000 of content, scrolled to the top:
    the distance from the bottom is 600, the view is pinned, and two
    appends leave scrollTop at 0. *)
Lemma C7_witness :
  let c := {| scrollTop := 0; scrollHeight := 1000; clientHeight := 400 |} in
  let st := AgentRunOutputViewer.initial ∅ in
  AgentRunOutputViewer.hasUserScrolled (AgentRunOutputViewer.handleScroll c st) = true
  /\ scrollTop <$> AgentRunOutputViewer.append_items
                     (AgentRunOutputViewer.handleScroll c st) [100%Z; 200%Z] (Some c)
     = Some 0%Z.
Proof.
  cbv zeta.
  apply (proj1 (proj2 (proj2 (C7_follow_until_scrolled_away ∅
           (AgentRunOutputViewer.initial ∅)
           {| scrollTop := 0; scrollHeight := 1000; clientHeight := 400 |}
           {| scrollTop := 0; scrollHeight := 1000; clientHeight := 400 |}
           0%Z [100%Z; 200%Z])))).
  vm_compute. reflexivity.
Defined.

(** ** The row virtualizer *)

Lemma measurements_from_lookup (options : AgentExecution.VirtualizerOptions)
    (sizes : gmap nat Z) (n i k : nat) (offset : Z) (item : AgentExecution.VirtualItem) :
  AgentExecution.measurements_from options sizes i n offset !! k = Some item ->
  AgentExecution.index item = i + k
  /\ AgentExecution.key item = i + k
  /\ AgentExecution.size item = AgentExecution.itemSize options sizes (i + k).
Proof.
  revert i k offset. induction n as [|n IH]; intros i k offset; simpl; [discriminate|].
  destruct k as [|k]; simpl.
  - intros [= <-]. simpl. rewrite Nat.add_0_r. auto.
  - intros Hk. apply IH in Hk. replace (i + S k) with (S i + k) by lia. exact Hk.
Qed.

Lemma measurements_from_length (options : AgentExecution.VirtualizerOptions)
    (sizes : gmap nat Z) (n i : nat) (offset : Z) :
  length (AgentExecution.measurements_from options sizes i n offset) = n.
Proof.
  revert i offset. induction n as [|n IH]; intros i offset; simpl; [reflexivity|].
  now rewrite IH.
Qed.

Lemma itemSize_measured (options : AgentExecution.VirtualizerOptions)
    (sizes : gmap nat Z) (i : nat) (h : Z) :
  AgentExecution.itemSize options (AgentExecution.measureElement i h sizes) i = h.
Proof.
  unfold AgentExecution.itemSize, AgentExecution.measureElement.
  now rewrite lookup_insert_eq.
Qed.

Lemma itemSize_other (options : AgentExecution.VirtualizerOptions)
    (sizes : gmap nat Z) (i j : nat) (h : Z) :
  i <> j ->
  AgentExecution.itemSize options (AgentExecution.measureElement j h sizes) i
  = AgentExecution.itemSize options sizes i.
Proof.
  intros Hne. unfold AgentExecution.itemSize, AgentExecution.measureElement.
  now rewrite lookup_insert_ne by congruence.
Qed.

(** A message visible at a position stays visible at that position when
    messages are appended to the log. *)
Lemma displayable_position_stable (messages more kept kept' : list value)
    (i : nat) (message : value) :
  displayableMessages messages = Some kept ->
  displayableMessages (messages ++ more) = Some kept' ->
  kept !! i = Some message ->
  kept' !! i = Some message.
Proof.
  intros Hkept Hkept' Hi. rewrite displayableMessages_app, Hkept in Hkept'.
  simpl in Hkept'.
  destruct (filter_from (messages ++ more) (length messages) more) as [added|];
    [|discriminate].
  injection Hkept' as <-. now apply lookup_app_l_Some.
Qed.

(** C8 (as the code has it). The virtualizer is told the number of rows
    only, so the key of a row, under which its measured height is kept, is
    its position in the visible list; messages carry no sequence index.
    A message that is visible keeps its position when messages are appended
    to the log, and measuring another row leaves the height stored for a
    row as it is: appending never reassigns a stored measurement. *)
Theorem C8_measured_size_keyed_by_position :
  (forall (displayable : list value) (sizes : gmap nat Z) (i : nat)
          (item : AgentExecution.VirtualItem),
      AgentExecution.getMeasurements (AgentExecution.rowVirtualizer displayable) sizes !! i
      = Some item ->
      AgentExecution.index item = i
      /\ AgentExecution.key item = i
      /\ AgentExecution.row_message displayable item = displayable !! i
      /\ AgentExecution.size item = default 150%Z (sizes !! i))
  /\ (forall (displayable : list value) (sizes : gmap nat Z),
         length (AgentExecution.getMeasurements
                   (AgentExecution.rowVirtualizer displayable) sizes)
         = length displayable)
  /\ (forall (messages more kept kept' : list value) (i : nat) (message : value),
         displayableMessages messages = Some kept ->
         displayableMessages (messages ++ more) = Some kept' ->
         kept !! i = Some message ->
         kept' !! i = Some message)
  /\ (forall (options : AgentExecution.VirtualizerOptions) (sizes : gmap nat Z)
             (i j : nat) (h h' : Z),
         i <> j ->
         AgentExecution.itemSize options
           (AgentExecution.measureElement j h'
              (AgentExecution.measureElement i h sizes)) i = h).
Proof.
  split; [|split; [|split]].
  - intros displayable sizes i item Hitem.
    apply measurements_from_lookup in Hitem as (Hindex & Hkey & Hsize).
    simpl in *. unfold AgentExecution.row_message. rewrite Hindex.
    repeat split; assumption.
  - intros displayable sizes. apply measurements_from_length.
  - exact displayable_position_stable.
  - intros options sizes i j h h' Hne.
    now rewrite itemSize_other, itemSize_measured.
Qed.

(** C8 on a log of two visible messages to which a third is appended: the
    second message stays at position 1. *)
Lemma C8_witness :
  [assistant_message [tool_use_block "t0" "ls"];
   assistant_message [tool_use_block "t1" "bash"];
   assistant_message [tool_use_block "t2" "grep"]] !! 1
  = Some (assistant_message [tool_use_block "t1" "bash"]).
Proof.
  apply (proj1 (proj2 (proj2 C8_measured_size_keyed_by_position))
           [assistant_message [tool_use_block "t0" "ls"];
            assistant_message [tool_use_block "t1" "bash"]]
           [assistant_message [tool_use_block "t2" "grep"]]
           [assistant_message [tool_use_block "t0" "ls"];
            assistant_message [tool_use_block "t1" "bash"]]
           [assistant_message [tool_use_block "t0" "ls"];
            assistant_message [tool_use_block "t1" "bash"];
            assistant_message [tool_use_block "t2" "grep"]]
           1 (assistant_message [tool_use_block "t1" "bash"]));
    vm_compute; reflexivity.
Defined.

(** C8 as the spec words it does not hold: the key is the position in
    the visible list, not the sequence index. The same message is second in
    two logs; where the first message of the log is hidden its row has the
    key 0, and the height measured for it under the key 1 in the other log
    is not the height its row is given. *)
Lemma C8_counterexample :
  let first := assistant_message [tool_use_block "t0" "ls"] in
  let hidden := user_message [] in
  let shown := assistant_message [tool_use_block "t1" "bash"] in
  let measured := AgentExecution.measureElement 1 40%Z ∅ in
  [first; shown] !! 1 = Some shown
  /\ [hidden; shown] !! 1 = Some shown
  /\ displayableMessages [first; shown] = Some [first; shown]
  /\ displayableMessages [hidden; shown] = Some [shown]
  /\ AgentExecution.key
       <$> AgentExecution.getMeasurements
             (AgentExecution.rowVirtualizer [first; shown]) measured = [0; 1]
  /\ AgentExecution.size
       <$> AgentExecution.getMeasurements
             (AgentExecution.rowVirtualizer [first; shown]) measured = [150%Z; 40%Z]
  /\ AgentExecution.key
       <$> AgentExecution.getMeasurements
             (AgentExecution.rowVirtualizer [shown]) measured = [0]
  /\ AgentExecution.size
       <$> AgentExecution.getMeasurements
             (AgentExecution.rowVirtualizer [shown]) measured = [150%Z].
Proof. cbv zeta. repeat split; vm_compute; reflexivity. Qed.

(** ** Stopping an execution *)

Lemma append_assoc (a b c : string) : (a +:+ b) +:+ c = a +:+ (b +:+ c).
Proof.
  induction a as [|x a IH]; [reflexivity|].
  change (String x ((a +:+ b) +:+ c) = String x (a +:+ (b +:+ c))).
  now rewrite IH.
Qed.



Lemma concat_sections_app (render : value -> option string)
    (vs more : list value) :
  AgentExecution.concat_sections render (vs ++ more)
  = body ← AgentExecution.concat_sections render vs;
    added ← AgentExecution.concat_sections render more;
    Some (body +:+ added).
Proof.
  induction vs as [|x vs IH]; cbn [app AgentExecution.concat_sections].
  - cbn [mbind option_bind].
    now destruct (AgentExecution.concat_sections render more).
  - destruct (render x) as [first|]; cbn [mbind option_bind]; [|reflexivity].
    rewrite IH.
    destruct (AgentExecution.concat_sections render vs) as [body|];
      cbn [mbind option_bind]; [|reflexivity].
    destruct (AgentExecution.concat_sections render more) as [added|];
      cbn [mbind option_bind]; [|reflexivity].
    now rewrite append_assoc.
Qed.

Lemma concat_sections_None (render : value -> option string) (vs : list value) :
  AgentExecution.concat_sections render vs = None
  <-> exists v : value, In v vs /\ render v = None.
Proof.
  induction vs as [|x vs IH]; cbn [AgentExecution.concat_sections].
  - split; [discriminate|]. now intros (v & [] & _).
  - destruct (render x) as [first|] eqn:Hx; cbn [mbind option_bind].
    + destruct (AgentExecution.concat_sections render vs) as [body|];
        cbn [mbind option_bind].
      * split; [discriminate|]. intros (v & [<-|Hin] & Hv); [congruence|].
        destruct IH as [_ IH]. discriminate IH. now exists v.
      * split; [|reflexivity]. intros _.
        destruct IH as [IH _]. destruct (IH eq_refl) as (v & Hin & Hv).
        exists v. split; [now right|exact Hv].
    + split; [|reflexivity]. intros _. exists x. split; [now left|exact Hx].
Qed.





(** ** The execution view: scrolling and a run that is stopped *)

(** The scroll handler of the execution view follows exactly when the
    container is at the bottom, that is less than one pixel away from it. *)
Lemma onScroll_follows_at_bottom (c : option container) (st : AgentExecution.state) :
  AgentExecution.hasUserScrolled (AgentExecution.onScroll c st)
  = negb (isAtBottom c).
Proof.
  unfold AgentExecution.onScroll.
  destruct (AgentExecution.hasUserScrolled st) eqn:Hs, (isAtBottom c); simpl;
    try reflexivity; assumption.
Qed.

(** While the execution view is pinned away from the bottom, a row that is
    appended leaves scrollTop where it is. *)
Lemma append_row_pinned (displayable : list value) (st : AgentExecution.state)
    (h : Z) (c : container) :
  AgentExecution.hasUserScrolled st = true ->
  (1 <= distanceFromBottom c)%Z ->
  (0 <= h)%Z ->
  AgentExecution.append_row displayable st h (Some c) = Some (grow h c).
Proof.
  intros Hp Hfar Hh. unfold AgentExecution.append_row, AgentExecution.autoScroll.
  destruct (Nat.eqb (length displayable) 0); [reflexivity|].
  rewrite Hp. simpl.
  assert ((distanceFromBottom (grow h c) <? 1)%Z = false) as ->; [|reflexivity].
  apply Z.ltb_ge. unfold distanceFromBottom in *. simpl. lia.
Qed.

(** A run receives the lines 1 and oops and is stopped: the raw lines and
    the JSONL export hold the two lines and no stop marker, the visible
    list ends with the stop message. *)
Lemma stopped_run_scenario :
  let parser := table_parser [("1", JNum 1)] in
  let idle :=
    {| AgentExecution.projectPath := "/project"; AgentExecution.task := "review";
       AgentExecution.model := "sonnet"; AgentExecution.isRunning := false;
       AgentExecution.messages := []; AgentExecution.rawJsonlOutput := [];
       AgentExecution.error := None; AgentExecution.executionStartTime := None;
       AgentExecution.totalTokens := 0; AgentExecution.elapsedTime := 0;
       AgentExecution.hasUserScrolled := false; AgentExecution.listening := false;
       AgentExecution.console := [] |} in
  let running :=
    @AgentExecution.feed parser ["1"; "oops"]
      (AgentExecution.handleExecute_started (AgentExecution.handleExecute 5000 idle)) in
  let stopped := AgentExecution.handleStop running in
  AgentExecution.isRunning running = true
  /\ AgentExecution.rawJsonlOutput stopped = ["1"; "oops"]
  /\ AgentExecution.handleCopyAsJsonl stopped = "1" +:+ LF +:+ "oops"
  /\ AgentExecution.messages stopped = [JNum 1; AgentExecution.stopMessage 0 0]
  /\ displayableMessages (AgentExecution.messages stopped)
     = Some [JNum 1; AgentExecution.stopMessage 0 0]
  /\ AgentExecution.console stopped = ["oops"]
  /\ AgentExecution.listening stopped = false.
Proof. cbv zeta. repeat split; vm_compute; reflexivity. Qed.

(** * Further properties of the code *)

(** ** The visibility filter as a whole *)

Lemma filter_from_sublist (messages : list value) (index : nat)
    (rest kept : list value) :
  filter_from messages index rest = Some kept -> sublist kept rest.
Proof.
  revert index kept. induction rest as [|m rest IH]; intros index kept; simpl.
  - intros [= <-]. constructor.
  - destruct (isDisplayable messages index m) as [keep|]; [|discriminate]. simpl.
    destruct (filter_from messages (S index) rest) as [tl|] eqn:Htl; [|discriminate].
    simpl. intros [= <-]. specialize (IH _ _ Htl).
    destruct keep; [now apply sublist_skip | now apply sublist_cons].
Qed.

(** X1. The visible list is the log with some messages left out: every
    visible message is a message of the log, and the visible messages
    stand in the order the log has them. *)
Theorem X1_visible_is_sublist (messages kept : list value) :
  displayableMessages messages = Some kept ->
  sublist kept messages /\ length kept <= length messages.
Proof.
  intros H. apply filter_from_sublist in H.
  split; [exact H | now apply sublist_length].
Qed.

Lemma X1_witness :
  sublist [assistant_message [tool_use_block "t1" "bash"]]
    [assistant_message [tool_use_block "t1" "bash"];
     user_message [tool_result_block "t1" "ok"]]
  /\ length [assistant_message [tool_use_block "t1" "bash"]]
     <= length [assistant_message [tool_use_block "t1" "bash"];
                user_message [tool_result_block "t1" "ok"]].
Proof.
  apply (X1_visible_is_sublist
           [assistant_message [tool_use_block "t1" "bash"];
            user_message [tool_result_block "t1" "ok"]]
           [assistant_message [tool_use_block "t1" "bash"]]).
  vm_compute. reflexivity.
Defined.

(** X2. When the filter returns on a log to which messages were appended,
    it returned on the log before, and the visible list is the former
    visible list followed by visible messages among the appended ones: no
    decision on an earlier message is changed by a later message. *)
Theorem X2_appending_extends_visible (messages more kept' : list value) :
  displayableMessages (messages ++ more) = Some kept' ->
  exists kept added : list value,
    displayableMessages messages = Some kept
    /\ kept' = kept ++ added
    /\ sublist added more.
Proof.
  rewrite displayableMessages_app. intros H.
  destruct (displayableMessages messages) as [kept|]; [|discriminate].
  simpl in H.
  destruct (filter_from (messages ++ more) (length messages) more) as [added|] eqn:Hadded;
    [|discriminate].
  injection H as <-. exists kept, added.
  split; [reflexivity|split; [reflexivity|]].
  now apply filter_from_sublist in Hadded.
Qed.

Lemma X2_witness :
  exists kept added : list value,
    displayableMessages [assistant_message [tool_use_block "t1" "bash"]] = Some kept
    /\ [assistant_message [tool_use_block "t1" "bash"]] = kept ++ added
    /\ sublist added [user_message [tool_result_block "t1" "ok"]].
Proof.
  apply (X2_appending_extends_visible
           [assistant_message [tool_use_block "t1" "bash"]]
           [user_message [tool_result_block "t1" "ok"]]
           [assistant_message [tool_use_block "t1" "bash"]]).
  vm_compute. reflexivity.
Defined.

Lemma filter_from_null (messages : list value) (index : nat) (rest : list value) :
  In JNull rest -> filter_from messages index rest = None.
Proof.
  revert index. induction rest as [|m rest IH]; intros index Hin; [destruct Hin|].
  simpl. destruct Hin as [->|Hin]; [reflexivity|].
  destruct (isDisplayable messages index m) as [keep|]; [|reflexivity]. simpl.
  now rewrite IH.
Qed.

(** X3. A line whose JSON text is [null] parses, so the listener appends
    [null] to the messages; from then on the filter raises a TypeError on
    every log that holds it, whatever the other messages are. *)
Theorem X3_null_line_breaks_the_filter `{Parser}
    (payload : string) (st : AgentRunOutputViewer.state)
    (later : list string) (messages : list value) :
  (In JNull messages -> displayableMessages messages = None)
  /\ (JSON_parse payload = Some JNull ->
      AgentRunOutputViewer.listening st = true ->
      displayableMessages
        (AgentRunOutputViewer.messages
           (AgentRunOutputViewer.feed (payload :: later) st)) = None).
Proof.
  split.
  - apply filter_from_null.
  - intros Hnull Hl. apply filter_from_null.
    rewrite feed_messages, Hl. apply in_or_app. right.
    cbn [omap list_omap]. rewrite Hnull. now left.
Qed.

Lemma X3_witness :
  displayableMessages
    (AgentRunOutputViewer.messages
       (@AgentRunOutputViewer.feed (table_parser [("null", JNull); ("1", JNum 1)])
          ["null"; "1"]
          (AgentRunOutputViewer.setListening true (AgentRunOutputViewer.initial ∅))))
  = None.
Proof.
  apply (proj2 (@X3_null_line_breaks_the_filter
                  (table_parser [("null", JNull); ("1", JNum 1)]) "null"
                  (AgentRunOutputViewer.setListening true (AgentRunOutputViewer.initial ∅))
                  ["1"] []));
    reflexivity.
Defined.

(** ** The filter without its loops *)

Lemma hasVisibleContent_existsb (messages : list value) (index : nat)
    (contents : list value) :
  forallb message_ok messages = true ->
  forallb block_ok contents = true ->
  hasVisibleContent messages index contents
  = Some (existsb (block_visible messages index) contents).
Proof.
  intros Hok. induction contents as [|c rest IH]; intros H; [reflexivity|].
  apply andb_prop in H as [Hc Hrest]. cbn [hasVisibleContent existsb].
  rewrite (get_Some _ _ (block_ok_not_null _ Hc)). cbn [mbind option_bind].
  unfold block_visible at 1.
  destruct (strict_eq (prop c "type") (JStr "text")); [reflexivity|].
  destruct (strict_eq (prop c "type") (JStr "tool_result")); [|now apply IH].
  rewrite willBeSkipped_matching by assumption. cbn [mbind option_bind orb andb].
  destruct (truthy (prop c "tool_use_id")
            && match matching_tool_use messages index c with
               | Some toolUse => selfRendering (prop toolUse "name")
               | None => false
               end); [now apply IH | reflexivity].
Qed.

Lemma isDisplayable_visible (messages : list value) (index : nat) (message : value) :
  forallb message_ok messages = true ->
  message_ok message = true ->
  isDisplayable messages index message = Some (visible messages index message).
Proof.
  intros Hok Hm. unfold isDisplayable, visible, bare_meta.
  rewrite (get_Some _ _ (message_ok_not_null _ Hm)). cbn [mbind option_bind].
  destruct (truthy (prop message "isMeta") && negb (truthy (prop message "leafUuid"))
            && negb (truthy (prop message "summary"))) eqn:Hbare; [reflexivity|].
  cbn [negb andb].
  destruct (strict_eq (prop message "type") (JStr "user")
            && truthy (prop message "message")) eqn:Huser; [|reflexivity].
  destruct (truthy (prop message "isMeta")); [reflexivity|]. cbn [negb andb].
  apply andb_prop in Huser as [_ Htruthy].
  pose proof (message_ok_contents message) as Hcs.
  assert (get_opt (prop message "message") "content"
          = prop (prop message "message") "content") as Hget.
  { unfold get_opt. destruct (prop message "message"); try discriminate; reflexivity. }
  rewrite Hget in Hcs.
  destruct (prop (prop message "message") "content") as [| |b|n|s|contents|o];
    cbn [truthy negb isArray array_length orb andb]; try reflexivity.
  - now destruct b.
  - now destruct (n =? 0)%Z.
  - now destruct (String.eqb s "").
  - destruct contents as [|c rest]; [reflexivity|]. cbn [length Nat.eqb].
    rewrite (hasVisibleContent_existsb _ _ _ Hok (Hcs _ Hm eq_refl)).
    cbn [mbind option_bind].
    now destruct (existsb (block_visible messages index) (c :: rest)).
Qed.

Lemma filter_from_select (messages : list value) (index : nat) (rest : list value) :
  forallb message_ok messages = true ->
  forallb message_ok rest = true ->
  filter_from messages index rest = Some (select_from messages index rest).
Proof.
  intros Hok. revert index. induction rest as [|m rest IH]; intros index H;
    [reflexivity|].
  apply andb_prop in H as [Hm Hrest]. cbn [filter_from select_from].
  rewrite (isDisplayable_visible _ _ _ Hok Hm), (IH (S index) Hrest).
  cbn [mbind option_bind]. now destruct (visible messages index m).
Qed.

(** X4. On a log whose messages and content blocks are objects, with tool
    names that are missing or texts of ASCII characters (on which the lower
    case is that of the runtime), the filter raises nothing and keeps
    exactly the messages that are visible by the rules read without the
    loops: not a bare meta message and, for a user message with a message
    field, not meta and with a truthy content that, when it is a list, has
    a text block or a tool_result block that is not matched to a
    self-rendering tool. *)
Theorem X4_filter_keeps_the_visible (messages : list value) :
  forallb message_ok messages = true ->
  forallb ascii_tool_names messages = true ->
  displayableMessages messages = Some (select_from messages 0 messages).
Proof. intros Hok _. now apply filter_from_select. Qed.

Lemma X4_witness :
  displayableMessages
    [assistant_message [tool_use_block "t1" "bash"];
     user_message [tool_result_block "t1" "ok"; tool_result_block "t9" "late"]]
  = Some [assistant_message [tool_use_block "t1" "bash"];
          user_message [tool_result_block "t1" "ok"; tool_result_block "t9" "late"]].
Proof.
  apply (X4_filter_keeps_the_visible
           [assistant_message [tool_use_block "t1" "bash"];
            user_message [tool_result_block "t1" "ok";
                          tool_result_block "t9" "late"]]).
  - reflexivity.
  - reflexivity.
Defined.

Lemma lookup_message_ok (messages : list value) (index : nat) (message : value) :
  forallb message_ok messages = true ->
  messages !! index = Some message ->
  message_ok message = true.
Proof.
  intros Hok Hidx. rewrite forallb_forall in Hok. apply Hok.
  apply list_elem_of_In. eapply list_elem_of_lookup_2. eassumption.
Qed.

Lemma user_message_field (message : value) (contents : list value) :
  prop (prop message "message") "content" = JArr contents ->
  truthy (prop message "message") = true.
Proof.
  intros Hc. destruct (prop message "message"); simpl in Hc; try discriminate.
  reflexivity.
Qed.

(** X5. A user message whose content is a list without a text block, in
    which every tool_result block is matched to a self-rendering tool, is
    dropped, however many blocks it has; blocks of other types never make
    it visible. *)
Theorem X5_only_self_rendering_results_hidden
    (messages : list value) (index : nat) (message : value)
    (contents : list value) :
  forallb message_ok messages = true ->
  messages !! index = Some message ->
  strict_eq (prop message "type") (JStr "user") = true ->
  prop (prop message "message") "content" = JArr contents ->
  (forall content : value,
      In content contents ->
      strict_eq (prop content "type") (JStr "text") = false
      /\ (strict_eq (prop content "type") (JStr "tool_result") = true ->
          truthy (prop content "tool_use_id") = true
          /\ exists toolUse : value,
               matching_tool_use messages index content = Some toolUse
               /\ selfRendering (prop toolUse "name") = true)) ->
  isDisplayable messages index message = Some false.
Proof.
  intros Hok Hidx Hty Hc Hall.
  rewrite (isDisplayable_visible _ _ _ Hok (lookup_message_ok _ _ _ Hok Hidx)).
  f_equal. unfold visible.
  rewrite Hty, (user_message_field _ _ Hc), Hc. cbn [andb].
  assert (existsb (block_visible messages index) contents = false) as ->.
  { clear Hc. induction contents as [|c rest IH]; [reflexivity|].
    cbn [existsb]. rewrite IH by (intros; apply Hall; now right).
    destruct (Hall c (or_introl eq_refl)) as [Htext Hres].
    unfold block_visible. rewrite Htext. cbn [orb].
    destruct (strict_eq (prop c "type") (JStr "tool_result")); [|reflexivity].
    destruct (Hres eq_refl) as (Hid & toolUse & Hmatch & Hself).
    now rewrite Hid, Hmatch, Hself. }
  now rewrite !andb_false_r.
Qed.

Lemma X5_witness :
  isDisplayable
    [assistant_message [tool_use_block "t1" "Bash"; tool_use_block "t2" "mcp__x__y"];
     user_message [tool_result_block "t1" "ok"; tool_use_block "t3" "other";
                   tool_result_block "t2" "done"]]
    1
    (user_message [tool_result_block "t1" "ok"; tool_use_block "t3" "other";
                   tool_result_block "t2" "done"])
  = Some false.
Proof.
  apply (X5_only_self_rendering_results_hidden
           [assistant_message [tool_use_block "t1" "Bash"; tool_use_block "t2" "mcp__x__y"];
            user_message [tool_result_block "t1" "ok"; tool_use_block "t3" "other";
                          tool_result_block "t2" "done"]]
           1 _
           [tool_result_block "t1" "ok"; tool_use_block "t3" "other";
            tool_result_block "t2" "done"]);
    try reflexivity.
  intros content [<-|[<-|[<-|[]]]]; (split; [reflexivity|]).
  - intros _. split; [reflexivity|]. eexists. split; reflexivity.
  - discriminate.
  - intros _. split; [reflexivity|]. eexists. split; reflexivity.
Defined.

(** X6. A tool_result block without a tool_use_id (missing, null, or the
    empty string) is never skipped: no scan is made for it, and a user
    message that holds one and is not flagged meta is kept. *)
Theorem X6_result_without_id_visible
    (messages : list value) (index : nat) (message : value)
    (contents : list value) (content : value) :
  forallb message_ok messages = true ->
  messages !! index = Some message ->
  strict_eq (prop message "type") (JStr "user") = true ->
  truthy (prop message "isMeta") = false ->
  prop (prop message "message") "content" = JArr contents ->
  In content contents ->
  strict_eq (prop content "type") (JStr "tool_result") = true ->
  truthy (prop content "tool_use_id") = false ->
  willBeSkipped messages index content = Some false
  /\ isDisplayable messages index message = Some true.
Proof.
  intros Hok Hidx Hty Hmeta Hc Hin Hres Hid.
  assert (willBeSkipped messages index content = Some false) as Hskip
    by (unfold willBeSkipped; now rewrite Hid).
  split; [exact Hskip|].
  now apply (unskipped_result_visible messages index message contents content).
Qed.

Lemma X6_witness :
  willBeSkipped
    [assistant_message [tool_use_block "" "bash"];
     user_message [tool_result_block "" "ok"]]
    1 (tool_result_block "" "ok") = Some false
  /\ isDisplayable
       [assistant_message [tool_use_block "" "bash"];
        user_message [tool_result_block "" "ok"]]
       1 (user_message [tool_result_block "" "ok"]) = Some true.
Proof.
  apply (X6_result_without_id_visible
           [assistant_message [tool_use_block "" "bash"];
            user_message [tool_result_block "" "ok"]]
           1 (user_message [tool_result_block "" "ok"])
           [tool_result_block "" "ok"] (tool_result_block "" "ok"));
    try reflexivity.
  simpl. now left.
Defined.

(** X7. The decision on a message that is no user message with a list of
    blocks never reads the log. A message without the pair of type user
    and a message field is kept unless it is a bare meta message; a user
    message whose content is not a list is kept exactly when it is not
    flagged meta and the content is truthy (a text that is not empty); a
    user message with an empty list is dropped. *)
Theorem X7_decisions_that_ignore_the_log
    (messages : list value) (index : nat) (message : value) :
  nullish message = false ->
  (strict_eq (prop message "type") (JStr "user")
   && truthy (prop message "message") = false ->
   isDisplayable messages index message = Some (negb (bare_meta message)))
  /\ (strict_eq (prop message "type") (JStr "user")
      && truthy (prop message "message") = true ->
      isArray (prop (prop message "message") "content") = false ->
      isDisplayable messages index message
      = Some (negb (truthy (prop message "isMeta"))
              && truthy (prop (prop message "message") "content")))
  /\ (strict_eq (prop message "type") (JStr "user")
      && truthy (prop message "message") = true ->
      prop (prop message "message") "content" = JArr [] ->
      isDisplayable messages index message = Some false).
Proof.
  intros Hnn. unfold isDisplayable, bare_meta.
  rewrite (get_Some _ _ Hnn). cbn [mbind option_bind].
  split; [|split].
  - intros ->.
    now destruct (truthy (prop message "isMeta")
                  && negb (truthy (prop message "leafUuid"))
                  && negb (truthy (prop message "summary"))).
  - intros -> Harr.
    destruct (truthy (prop message "isMeta")) eqn:Hmeta; cbn [andb negb].
    + now destruct (negb (truthy (prop message "leafUuid"))
                    && negb (truthy (prop message "summary"))).
    + rewrite Harr. cbn [andb orb].
      destruct (prop (prop message "message") "content") as [| |b|n|s|contents|o];
        try discriminate Harr; cbn [truthy negb]; try reflexivity.
      * now destruct b.
      * now destruct (n =? 0)%Z.
      * now destruct (String.eqb s "").
  - intros -> ->. cbn [truthy negb isArray array_length length Nat.eqb orb andb].
    destruct (truthy (prop message "isMeta")); cbn [andb negb]; [|reflexivity].
    now destruct (negb (truthy (prop message "leafUuid"))
                  && negb (truthy (prop message "summary"))).
Qed.

Lemma X7_witness :
  isDisplayable [JNull] 5
    (JObj [("type", JStr "user"); ("message", JObj [("content", JStr "hello")])])
  = Some true.
Proof.
  apply (proj1 (proj2 (X7_decisions_that_ignore_the_log [JNull] 5
           (JObj [("type", JStr "user");
                  ("message", JObj [("content", JStr "hello")])])
           eq_refl)));
    reflexivity.
Defined.

(** ** Lines of a raw output *)

Lemma split_not_nil (sep : ascii) (s : string) : split sep s <> [].
Proof.
  destruct s as [|c rest]; simpl; [discriminate|].
  destruct (Ascii.eqb c sep); [discriminate|].
  destruct (split sep rest); discriminate.
Qed.

Lemma concat_split (s : string) : String.concat LF (split "010" s) = s.
Proof.
  induction s as [|c rest IH]; [reflexivity|].
  cbn [split]. destruct (Ascii.eqb_spec c "010") as [->|Hne].
  - pose proof (split_not_nil "010" rest) as Hnil.
    destruct (split "010" rest) as [|first others] eqn:Hs; [congruence|].
    change (String.concat LF ("" :: first :: others))
      with (String "010" (String.concat LF (first :: others))).
    now rewrite IH.
  - pose proof (split_not_nil "010" rest) as Hnil.
    destruct (split "010" rest) as [|first others] eqn:Hs; [congruence|].
    destruct others as [|second others].
    + change (String c first = String c rest). f_equal. exact IH.
    + change (String c (String.concat LF (first :: second :: others)) = String c rest).
      f_equal. exact IH.
Qed.

Lemma split_no_line_feed (s line : string) :
  In line (split "010" s) -> no_line_feed line = true.
Proof.
  revert line. induction s as [|c rest IH]; intros line; cbn [split].
  - intros [<-|[]]. reflexivity.
  - destruct (Ascii.eqb_spec c "010") as [->|Hne].
    + intros [<-|Hin]; [reflexivity|now apply IH].
    + apply Ascii.eqb_neq in Hne.
      destruct (split "010" rest) as [|first others].
      * intros [<-|[]]. cbn [no_line_feed]. now rewrite Hne.
      * intros [<-|Hin].
        -- cbn [no_line_feed]. rewrite Hne. apply IH. now left.
        -- apply IH. now right.
Qed.

Lemma split_cons (c : ascii) (rest : string) :
  Ascii.eqb c "010" = false ->
  exists (first : string) (others : list string),
    split "010" rest = first :: others
    /\ split "010" (String c rest) = String c first :: others.
Proof.
  intros Hc. cbn [split]. rewrite Hc.
  pose proof (split_not_nil "010" rest) as Hnil.
  destruct (split "010" rest) as [|first others]; [congruence|].
  now exists first, others.
Qed.

Lemma is_blank_line_feed (c : ascii) :
  is_blank c = false -> Ascii.eqb c "010" = false.
Proof.
  intros Hc. destruct (Ascii.eqb_spec c "010") as [->|]; [discriminate|reflexivity].
Qed.

Lemma is_blank2_line_feed (c d : ascii) :
  is_blank2 c d = true -> Ascii.eqb d "010" = false.
Proof.
  intros Hcd. destruct (Ascii.eqb_spec d "010") as [->|]; [discriminate|reflexivity].
Qed.

Lemma is_blank3_line_feed (c d e : ascii) :
  is_blank3 c d e = true ->
  Ascii.eqb d "010" = false /\ Ascii.eqb e "010" = false.
Proof.
  intros Hcde. split.
  - destruct (Ascii.eqb_spec d "010") as [->|]; [discriminate|reflexivity].
  - destruct (Ascii.eqb_spec e "010") as [->|]; [|reflexivity].
    unfold is_blank3 in Hcde. cbn in Hcde.
    destruct (Nat.eqb (nat_of_ascii d) 128); [discriminate|].
    destruct (Nat.eqb (nat_of_ascii d) 129); [discriminate|].
    destruct (Nat.eqb (nat_of_ascii d) 154); [discriminate|].
    destruct (Nat.eqb (nat_of_ascii d) 187); discriminate.
Qed.

(** A text made of white space only is split into lines made of white
    space only: no white space character holds the byte of a line feed
    but the line feed itself. *)
Lemma split_blank_all (n : nat) (s : string) :
  String.length s <= n ->
  trim_is_empty s = true ->
  List.Forall (fun line => trim_is_empty line = true) (split "010" s).
Proof.
  revert s. induction n as [|n IH]; intros s Hlen Hs.
  - destruct s; [now repeat constructor|cbn in Hlen; lia].
  - destruct s as [|c rest]; [now repeat constructor|].
    cbn [String.length] in Hlen. cbn [trim_is_empty] in Hs.
    destruct (is_blank c) eqn:Hc.
    + assert (List.Forall (fun line => trim_is_empty line = true)
                (split "010" rest)) as Hrest by (apply IH; [lia|exact Hs]).
      destruct (Ascii.eqb c "010") eqn:Hlf.
      * cbn [split]. rewrite Hlf. now constructor.
      * destruct (split_cons c rest Hlf) as (first & others & Hsplit & ->).
        rewrite Hsplit in Hrest. inversion Hrest as [|? ? Hfirst Hothers]; subst.
        constructor; [|exact Hothers]. cbn [trim_is_empty]. now rewrite Hc.
    + pose proof (is_blank_line_feed c Hc) as Hlf.
      destruct rest as [|d rest']; [discriminate|].
      cbn [String.length] in Hlen.
      destruct (is_blank2 c d) eqn:Hcd.
      * pose proof (is_blank2_line_feed c d Hcd) as Hlf'.
        assert (List.Forall (fun line => trim_is_empty line = true)
                  (split "010" rest')) as Hrest by (apply IH; [lia|exact Hs]).
        destruct (split_cons d rest' Hlf') as (first & others & Hsplit & Hd).
        destruct (split_cons c (String d rest') Hlf) as (first' & others' & Hsplit' & ->).
        rewrite Hd in Hsplit'. injection Hsplit' as <- <-.
        rewrite Hsplit in Hrest. inversion Hrest as [|? ? Hfirst Hothers]; subst.
        constructor; [|exact Hothers]. cbn [trim_is_empty]. now rewrite Hc, Hcd.
      * destruct rest' as [|e rest'']; [discriminate|].
        cbn [String.length] in Hlen.
        apply andb_prop in Hs as [Hcde Hs].
        destruct (is_blank3_line_feed c d e Hcde) as [Hlf' Hlf''].
        assert (List.Forall (fun line => trim_is_empty line = true)
                  (split "010" rest'')) as Hrest by (apply IH; [lia|exact Hs]).
        destruct (split_cons e rest'' Hlf'') as (first & others & Hsplit & He).
        destruct (split_cons d (String e rest'') Hlf')
          as (first' & others' & Hsplit' & Hd).
        rewrite He in Hsplit'. injection Hsplit' as <- <-.
        destruct (split_cons c (String d (String e rest'')) Hlf)
          as (first'' & others'' & Hsplit'' & ->).
        rewrite Hd in Hsplit''. injection Hsplit'' as <- <-.
        rewrite Hsplit in Hrest. inversion Hrest as [|? ? Hfirst Hothers]; subst.
        constructor; [|exact Hothers]. cbn [trim_is_empty].
        now rewrite Hc, Hcd, Hcde.
Qed.

Lemma split_blank (s line : string) :
  trim_is_empty s = true -> In line (split "010" s) -> trim_is_empty line = true.
Proof.
  intros Hs.
  apply (proj1 (List.Forall_forall (fun line => trim_is_empty line = true)
                  (split "010" s))).
  now apply (split_blank_all (String.length s)).
Qed.

Lemma split_line (line : string) :
  no_line_feed line = true -> split "010" line = [line].
Proof.
  induction line as [|c rest IH]; [reflexivity|].
  cbn [no_line_feed split]. intros H. apply andb_prop in H as [Hc Hrest].
  apply negb_true_iff in Hc. rewrite Hc, (IH Hrest). reflexivity.
Qed.

Lemma split_line_then (line s : string) :
  no_line_feed line = true ->
  split "010" (line +:+ LF +:+ s) = line :: split "010" s.
Proof.
  induction line as [|c rest IH]; intros H.
  - reflexivity.
  - cbn [no_line_feed] in H. apply andb_prop in H as [Hc Hrest].
    apply negb_true_iff in Hc.
    change (split "010" (String c (rest +:+ LF +:+ s)) = String c rest :: split "010" s).
    cbn [split]. rewrite Hc, (IH Hrest). reflexivity.
Qed.

Lemma split_join_lines (lines : list string) :
  lines <> [] ->
  (forall line, In line lines -> no_line_feed line = true) ->
  split "010" (join_lines lines) = lines.
Proof.
  unfold join_lines.
  induction lines as [|line rest IH]; intros Hne Hall; [congruence|].
  destruct rest as [|second rest].
  - cbn [String.concat]. apply split_line, Hall. now left.
  - change (String.concat LF (line :: second :: rest))
      with (line +:+ LF +:+ String.concat LF (second :: rest)).
    rewrite split_line_then by (apply Hall; now left).
    f_equal. apply IH; [discriminate|]. intros l Hl. apply Hall. now right.
Qed.

(** X8. The lines read from a raw output are lines of its split at the
    line feeds, in the order of the split; none is empty, none holds a
    line feed, and none is made of white space only. An output made of
    white space only (the empty output among them; white space is that of
    [trim]: the ASCII blanks, the no-break space, the other Unicode
    spaces, the line and paragraph separators and the byte order mark)
    gives no line at all. The split itself loses nothing but the line
    feeds, which joining gives back. *)
Theorem X8_lines_of_raw_output (raw : string) :
  (forall line : string,
      In line (jsonl_lines raw) ->
      line <> "" /\ no_line_feed line = true /\ trim_is_empty line = false)
  /\ (trim_is_empty raw = true -> jsonl_lines raw = [])
  /\ sublist (jsonl_lines raw) (split "010" raw)
  /\ String.concat LF (split "010" raw) = raw.
Proof.
  split; [|split; [|split]].
  - intros line Hin. unfold jsonl_lines in Hin. apply filter_In in Hin as [Hin Hnb].
    apply negb_true_iff in Hnb.
    split; [now intros ->|]. split; [now apply (split_no_line_feed raw)|exact Hnb].
  - intros Hblank. unfold jsonl_lines.
    pose proof (split_blank raw) as Hall. specialize (fun l => Hall l Hblank).
    induction (split "010" raw) as [|l ls IH]; [reflexivity|].
    cbn [List.filter]. rewrite (Hall l (or_introl eq_refl)). cbn [negb].
    apply IH. intros; apply Hall; now right.
  - unfold jsonl_lines. induction (split "010" raw) as [|l ls IH]; [constructor|].
    cbn [List.filter]. destruct (negb (trim_is_empty l));
      [now apply sublist_skip | now apply sublist_cons].
  - apply concat_split.
Qed.

(** X8 on an output of four lines: a space, a no-break space (C2 A0), an
    ideographic space (E3 80 80) and a byte order mark (EF BB BF) followed
    by a tab. *)
Lemma X8_witness :
  jsonl_lines
    (" " +:+ LF +:+ String "194" (String "160" LF)
     +:+ String "227" (String "128" (String "128" LF))
     +:+ String "239" (String "187" (String "191" (String "009" ""))))
  = [].
Proof.
  apply (proj1 (proj2 (X8_lines_of_raw_output
                         (" " +:+ LF +:+ String "194" (String "160" LF)
                          +:+ String "227" (String "128" (String "128" LF))
                          +:+ String "239" (String "187"
                                (String "191" (String "009" ""))))))).
  reflexivity.
Defined.

Lemma jsonl_lines_join (lines : list string) :
  (forall line : string,
      In line lines -> no_line_feed line = true /\ trim_is_empty line = false) ->
  jsonl_lines (join_lines lines) = lines.
Proof.
  intros Hall. unfold jsonl_lines.
  destruct lines as [|line rest]; [reflexivity|].
  rewrite split_join_lines; [|discriminate|intros l Hl; now apply Hall].
  apply forallb_filter_id. apply forallb_forall. intros l Hl.
  apply negb_true_iff. now apply Hall.
Qed.

(** X9. Joining lines for the JSONL export and reading the text back as a
    snapshot gives the same lines, provided no line is blank or holds a
    line feed. The raw lines a resolved fetch leaves are such lines, so
    the JSONL export of a viewer that has just loaded reads back as its
    raw lines. *)
Theorem X9_export_reads_back `{Parser} (lines : list string)
    (now : Z) (run : AgentRunOutputViewer.AgentRunWithMetrics) (id : Z)
    (rawOutput : string) (st : AgentRunOutputViewer.state) :
  ((forall line : string,
       In line lines -> no_line_feed line = true /\ trim_is_empty line = false) ->
   jsonl_lines (join_lines lines) = lines)
  /\ (AgentRunOutputViewer.truthy_id run = Some id ->
      let loaded := AgentRunOutputViewer.loadOutput_resolved now run rawOutput st in
      jsonl_lines (AgentRunOutputViewer.handleCopyAsJsonl loaded)
      = AgentRunOutputViewer.rawJsonlOutput loaded).
Proof.
  split; [apply jsonl_lines_join|].
  intros Hid loaded.
  destruct (loadOutput_resolved_state now run id rawOutput st Hid) as (Hraw & _).
  fold loaded in Hraw. unfold AgentRunOutputViewer.handleCopyAsJsonl.
  rewrite Hraw. apply jsonl_lines_join. intros line Hin.
  unfold jsonl_lines in Hin. apply filter_In in Hin as [Hin Hnb].
  split; [now apply (split_no_line_feed rawOutput) | now apply negb_true_iff in Hnb].
Qed.

Lemma X9_witness :
  jsonl_lines (join_lines ["1"; "oops"]) = ["1"; "oops"]
  /\ let loaded :=
       @AgentRunOutputViewer.loadOutput_resolved (table_parser [("1", JNum 1)]) 1000
         {| AgentRunOutputViewer.run_id := Some 7%Z;
            AgentRunOutputViewer.run_status := "completed" |}
         ("1" +:+ LF +:+ " " +:+ LF +:+ "oops" +:+ LF)
         (AgentRunOutputViewer.initial ∅) in
     jsonl_lines (AgentRunOutputViewer.handleCopyAsJsonl loaded)
     = AgentRunOutputViewer.rawJsonlOutput loaded.
Proof.
  cbv zeta. split.
  - apply (proj1 (@X9_export_reads_back (table_parser []) ["1"; "oops"]
                    0 {| AgentRunOutputViewer.run_id := None;
                         AgentRunOutputViewer.run_status := "" |}
                    0%Z "" (AgentRunOutputViewer.initial ∅))).
    intros line [<-|[<-|[]]]; split; reflexivity.
  - apply (proj2 (@X9_export_reads_back (table_parser [("1", JNum 1)]) []
                    1000
                    {| AgentRunOutputViewer.run_id := Some 7%Z;
                       AgentRunOutputViewer.run_status := "completed" |}
                    7%Z ("1" +:+ LF +:+ " " +:+ LF +:+ "oops" +:+ LF)
                    (AgentRunOutputViewer.initial ∅))).
    reflexivity.
Defined.

(** ** The viewer over its events *)

Section ViewerEvents.
Context `{Parser}.
Import AgentRunOutputViewer.

Lemma consistent_same (st st' : state) :
  messages st' = messages st ->
  rawJsonlOutput st' = rawJsonlOutput st ->
  outputCache st' = outputCache st ->
  consistent st -> consistent st'.
Proof.
  unfold consistent. intros -> -> ->. trivial.
Qed.

Lemma consistent_paint (id : Z) (cached : CachedSessionOutput) (st : state) :
  getCachedOutput id st = Some cached ->
  consistent st -> consistent (paint_cached cached st).
Proof.
  intros Hcached [Hmsgs Hcache]. split; [|exact Hcache].
  simpl. now apply (Hcache id).
Qed.

Lemma consistent_loadOutput (skipCache : bool) (now : Z)
    (run : AgentRunWithMetrics) (st : state) :
  consistent st -> consistent (fst (loadOutput skipCache now run st)).
Proof.
  intros Hst. unfold loadOutput.
  destruct (truthy_id run) as [id|]; [|exact Hst].
  destruct skipCache.
  - now apply (consistent_same st).
  - destruct (getCachedOutput id st) as [cached|] eqn:Hcached.
    + pose proof (consistent_paint id cached st Hcached Hst) as Hpainted.
      destruct ((now - lastUpdated cached <? 5000)%Z && negb (is_running run));
        now apply (consistent_same (paint_cached cached st)).
    + now apply (consistent_same st).
Qed.

Lemma loadOutput_resolved_cache (now : Z) (run : AgentRunWithMetrics)
    (rawOutput : string) (st : state) :
  outputCache (loadOutput_resolved now run rawOutput st)
  = match truthy_id run with
    | Some id =>
        <[id := {| output := rawOutput;
                   cached_messages := omap JSON_parse (jsonl_lines rawOutput);
                   lastUpdated := now; status := run_status run |}]>
          (outputCache st)
    | None => outputCache st
    end.
Proof.
  unfold loadOutput_resolved, setupLiveEventListeners.
  destruct (truthy_id run) as [id|]; [|reflexivity].
  rewrite <- parse_lines_messages.
  destruct (parse_lines (jsonl_lines rawOutput)) as [parsed failed].
  cbn zeta. now destruct (is_running run).
Qed.

Lemma on_agent_output_cache (payload : string) (st : state) :
  outputCache (on_agent_output payload st) = outputCache st.
Proof.
  unfold on_agent_output. destruct (listening st); [|reflexivity].
  now destruct (JSON_parse payload).
Qed.

Lemma feed_cache (payloads : list string) (st : state) :
  outputCache (feed payloads st) = outputCache st.
Proof.
  revert st. induction payloads as [|p rest IH]; intros st; [reflexivity|].
  unfold feed in *. simpl. now rewrite IH, on_agent_output_cache.
Qed.

Lemma consistent_step (run : AgentRunWithMetrics) (e : event) (st : state) :
  consistent st -> consistent (step run e st).
Proof.
  intros Hst. destruct e as [now|now|now rawOutput| |payload| | |target];
    cbn [step].
  - unfold mount. destruct (truthy_id run) as [id|]; [|exact Hst].
    apply consistent_loadOutput.
    destruct (getCachedOutput id st) as [cached|] eqn:Hcached;
      [now apply (consistent_paint id)|exact Hst].
  - apply consistent_loadOutput, Hst.
  - destruct (truthy_id run) as [id|] eqn:Hid.
    + destruct (loadOutput_resolved_state now run id rawOutput st Hid)
        as (Hraw & Hmsgs & _).
      split; [now rewrite Hraw, Hmsgs|].
      intros id' entry. rewrite loadOutput_resolved_cache, Hid.
      destruct (decide (id = id')) as [<-|Hne].
      * rewrite lookup_insert_eq. now intros [= <-].
      * rewrite lookup_insert_ne by exact Hne. apply Hst.
    + unfold loadOutput_resolved. now rewrite Hid.
  - now apply (consistent_same st).
  - destruct Hst as [Hmsgs Hcache]. split.
    + rewrite on_agent_output_messages, on_agent_output_raw, Hmsgs, omap_app.
      now destruct (listening st).
    + now rewrite on_agent_output_cache.
  - unfold on_agent_complete. destruct (listening st); [|exact Hst].
    now apply (consistent_same st).
  - unfold on_agent_cancelled. destruct (listening st); [|exact Hst].
    now apply (consistent_same st).
  - now apply (consistent_same st).
Qed.

Lemma step_cache (run : AgentRunWithMetrics) (e : event) (st : state) :
  is_resolved e = false -> outputCache (step run e st) = outputCache st.
Proof.
  destruct e as [now|now|now rawOutput| |payload| | |target]; cbn [step is_resolved];
    intros Hres; try discriminate.
  - unfold mount, loadOutput. destruct (truthy_id run) as [id|]; [|reflexivity].
    destruct (getCachedOutput id st) as [cached|] eqn:Hcached.
    + change (getCachedOutput id (paint_cached cached st))
        with (getCachedOutput id st).
      rewrite Hcached.
      now destruct ((now - lastUpdated cached <? 5000)%Z && negb (is_running run)).
    + now rewrite Hcached.
  - unfold refreshOutput, loadOutput. now destruct (truthy_id run).
  - reflexivity.
  - apply on_agent_output_cache.
  - unfold on_agent_complete. now destruct (listening st).
  - unfold on_agent_cancelled. now destruct (listening st).
  - reflexivity.
Qed.

Lemma consistent_initial : consistent (initial ∅).
Proof.
  split; [reflexivity|]. intros id entry Hin.
  cbn [initial outputCache] in Hin. now rewrite lookup_empty in Hin.
Qed.

Lemma length_omap {A B : Type} (f : A -> option B) (l : list A) :
  length (omap f l) <= length l.
Proof.
  induction l as [|a l IH]; [reflexivity|].
  cbn [omap list_omap]. destruct (f a); cbn [length]; lia.
Qed.

End ViewerEvents.

(** X10. Whatever happens to a viewer (mounts, refreshes, fetches that
    resolve or fail, live lines, completion and cancellation events,
    scrolling, for any run), its parsed messages stay the raw lines parsed
    in order with the failures left out, and every cached entry stays the
    parse of its own output: the rendered log and the JSONL copy never
    drift apart, and there are never more messages than raw lines. *)
Theorem X10_messages_are_the_parsed_raw_lines `{Parser}
    (trace : list (AgentRunOutputViewer.AgentRunWithMetrics
                   * AgentRunOutputViewer.event))
    (st : AgentRunOutputViewer.state) :
  consistent st ->
  let st' := AgentRunOutputViewer.run_events trace st in
  AgentRunOutputViewer.messages st'
  = omap JSON_parse (AgentRunOutputViewer.rawJsonlOutput st')
  /\ length (AgentRunOutputViewer.messages st')
     <= length (AgentRunOutputViewer.rawJsonlOutput st')
  /\ consistent st'.
Proof.
  intros Hst.
  assert (consistent (AgentRunOutputViewer.run_events trace st)) as Hst'.
  { unfold AgentRunOutputViewer.run_events. revert st Hst.
    induction trace as [|[run e] rest IH]; intros st Hst; [exact Hst|].
    simpl. apply IH. now apply consistent_step. }
  cbv zeta. split; [apply Hst'|]. split; [|exact Hst'].
  rewrite (proj1 Hst'). apply length_omap.
Qed.

Lemma X10_witness :
  let run :=
    {| AgentRunOutputViewer.run_id := Some 7%Z;
       AgentRunOutputViewer.run_status := "running" |} in
  let st' :=
    @AgentRunOutputViewer.run_events
      (table_parser [("1", JNum 1); ("2", JNum 2)])
      [(run, AgentRunOutputViewer.Mount 0);
       (run, AgentRunOutputViewer.Resolved 10 ("1" +:+ LF +:+ "oops"));
       (run, AgentRunOutputViewer.Output "2");
       (run, AgentRunOutputViewer.Output "oops")]
      (AgentRunOutputViewer.initial ∅) in
  AgentRunOutputViewer.messages st' = [JNum 1; JNum 2]
  /\ AgentRunOutputViewer.rawJsonlOutput st' = ["1"; "oops"; "2"; "oops"].
Proof.
  cbv zeta.
  pose proof
    (@X10_messages_are_the_parsed_raw_lines
       (table_parser [("1", JNum 1); ("2", JNum 2)])
       [({| AgentRunOutputViewer.run_id := Some 7%Z;
            AgentRunOutputViewer.run_status := "running" |},
         AgentRunOutputViewer.Mount 0);
        ({| AgentRunOutputViewer.run_id := Some 7%Z;
            AgentRunOutputViewer.run_status := "running" |},
         AgentRunOutputViewer.Resolved 10 ("1" +:+ LF +:+ "oops"));
        ({| AgentRunOutputViewer.run_id := Some 7%Z;
            AgentRunOutputViewer.run_status := "running" |},
         AgentRunOutputViewer.Output "2");
        ({| AgentRunOutputViewer.run_id := Some 7%Z;
            AgentRunOutputViewer.run_status := "running" |},
         AgentRunOutputViewer.Output "oops")]
       (AgentRunOutputViewer.initial ∅)
       consistent_initial) as [Hmsgs _].
  split; [exact Hmsgs|reflexivity].
Defined.

(** X11. Reopening a run paints its last snapshot. After a fetch has
    resolved, a viewer mounted later on the same cache shows the raw lines
    and messages of that snapshot; the live lines that arrived after the
    snapshot are not among them, since they never reach the cache. The
    new viewer has no listener yet, and it goes without a fetch exactly
    when the snapshot is less than 5000 ms old and the run is given as not
    running. *)
Theorem X11_reopen_paints_last_snapshot `{Parser}
    (now now' : Z) (run run' : AgentRunOutputViewer.AgentRunWithMetrics)
    (id : Z) (rawOutput : string) (later : list string)
    (st : AgentRunOutputViewer.state) :
  AgentRunOutputViewer.truthy_id run = Some id ->
  AgentRunOutputViewer.truthy_id run' = Some id ->
  let loaded := AgentRunOutputViewer.loadOutput_resolved now run rawOutput st in
  let closed := AgentRunOutputViewer.feed later loaded in
  let reopened :=
    AgentRunOutputViewer.mount now' run'
      (AgentRunOutputViewer.initial (AgentRunOutputViewer.outputCache closed)) in
  AgentRunOutputViewer.rawJsonlOutput (fst reopened)
  = AgentRunOutputViewer.rawJsonlOutput loaded
  /\ AgentRunOutputViewer.messages (fst reopened)
     = AgentRunOutputViewer.messages loaded
  /\ AgentRunOutputViewer.listening (fst reopened) = false
  /\ (snd reopened = AgentRunOutputViewer.Returned
      <-> (now' - now < 5000)%Z
          /\ AgentRunOutputViewer.run_status run' <> "running").
Proof.
  intros Hid Hid' loaded closed reopened.
  destruct (loadOutput_resolved_state now run id rawOutput st Hid)
    as (Hraw & Hmsgs & _ & _ & Hcached & _).
  fold loaded in Hraw, Hmsgs, Hcached.
  assert (AgentRunOutputViewer.getCachedOutput id
            (AgentRunOutputViewer.initial (AgentRunOutputViewer.outputCache closed))
          = Some {| AgentRunOutputViewer.output := rawOutput;
                    AgentRunOutputViewer.cached_messages :=
                      omap JSON_parse (jsonl_lines rawOutput);
                    AgentRunOutputViewer.lastUpdated := now;
                    AgentRunOutputViewer.status :=
                      AgentRunOutputViewer.run_status run |}) as Hentry.
  { unfold closed. unfold AgentRunOutputViewer.getCachedOutput in *.
    cbn [AgentRunOutputViewer.initial AgentRunOutputViewer.outputCache].
    rewrite feed_cache. exact Hcached. }
  unfold reopened. rewrite (mount_cached now' run' id _ _ Hid' Hentry).
  cbv zeta. rewrite Hraw, Hmsgs.
  pose proof (fresh_and_not_running now' run'
                {| AgentRunOutputViewer.output := rawOutput;
                   AgentRunOutputViewer.cached_messages :=
                     omap JSON_parse (jsonl_lines rawOutput);
                   AgentRunOutputViewer.lastUpdated := now;
                   AgentRunOutputViewer.status :=
                     AgentRunOutputViewer.run_status run |}) as Hfresh.
  cbn [AgentRunOutputViewer.lastUpdated] in *.
  destruct ((now' - now <? 5000)%Z
            && negb (AgentRunOutputViewer.is_running run')) eqn:Hcond.
  - split; [reflexivity|]. split; [reflexivity|]. split; [reflexivity|].
    split; [intros _; now apply Hfresh|reflexivity].
  - split; [reflexivity|]. split; [reflexivity|]. split; [reflexivity|].
    split; [intros Hno; cbn [snd] in Hno; discriminate|].
    intros Hyes. apply Hfresh in Hyes. discriminate.
Qed.

Lemma X11_witness :
  let run :=
    {| AgentRunOutputViewer.run_id := Some 7%Z;
       AgentRunOutputViewer.run_status := "running" |} in
  let run' :=
    {| AgentRunOutputViewer.run_id := Some 7%Z;
       AgentRunOutputViewer.run_status := "completed" |} in
  let closed :=
    @AgentRunOutputViewer.feed (table_parser [("1", JNum 1); ("2", JNum 2)]) ["2"]
      (@AgentRunOutputViewer.loadOutput_resolved
         (table_parser [("1", JNum 1); ("2", JNum 2)]) 1000 run "1"
         (AgentRunOutputViewer.initial ∅)) in
  AgentRunOutputViewer.messages closed = [JNum 1; JNum 2]
  /\ AgentRunOutputViewer.messages
       (fst (AgentRunOutputViewer.mount 4000 run'
               (AgentRunOutputViewer.initial
                  (AgentRunOutputViewer.outputCache closed))))
     = [JNum 1].
Proof.
  cbv zeta. split; [reflexivity|].
  refine (eq_trans
            (proj1 (proj2
               (@X11_reopen_paints_last_snapshot
                  (table_parser [("1", JNum 1); ("2", JNum 2)]) 1000 4000
                  {| AgentRunOutputViewer.run_id := Some 7%Z;
                     AgentRunOutputViewer.run_status := "running" |}
                  {| AgentRunOutputViewer.run_id := Some 7%Z;
                     AgentRunOutputViewer.run_status := "completed" |}
                  7%Z "1" ["2"] (AgentRunOutputViewer.initial ∅)
                  eq_refl eq_refl))) _).
  reflexivity.
Defined.

(** X12. Only a fetch that resolves writes the output cache, and it writes
    the entry of its own run only: over any events with no resolved fetch
    among them (live lines included) the cache is unchanged, and a
    resolved fetch leaves the entry of every other run as it was. *)
Theorem X12_only_a_resolved_fetch_writes_the_cache `{Parser}
    (trace : list (AgentRunOutputViewer.AgentRunWithMetrics
                   * AgentRunOutputViewer.event))
    (run : AgentRunOutputViewer.AgentRunWithMetrics) (now : Z)
    (rawOutput : string) (other : Z) (st : AgentRunOutputViewer.state) :
  (forallb (fun '(_, e) => negb (is_resolved e)) trace = true ->
   AgentRunOutputViewer.outputCache (AgentRunOutputViewer.run_events trace st)
   = AgentRunOutputViewer.outputCache st)
  /\ (AgentRunOutputViewer.truthy_id run <> Some other ->
      AgentRunOutputViewer.getCachedOutput other
        (AgentRunOutputViewer.step run
           (AgentRunOutputViewer.Resolved now rawOutput) st)
      = AgentRunOutputViewer.getCachedOutput other st).
Proof.
  split.
  - revert st. induction trace as [|[run0 e] rest IH]; intros st Hall;
      [reflexivity|].
    cbn [forallb] in Hall. apply andb_prop in Hall as [He Hrest].
    apply negb_true_iff in He.
    unfold AgentRunOutputViewer.run_events in *. cbn [fold_left].
    rewrite (IH _ Hrest). now apply step_cache.
  - intros Hother. cbn [AgentRunOutputViewer.step].
    unfold AgentRunOutputViewer.getCachedOutput.
    rewrite loadOutput_resolved_cache.
    destruct (AgentRunOutputViewer.truthy_id run) as [id|]; [|reflexivity].
    apply lookup_insert_ne. congruence.
Qed.

Lemma X12_witness :
  let run :=
    {| AgentRunOutputViewer.run_id := Some 7%Z;
       AgentRunOutputViewer.run_status := "running" |} in
  let loaded :=
    @AgentRunOutputViewer.step (table_parser [("1", JNum 1)]) run
      (AgentRunOutputViewer.Resolved 1000 "1") (AgentRunOutputViewer.initial ∅) in
  AgentRunOutputViewer.outputCache
    (@AgentRunOutputViewer.run_events (table_parser [("1", JNum 1)])
       [(run, AgentRunOutputViewer.Output "1");
        (run, AgentRunOutputViewer.Refresh 2000);
        (run, AgentRunOutputViewer.Rejected)] loaded)
  = AgentRunOutputViewer.outputCache loaded
  /\ AgentRunOutputViewer.getCachedOutput 8 loaded = None.
Proof.
  cbv zeta. split.
  - apply (proj1
             (@X12_only_a_resolved_fetch_writes_the_cache
                (table_parser [("1", JNum 1)])
                [({| AgentRunOutputViewer.run_id := Some 7%Z;
                     AgentRunOutputViewer.run_status := "running" |},
                  AgentRunOutputViewer.Output "1");
                 ({| AgentRunOutputViewer.run_id := Some 7%Z;
                     AgentRunOutputViewer.run_status := "running" |},
                  AgentRunOutputViewer.Refresh 2000);
                 ({| AgentRunOutputViewer.run_id := Some 7%Z;
                     AgentRunOutputViewer.run_status := "running" |},
                  AgentRunOutputViewer.Rejected)]
                {| AgentRunOutputViewer.run_id := Some 7%Z;
                   AgentRunOutputViewer.run_status := "running" |}
                1000 "1" 8%Z _)).
    reflexivity.
  - refine (eq_trans
              (proj2
                 (@X12_only_a_resolved_fetch_writes_the_cache
                    (table_parser [("1", JNum 1)]) []
                    {| AgentRunOutputViewer.run_id := Some 7%Z;
                       AgentRunOutputViewer.run_status := "running" |}
                    1000 "1" 8%Z (AgentRunOutputViewer.initial ∅))
                 _) _).
    + discriminate.
    + apply lookup_empty.
Defined.

(** ** The execution view over its events *)

Section ExecutionEvents.
Context `{Parser}.
Import AgentExecution.

Lemma execution_output_messages (payload : string) (st : state) :
  messages (on_agent_output payload st)
  = messages st ++ (if listening st then omap JSON_parse [payload] else []).
Proof.
  unfold on_agent_output. destruct (listening st).
  - cbn [omap list_omap]. destruct (JSON_parse payload);
      cbn [messages setMessages console_error setRawJsonlOutput];
      [reflexivity|now rewrite app_nil_r].
  - now rewrite app_nil_r.
Qed.

Lemma execution_output_raw (payload : string) (st : state) :
  rawJsonlOutput (on_agent_output payload st)
  = rawJsonlOutput st ++ (if listening st then [payload] else []).
Proof.
  unfold on_agent_output. destruct (listening st).
  - destruct (JSON_parse payload); reflexivity.
  - now rewrite app_nil_r.
Qed.

Lemma execution_output_clock (payload : string) (st : state) :
  isRunning (on_agent_output payload st) = isRunning st
  /\ executionStartTime (on_agent_output payload st) = executionStartTime st
  /\ elapsedTime (on_agent_output payload st) = elapsedTime st
  /\ listening (on_agent_output payload st) = listening st.
Proof.
  unfold on_agent_output. destruct (listening st) eqn:Hl; [|now rewrite Hl].
  destruct (JSON_parse payload); repeat split; assumption.
Qed.

Lemma execution_feed_clock (payloads : list string) (st : state) :
  isRunning (feed payloads st) = isRunning st
  /\ executionStartTime (feed payloads st) = executionStartTime st
  /\ elapsedTime (feed payloads st) = elapsedTime st
  /\ listening (feed payloads st) = listening st.
Proof.
  revert st. induction payloads as [|p rest IH]; intros st; [now repeat split|].
  unfold feed in *. cbn [fold_left].
  destruct (IH (on_agent_output p st)) as (-> & -> & -> & ->).
  apply execution_output_clock.
Qed.

(** What one event does to the transcript: nothing, a reset, one line
    appended to both lists, or the stop message appended to the messages
    alone. *)
Lemma execution_step_transcript (e : event) (st : state) :
  (messages (step e st) = messages st
   /\ rawJsonlOutput (step e st) = rawJsonlOutput st)
  \/ (messages (step e st) = [] /\ rawJsonlOutput (step e st) = [])
  \/ (exists payload : string,
        messages (step e st) = messages st ++ omap JSON_parse [payload]
        /\ rawJsonlOutput (step e st) = rawJsonlOutput st ++ [payload])
  \/ (is_stop e = true
      /\ rawJsonlOutput (step e st) = rawJsonlOutput st
      /\ exists message : value, messages (step e st) = messages st ++ [message]).
Proof.
  destruct e as [now| |payload|text|success| |now| |shouldLeave|c]; cbn [step].
  - unfold handleExecute.
    destruct (String.eqb (projectPath st) "" || trim_is_empty (task st));
      [left|right; left]; now split.
  - left. now split.
  - rewrite execution_output_messages, execution_output_raw.
    destruct (listening st).
    + right. right. left. exists payload. now split.
    + left. now rewrite !app_nil_r.
  - left. unfold on_agent_error. now destruct (listening st).
  - left. unfold on_agent_complete. destruct (listening st); [|now split].
    now destruct success.
  - left. unfold on_agent_cancelled. now destruct (listening st).
  - left. unfold tick. destruct (executionStartTime st) as [start|]; [|now split].
    now destruct (isRunning st && negb (start =? 0)%Z).
  - right. right. right. split; [reflexivity|]. split; [reflexivity|].
    now exists (stopMessage (elapsedTime st) (totalTokens st)).
  - left. unfold handleBackWithConfirmation.
    now destruct (isRunning st && negb shouldLeave).
  - left. unfold onScroll.
    now destruct (negb (hasUserScrolled st)), (isAtBottom c).
Qed.

Lemma reduce_tokens_app (total : sum_value) (before rest : list value) :
  reduce_tokens total (before ++ rest)
  = total' ← reduce_tokens total before; reduce_tokens total' rest.
Proof.
  revert total. induction before as [|msg before IH]; intros total; [reflexivity|].
  cbn [app reduce_tokens].
  destruct (counted_usage msg) as [[usage|]|]; cbn [mbind option_bind];
    [apply IH|apply IH|reflexivity].
Qed.

Lemma counted_usage_of (msg : value) :
  nullish msg = false ->
  counted_usage msg
  = Some (if truthy (usage_of msg) then Some (usage_of msg) else None).
Proof.
  intros Hmsg. unfold counted_usage, get, usage_of. rewrite Hmsg.
  cbn [mbind option_bind].
  assert (get_opt (prop msg "message") "usage" = prop (prop msg "message") "usage")
    as ->.
  { unfold get_opt. now destruct (prop msg "message"). }
  destruct (truthy (prop (prop msg "message") "usage")) eqn:Hinner;
    [now rewrite Hinner|].
  now destruct (truthy (prop msg "usage")).
Qed.

Lemma js_add_not_number (a : sum_value) (v : value) :
  is_number a = false -> is_number (js_add a v) = false.
Proof. destruct a, v; try discriminate; reflexivity. Qed.

Lemma js_add_undefined (a : sum_value) : is_number (js_add a JUndefined) = false.
Proof. now destruct a. Qed.

Lemma reduce_tokens_not_number (total total' : sum_value) (messages : list value) :
  is_number total = false ->
  reduce_tokens total messages = Some total' ->
  is_number total' = false.
Proof.
  revert total. induction messages as [|msg rest IH]; intros total Hnot.
  - now intros [= <-].
  - cbn [reduce_tokens].
    destruct (counted_usage msg) as [[usage|]|]; cbn [mbind option_bind];
      [|now apply IH|discriminate].
    apply IH. now do 2 apply js_add_not_number.
Qed.

End ExecutionEvents.

(** X13. In the execution view, the lines that parse are always among the
    messages, in their order, whatever happens (executions, live lines,
    errors, completion, cancellation, ticks, stops, leaving, scrolling);
    and as long as the stop control is not used the messages are exactly
    the raw lines parsed in order. The stop control is the only event that
    makes the two lists differ. *)
Theorem X13_execution_messages_follow_raw_lines `{Parser}
    (trace : list AgentExecution.event) (st : AgentExecution.state) :
  AgentExecution.messages st = omap JSON_parse (AgentExecution.rawJsonlOutput st) ->
  let st' := AgentExecution.run_events trace st in
  sublist (omap JSON_parse (AgentExecution.rawJsonlOutput st'))
    (AgentExecution.messages st')
  /\ (forallb (fun e => negb (AgentExecution.is_stop e)) trace = true ->
      AgentExecution.messages st'
      = omap JSON_parse (AgentExecution.rawJsonlOutput st')).
Proof.
  intros Hst. cbv zeta. split.
  - assert (sublist (omap JSON_parse (AgentExecution.rawJsonlOutput st))
              (AgentExecution.messages st)) as Hsub by now rewrite Hst.
    clear Hst. revert st Hsub. unfold AgentExecution.run_events.
    induction trace as [|e rest IH]; intros st Hsub; [exact Hsub|].
    cbn [fold_left]. apply IH.
    destruct (execution_step_transcript e st)
      as [[-> ->]|[[-> ->]|[(payload & -> & ->)|(_ & -> & message & ->)]]].
    + exact Hsub.
    + constructor.
    + rewrite omap_app. now apply sublist_app.
    + now apply sublist_inserts_r.
  - revert st Hst. unfold AgentExecution.run_events.
    induction trace as [|e rest IH]; intros st Hst Hall; [exact Hst|].
    cbn [forallb] in Hall. apply andb_prop in Hall as [He Hrest].
    apply negb_true_iff in He.
    cbn [fold_left]. apply IH; [|exact Hrest].
    destruct (execution_step_transcript e st)
      as [[-> ->]|[[-> ->]|[(payload & -> & ->)|(Hstop & _)]]].
    + exact Hst.
    + reflexivity.
    + now rewrite omap_app, Hst.
    + congruence.
Qed.

Lemma X13_witness :
  let idle :=
    {| AgentExecution.projectPath := "/project"; AgentExecution.task := "review";
       AgentExecution.model := "sonnet"; AgentExecution.isRunning := false;
       AgentExecution.messages := []; AgentExecution.rawJsonlOutput := [];
       AgentExecution.error := None; AgentExecution.executionStartTime := None;
       AgentExecution.totalTokens := 0; AgentExecution.elapsedTime := 0;
       AgentExecution.hasUserScrolled := false; AgentExecution.listening := false;
       AgentExecution.console := [] |} in
  let st' :=
    @AgentExecution.run_events (table_parser [("1", JNum 1)])
      [AgentExecution.Execute 5000; AgentExecution.Started;
       AgentExecution.Output "1"; AgentExecution.Output "oops";
       AgentExecution.Tick 7000; AgentExecution.Complete true] idle in
  AgentExecution.messages st' = [JNum 1]
  /\ AgentExecution.rawJsonlOutput st' = ["1"; "oops"].
Proof.
  cbv zeta. split; [|reflexivity].
  refine (eq_trans
            (proj2
               (@X13_execution_messages_follow_raw_lines
                  (table_parser [("1", JNum 1)])
                  [AgentExecution.Execute 5000; AgentExecution.Started;
                   AgentExecution.Output "1"; AgentExecution.Output "oops";
                   AgentExecution.Tick 7000; AgentExecution.Complete true]
                  {| AgentExecution.projectPath := "/project"; AgentExecution.task := "review";
                     AgentExecution.model := "sonnet"; AgentExecution.isRunning := false;
                     AgentExecution.messages := []; AgentExecution.rawJsonlOutput := [];
                     AgentExecution.error := None;
                     AgentExecution.executionStartTime := None;
                     AgentExecution.totalTokens := 0; AgentExecution.elapsedTime := 0;
                     AgentExecution.hasUserScrolled := false;
                     AgentExecution.listening := false;
                     AgentExecution.console := [] |} eq_refl) eq_refl) _).
  reflexivity.
Defined.

(** X14. The elapsed time of a running execution is the whole number of
    seconds since it started: it is 0 until the first tick, after a tick
    at time [now] it is within one second below [now - start] and never
    above it, and it is frozen once the execution is stopped, completes or
    is cancelled. *)
Theorem X14_elapsed_time_whole_seconds `{Parser}
    (start now later : Z) (payloads : list string) (success : bool)
    (st : AgentExecution.state) :
  AgentExecution.projectPath st <> "" ->
  trim_is_empty (AgentExecution.task st) = false ->
  start <> 0%Z ->
  let running :=
    AgentExecution.feed payloads
      (AgentExecution.handleExecute_started (AgentExecution.handleExecute start st)) in
  let ticked := AgentExecution.tick now running in
  AgentExecution.elapsedTime running = 0%Z
  /\ (AgentExecution.elapsedTime ticked * 1000 <= now - start
      < AgentExecution.elapsedTime ticked * 1000 + 1000)%Z
  /\ AgentExecution.tick later (AgentExecution.handleStop ticked)
     = AgentExecution.handleStop ticked
  /\ AgentExecution.tick later (AgentExecution.on_agent_complete success ticked)
     = AgentExecution.on_agent_complete success ticked
  /\ AgentExecution.tick later (AgentExecution.on_agent_cancelled ticked)
     = AgentExecution.on_agent_cancelled ticked.
Proof.
  intros Hpath Htask Hstart running ticked.
  assert (AgentExecution.handleExecute start st
          = {| AgentExecution.projectPath := AgentExecution.projectPath st;
               AgentExecution.task := AgentExecution.task st;
               AgentExecution.model := AgentExecution.model st;
               AgentExecution.isRunning := true;
               AgentExecution.messages := [];
               AgentExecution.rawJsonlOutput := [];
               AgentExecution.error := None;
               AgentExecution.executionStartTime := Some start;
               AgentExecution.totalTokens := 0;
               AgentExecution.elapsedTime := 0;
               AgentExecution.hasUserScrolled := AgentExecution.hasUserScrolled st;
               AgentExecution.listening := AgentExecution.listening st;
               AgentExecution.console := AgentExecution.console st |}) as Hexec.
  { unfold AgentExecution.handleExecute. rewrite Htask.
    now destruct (String.eqb_spec (AgentExecution.projectPath st) ""). }
  destruct (execution_feed_clock payloads
              (AgentExecution.handleExecute_started
                 (AgentExecution.handleExecute start st)))
    as (Hrun & Hstarted & Helapsed & Hlistening).
  fold running in Hrun, Hstarted, Helapsed, Hlistening.
  rewrite Hexec in Hrun, Hstarted, Helapsed, Hlistening.
  cbn in Hrun, Hstarted, Helapsed, Hlistening.
  assert (ticked = AgentExecution.setElapsedTime ((now - start) / 1000)%Z running)
    as Hticked.
  { unfold ticked, AgentExecution.tick. rewrite Hstarted, Hrun.
    apply Z.eqb_neq in Hstart. now rewrite Hstart. }
  split; [exact Helapsed|]. split.
  - rewrite Hticked. cbn [AgentExecution.elapsedTime AgentExecution.setElapsedTime].
    pose proof (Z_div_mod_eq_full (now - start) 1000) as Hdiv.
    pose proof (Z.mod_pos_bound (now - start) 1000 ltac:(lia)) as Hmod.
    lia.
  - split; [reflexivity|].
    assert (AgentExecution.listening ticked = true) as Hl.
    { rewrite Hticked. exact Hlistening. }
    unfold AgentExecution.on_agent_complete, AgentExecution.on_agent_cancelled.
    rewrite Hl. split; [now destruct success|reflexivity].
Qed.

Lemma X14_witness :
  let idle :=
    {| AgentExecution.projectPath := "/project"; AgentExecution.task := "review";
       AgentExecution.model := "sonnet"; AgentExecution.isRunning := false;
       AgentExecution.messages := []; AgentExecution.rawJsonlOutput := [];
       AgentExecution.error := None; AgentExecution.executionStartTime := None;
       AgentExecution.totalTokens := 0; AgentExecution.elapsedTime := 0;
       AgentExecution.hasUserScrolled := false; AgentExecution.listening := false;
       AgentExecution.console := [] |} in
  let ticked :=
    AgentExecution.tick 7999
      (@AgentExecution.feed (table_parser [("1", JNum 1)]) ["1"]
         (AgentExecution.handleExecute_started
            (AgentExecution.handleExecute 5000 idle))) in
  (AgentExecution.elapsedTime ticked * 1000 <= 7999 - 5000
   < AgentExecution.elapsedTime ticked * 1000 + 1000)%Z.
Proof.
  cbv zeta.
  refine (proj1 (proj2
            (@X14_elapsed_time_whole_seconds (table_parser [("1", JNum 1)])
               5000 7999 9000 ["1"] true
               {| AgentExecution.projectPath := "/project"; AgentExecution.task := "review";
                     AgentExecution.model := "sonnet"; AgentExecution.isRunning := false;
                     AgentExecution.messages := []; AgentExecution.rawJsonlOutput := [];
                     AgentExecution.error := None;
                     AgentExecution.executionStartTime := None;
                     AgentExecution.totalTokens := 0; AgentExecution.elapsedTime := 0;
                     AgentExecution.hasUserScrolled := false;
                     AgentExecution.listening := false;
                     AgentExecution.console := [] |} _ _ _))).
  - discriminate.
  - reflexivity.
  - discriminate.
Defined.

Lemma integer_usage_counted (msg : value) (count : Z) (rest : list value) :
  integer_usage msg = Some count ->
  (0 <= count)%Z
  /\ forall total : Z,
       AgentExecution.reduce_tokens (AgentExecution.SumNum total) (msg :: rest)
       = AgentExecution.reduce_tokens (AgentExecution.SumNum (total + count)) rest.
Proof.
  unfold integer_usage. intros Hmsg.
  destruct (nullish msg) eqn:Hnull; [discriminate|].
  cbn [AgentExecution.reduce_tokens].
  rewrite (counted_usage_of msg Hnull). cbn [mbind option_bind].
  destruct (truthy (usage_of msg)).
  - destruct (prop (usage_of msg) "input_tokens") as [| | |i| | |];
      try discriminate.
    destruct (prop (usage_of msg) "output_tokens") as [| | |o| | |];
      try discriminate.
    destruct (Z.leb_spec 0 i), (Z.leb_spec 0 o); try discriminate.
    injection Hmsg as <-. split; [lia|]. intros total.
    cbn [AgentExecution.js_add]. now rewrite Z.add_assoc.
  - injection Hmsg as <-. split; [lia|]. intros total. now rewrite Z.add_0_r.
Qed.

Lemma tokens_from (total : Z) (messages : list value) (counts : list Z) :
  Forall2 (fun msg count => integer_usage msg = Some count) messages counts ->
  AgentExecution.reduce_tokens (AgentExecution.SumNum total) messages
  = Some (AgentExecution.SumNum (total + foldr Z.add 0%Z counts))
  /\ (0 <= foldr Z.add 0%Z counts)%Z.
Proof.
  intros Hcounts. revert total.
  induction Hcounts as [|msg count rest counts' Hmsg _ IH]; intros total.
  - cbn [AgentExecution.reduce_tokens foldr]. now rewrite Z.add_0_r.
  - destruct (integer_usage_counted msg count rest Hmsg) as [Hcount Hstep].
    rewrite Hstep. destruct (IH (total + count)%Z) as [-> Hrest].
    cbn [foldr]. split; [do 2 f_equal; lia|lia].
Qed.

Lemma sum_counts_app (counts more : list Z) :
  foldr Z.add 0%Z (counts ++ more)
  = (foldr Z.add 0%Z counts + foldr Z.add 0%Z more)%Z.
Proof.
  induction counts as [|count counts IH]; cbn [app foldr]; [reflexivity|].
  rewrite IH. lia.
Qed.

(** X15. On a log whose messages each carry token counts that are
    integers and not negative, or no usage at all, and whose counts sum to
    2^53 at most, the token total is the sum of the counts of the
    messages, where a message is counted with the usage of its [message]
    field when it has one and with its own usage otherwise, never with
    both. Every total on the way (the total of each beginning of the log)
    lies between 0 and 2^53, where the additions of the runtime are
    exact. *)
Theorem X15_token_total_of_integer_usages (messages : list value)
    (counts : list Z) :
  mapM integer_usage messages = Some counts ->
  (foldr Z.add 0%Z counts <= exact_limit)%Z ->
  AgentExecution.tokens messages
  = Some (AgentExecution.SumNum (foldr Z.add 0%Z counts))
  /\ forall before rest : list value,
       messages = before ++ rest ->
       exists partial : Z,
         AgentExecution.tokens before = Some (AgentExecution.SumNum partial)
         /\ (0 <= partial <= exact_limit)%Z.
Proof.
  intros Hcounts Hlimit. apply mapM_Some_1 in Hcounts.
  unfold AgentExecution.tokens. split.
  - now destruct (tokens_from 0 messages counts Hcounts) as [-> _].
  - intros before rest ->.
    apply Forall2_app_inv_l in Hcounts
      as (counts1 & counts2 & Hbefore & Hrest & ->).
    destruct (tokens_from 0 before counts1 Hbefore) as [-> Hpos1].
    destruct (tokens_from 0 rest counts2 Hrest) as [_ Hpos2].
    rewrite sum_counts_app in Hlimit.
    exists (foldr Z.add 0%Z counts1). split; [reflexivity|lia].
Qed.

Lemma X15_witness :
  AgentExecution.tokens
    [JObj [("type", JStr "assistant");
           ("message", JObj [("usage", JObj [("input_tokens", JNum 10);
                                             ("output_tokens", JNum 5)])]);
           ("usage", JObj [("input_tokens", JNum 1000);
                           ("output_tokens", JNum 1000)])];
     JObj [("type", JStr "user")];
     JObj [("type", JStr "result");
           ("usage", JObj [("input_tokens", JNum 7);
                           ("output_tokens", JNum 3)])]]
  = Some (AgentExecution.SumNum 25).
Proof.
  apply (X15_token_total_of_integer_usages _ [15; 0; 10]%Z).
  - reflexivity.
  - unfold exact_limit. simpl. lia.
Defined.

(** X16. One counted usage without an input or an output count makes the
    token total something that is not a number (NaN, or a text), and no
    message that follows makes it a number again. *)
Theorem X16_missing_count_poisons_total (before rest : list value)
    (msg usage : value) (total : AgentExecution.sum_value) :
  AgentExecution.counted_usage msg = Some (Some usage) ->
  prop usage "input_tokens" = JUndefined
  \/ prop usage "output_tokens" = JUndefined ->
  AgentExecution.tokens (before ++ msg :: rest) = Some total ->
  is_number total = false.
Proof.
  intros Husage Hmissing. unfold AgentExecution.tokens.
  rewrite reduce_tokens_app.
  destruct (AgentExecution.reduce_tokens (AgentExecution.SumNum 0) before)
    as [sofar|]; cbn [mbind option_bind]; [|discriminate].
  cbn [AgentExecution.reduce_tokens]. rewrite Husage. cbn [mbind option_bind].
  apply reduce_tokens_not_number.
  destruct Hmissing as [-> | ->].
  - apply js_add_not_number, js_add_undefined.
  - apply js_add_undefined.
Qed.

Lemma X16_witness :
  AgentExecution.tokens
    [JObj [("usage", JObj [("input_tokens", JNum 7); ("output_tokens", JNum 3)])];
     JObj [("usage", JObj [("input_tokens", JNum 7)])];
     JObj [("usage", JObj [("input_tokens", JNum 1); ("output_tokens", JNum 1)])]]
  = Some AgentExecution.SumNaN
  /\ is_number AgentExecution.SumNaN = false.
Proof.
  split; [reflexivity|].
  apply (X16_missing_count_poisons_total
           [JObj [("usage", JObj [("input_tokens", JNum 7);
                                  ("output_tokens", JNum 3)])]]
           [JObj [("usage", JObj [("input_tokens", JNum 1);
                                  ("output_tokens", JNum 1)])]]
           (JObj [("usage", JObj [("input_tokens", JNum 7)])])
           (JObj [("input_tokens", JNum 7)])
           AgentExecution.SumNaN).
  - reflexivity.
  - right. reflexivity.
  - reflexivity.
Defined.

(** X17. The stop message carries the token total as its own usage, and
    the total is computed over all the messages, the stop message among
    them: when the total shown is that of the messages, it doubles once
    the execution has been stopped. *)
Theorem X17_stop_counts_the_total_again (st : AgentExecution.state) :
  AgentExecution.tokens (AgentExecution.messages st)
  = Some (AgentExecution.SumNum (AgentExecution.totalTokens st)) ->
  AgentExecution.tokens (AgentExecution.messages (AgentExecution.handleStop st))
  = Some (AgentExecution.SumNum (2 * AgentExecution.totalTokens st)).
Proof.
  intros Htotal.
  change (AgentExecution.messages (AgentExecution.handleStop st))
    with (AgentExecution.messages st
          ++ [AgentExecution.stopMessage (AgentExecution.elapsedTime st)
                (AgentExecution.totalTokens st)]).
  unfold AgentExecution.tokens in *. rewrite reduce_tokens_app, Htotal.
  cbn. do 2 f_equal. lia.
Qed.

Lemma X17_witness :
  let st :=
    {| AgentExecution.projectPath := "/project"; AgentExecution.task := "review";
       AgentExecution.model := "sonnet"; AgentExecution.isRunning := true;
       AgentExecution.messages :=
         [JObj [("type", JStr "assistant");
                ("message", JObj [("usage", JObj [("input_tokens", JNum 10);
                                                  ("output_tokens", JNum 5)])])]];
       AgentExecution.rawJsonlOutput := ["1"];
       AgentExecution.error := None; AgentExecution.executionStartTime := Some 5000%Z;
       AgentExecution.totalTokens := 15; AgentExecution.elapsedTime := 2;
       AgentExecution.hasUserScrolled := false; AgentExecution.listening := true;
       AgentExecution.console := [] |} in
  AgentExecution.tokens (AgentExecution.messages (AgentExecution.handleStop st))
  = Some (AgentExecution.SumNum 30).
Proof.
  cbv zeta.
  refine (eq_trans (X17_stop_counts_the_total_again _ _) _); reflexivity.
Defined.

(** ** The Markdown export as a whole *)

(** X18. The Markdown export of the execution view is built message by
    message: the export of a log with messages appended is the export of
    the log followed by the sections of the appended messages, in their
    order. The export fails exactly when the section of some message
    fails, and the section of a message that is [null] or [undefined]
    does: one such message in the log makes the whole export fail. *)
Theorem X18_markdown_export_by_sections `{Formatter}
    (agent_name date : string) (st : AgentExecution.state) (more : list value) :
  AgentExecution.handleCopyAsMarkdown agent_name date
    (AgentExecution.setMessages (AgentExecution.messages st ++ more) st)
  = (exported ← AgentExecution.handleCopyAsMarkdown agent_name date st;
     added ← AgentExecution.concat_sections AgentExecution.markdown_section more;
     Some (exported +:+ added))
  /\ (AgentExecution.handleCopyAsMarkdown agent_name date st = None
      <-> exists msg : value,
            In msg (AgentExecution.messages st)
            /\ AgentExecution.markdown_section msg = None)
  /\ AgentExecution.markdown_section JNull = None
  /\ AgentExecution.markdown_section JUndefined = None.
Proof.
  split; [|split; [|split; reflexivity]].
  - unfold AgentExecution.handleCopyAsMarkdown.
    change (AgentExecution.markdown_header agent_name date
              (AgentExecution.setMessages (AgentExecution.messages st ++ more) st))
      with (AgentExecution.markdown_header agent_name date st).
    change (AgentExecution.messages
              (AgentExecution.setMessages (AgentExecution.messages st ++ more) st))
      with (AgentExecution.messages st ++ more).
    rewrite concat_sections_app.
    destruct (AgentExecution.concat_sections AgentExecution.markdown_section
                (AgentExecution.messages st)) as [body|];
      cbn [mbind option_bind]; [|reflexivity].
    destruct (AgentExecution.concat_sections AgentExecution.markdown_section more)
      as [added|]; cbn [mbind option_bind]; [|reflexivity].
    now rewrite append_assoc.
  - rewrite <- concat_sections_None.
    unfold AgentExecution.handleCopyAsMarkdown.
    destruct (AgentExecution.concat_sections AgentExecution.markdown_section
                (AgentExecution.messages st)); cbn [mbind option_bind];
      split; congruence.
Qed.

(** ** The two views at the same scroll position *)

(** X19. The two views decide from the same scroll event whether to stop
    following, each whatever it had decided before, and they decide
    differently exactly when the distance from the bottom is between 1
    and 50: the viewer goes on following there, the execution view stops.
    Below 1 both follow, above 50 both stop. *)
Theorem X19_views_disagree_between_1_and_50 (c : container)
    (viewer : AgentRunOutputViewer.state) (execution : AgentExecution.state) :
  (AgentRunOutputViewer.hasUserScrolled
     (AgentRunOutputViewer.handleScroll c viewer)
   <> AgentExecution.hasUserScrolled
        (AgentExecution.onScroll (Some c) execution)
   <-> (1 <= distanceFromBottom c <= 50)%Z)
  /\ ((1 <= distanceFromBottom c <= 50)%Z ->
      AgentRunOutputViewer.hasUserScrolled
        (AgentRunOutputViewer.handleScroll c viewer) = false
      /\ AgentExecution.hasUserScrolled
           (AgentExecution.onScroll (Some c) execution) = true)
  /\ ((distanceFromBottom c < 1)%Z ->
      AgentRunOutputViewer.hasUserScrolled
        (AgentRunOutputViewer.handleScroll c viewer) = false
      /\ AgentExecution.hasUserScrolled
           (AgentExecution.onScroll (Some c) execution) = false)
  /\ ((50 < distanceFromBottom c)%Z ->
      AgentRunOutputViewer.hasUserScrolled
        (AgentRunOutputViewer.handleScroll c viewer) = true
      /\ AgentExecution.hasUserScrolled
           (AgentExecution.onScroll (Some c) execution) = true).
Proof.
  rewrite onScroll_follows_at_bottom.
  cbn [AgentRunOutputViewer.handleScroll AgentRunOutputViewer.hasUserScrolled
       AgentRunOutputViewer.setHasUserScrolled isAtBottom].
  destruct (Z.ltb_spec 50 (distanceFromBottom c)),
           (Z.ltb_spec (distanceFromBottom c) 1); cbn [negb];
    (split; [split; [intros Hne; try congruence; lia
                    |intros Hin; try lia; discriminate]|]);
    (split; [intros Hin; try lia; now split|]);
    (split; intros Hin; try lia; now split).
Qed.

(** X19 on a container 400 high holding 1000, scrolled to 570 (30 from
    the bottom), to 600 (the bottom) and to 0 (600 from the bottom). *)
Lemma X19_witness :
  let execution :=
    {| AgentExecution.projectPath := "/project"; AgentExecution.task := "review";
       AgentExecution.model := "sonnet"; AgentExecution.isRunning := false;
       AgentExecution.messages := []; AgentExecution.rawJsonlOutput := [];
       AgentExecution.error := None; AgentExecution.executionStartTime := None;
       AgentExecution.totalTokens := 0; AgentExecution.elapsedTime := 0;
       AgentExecution.hasUserScrolled := false; AgentExecution.listening := false;
       AgentExecution.console := [] |} in
  let viewer := AgentRunOutputViewer.initial ∅ in
  let at_ top := {| scrollTop := top; scrollHeight := 1000; clientHeight := 400 |} in
  (AgentRunOutputViewer.hasUserScrolled
     (AgentRunOutputViewer.handleScroll (at_ 570%Z) viewer) = false
   /\ AgentExecution.hasUserScrolled
        (AgentExecution.onScroll (Some (at_ 570%Z)) execution) = true)
  /\ (AgentRunOutputViewer.hasUserScrolled
        (AgentRunOutputViewer.handleScroll (at_ 600%Z) viewer) = false
      /\ AgentExecution.hasUserScrolled
           (AgentExecution.onScroll (Some (at_ 600%Z)) execution) = false)
  /\ (AgentRunOutputViewer.hasUserScrolled
        (AgentRunOutputViewer.handleScroll (at_ 0%Z) viewer) = true
      /\ AgentExecution.hasUserScrolled
           (AgentExecution.onScroll (Some (at_ 0%Z)) execution) = true).
Proof.
  intros execution viewer at_.
  split; [|split].
  - apply (proj1 (proj2 (X19_views_disagree_between_1_and_50
                           (at_ 570%Z) viewer execution))).
    unfold distanceFromBottom. simpl. lia.
  - apply (proj1 (proj2 (proj2 (X19_views_disagree_between_1_and_50
                                  (at_ 600%Z) viewer execution)))).
    unfold distanceFromBottom. simpl. lia.
  - apply (proj2 (proj2 (proj2 (X19_views_disagree_between_1_and_50
                                  (at_ 0%Z) viewer execution)))).
    unfold distanceFromBottom. simpl. lia.
Defined.

(** ** The error boundary *)

Lemma boundary_state (trace : list ErrorBoundary.event) :
  ErrorBoundary.run_events trace ErrorBoundary.initial
  = match last trace with
    | Some (ErrorBoundary.Caught e) => ErrorBoundary.getDerivedStateFromError e
    | _ => ErrorBoundary.initial
    end.
Proof.
  induction trace as [|ev trace IH] using rev_ind; [reflexivity|].
  unfold ErrorBoundary.run_events in *. rewrite fold_left_app, last_snoc.
  cbn [fold_left]. now destruct ev.
Qed.

(** X20. An error boundary shows the error it caught last, for as long as
    it has not been reset since: after any sequence of caught errors and
    resets it renders the children when nothing was caught or the last
    event is a reset, and otherwise the error interface for the last
    error caught (the custom fallback when there is one, else the default
    card, with the details when the message is not empty). Its flag and
    its error are always set together. *)
Theorem X20_boundary_shows_last_error (trace : list ErrorBoundary.event)
    (has_fallback : bool) :
  let st := ErrorBoundary.run_events trace ErrorBoundary.initial in
  ErrorBoundary.render has_fallback st
  = match last trace with
    | Some (ErrorBoundary.Caught e) =>
        if has_fallback then ErrorBoundary.Fallback e
        else ErrorBoundary.DefaultCard
               (if String.eqb (ErrorBoundary.message e) "" then None
                else Some (ErrorBoundary.message e))
    | _ => ErrorBoundary.Children
    end
  /\ (ErrorBoundary.hasError st = true <-> ErrorBoundary.error st <> None).
Proof.
  cbv zeta. rewrite boundary_state.
  destruct (last trace) as [[e|]|]; cbn; (split; [reflexivity|]);
    split; congruence.
Qed.


(** ** The duration shown *)



(** ** A viewer of a run that is not running *)

Lemma viewer_step_deaf `{Parser} (run : AgentRunOutputViewer.AgentRunWithMetrics)
    (e : AgentRunOutputViewer.event) (st : AgentRunOutputViewer.state) :
  AgentRunOutputViewer.is_running run = false ->
  AgentRunOutputViewer.listening st = false ->
  AgentRunOutputViewer.listening (AgentRunOutputViewer.step run e st) = false
  /\ (is_live e = true -> AgentRunOutputViewer.step run e st = st).
Proof.
  intros Hrun Hl.
  destruct e as [now|now|now rawOutput| |payload| | |target];
    cbn [AgentRunOutputViewer.step is_live].
  - split; [|discriminate]. unfold AgentRunOutputViewer.mount.
    destruct (AgentRunOutputViewer.truthy_id run) as [id|]; [|exact Hl].
    now rewrite loadOutput_listening;
      destruct (AgentRunOutputViewer.getCachedOutput id st).
  - split; [|discriminate]. unfold AgentRunOutputViewer.refreshOutput.
    now rewrite loadOutput_listening.
  - split; [|discriminate].
    destruct (AgentRunOutputViewer.truthy_id run) as [id|] eqn:Hid.
    + destruct (loadOutput_resolved_state now run id rawOutput st Hid)
        as (_ & _ & -> & _).
      now rewrite Hrun, Hl.
    + unfold AgentRunOutputViewer.loadOutput_resolved. now rewrite Hid.
  - split; [exact Hl|discriminate].
  - unfold AgentRunOutputViewer.on_agent_output. rewrite Hl. now split.
  - unfold AgentRunOutputViewer.on_agent_complete. rewrite Hl. now split.
  - unfold AgentRunOutputViewer.on_agent_cancelled. rewrite Hl. now split.
  - split; [exact Hl|discriminate].
Qed.

(** X23. A viewer registers its listeners only when a fetch resolves for
    a run given as running. So a viewer that has no listener and is only
    ever given runs that are not running never gets one, and the live
    events (output lines, completion, cancellation) have no effect on it
    at all: its state is the one it would have had without them. *)
Theorem X23_viewer_listens_only_to_running_runs `{Parser}
    (trace : list (AgentRunOutputViewer.AgentRunWithMetrics
                   * AgentRunOutputViewer.event))
    (st : AgentRunOutputViewer.state) :
  AgentRunOutputViewer.listening st = false ->
  forallb (fun '(run, _) => negb (AgentRunOutputViewer.is_running run)) trace
  = true ->
  AgentRunOutputViewer.listening (AgentRunOutputViewer.run_events trace st) = false
  /\ AgentRunOutputViewer.run_events trace st
     = AgentRunOutputViewer.run_events
         (List.filter (fun '(_, e) => negb (is_live e)) trace) st.
Proof.
  unfold AgentRunOutputViewer.run_events. revert st.
  induction trace as [|[run e] rest IH]; intros st Hl Hall; [now split|].
  cbn [forallb] in Hall. apply andb_prop in Hall as [Hrun Hrest].
  apply negb_true_iff in Hrun.
  destruct (viewer_step_deaf run e st Hrun Hl) as [Hl' Hlive].
  cbn [fold_left List.filter].
  destruct (IH _ Hl' Hrest) as [IHl IHeq].
  split; [exact IHl|].
  destruct (is_live e) eqn:He; cbn [negb].
  - rewrite (Hlive eq_refl) in *. exact (proj2 (IH st Hl Hrest)).
  - cbn [fold_left]. exact IHeq.
Qed.

Lemma X23_witness :
  let run :=
    {| AgentRunOutputViewer.run_id := Some 7%Z;
       AgentRunOutputViewer.run_status := "completed" |} in
  AgentRunOutputViewer.rawJsonlOutput
    (@AgentRunOutputViewer.run_events (table_parser [("1", JNum 1); ("2", JNum 2)])
       [(run, AgentRunOutputViewer.Mount 0);
        (run, AgentRunOutputViewer.Resolved 10 "1");
        (run, AgentRunOutputViewer.Output "2")]
       (AgentRunOutputViewer.initial ∅))
  = ["1"].
Proof.
  cbv zeta.
  refine (eq_trans
            (f_equal AgentRunOutputViewer.rawJsonlOutput
               (proj2
                  (@X23_viewer_listens_only_to_running_runs
                     (table_parser [("1", JNum 1); ("2", JNum 2)])
                     [({| AgentRunOutputViewer.run_id := Some 7%Z;
                          AgentRunOutputViewer.run_status := "completed" |},
                       AgentRunOutputViewer.Mount 0);
                      ({| AgentRunOutputViewer.run_id := Some 7%Z;
                          AgentRunOutputViewer.run_status := "completed" |},
                       AgentRunOutputViewer.Resolved 10 "1");
                      ({| AgentRunOutputViewer.run_id := Some 7%Z;
                          AgentRunOutputViewer.run_status := "completed" |},
                       AgentRunOutputViewer.Output "2")]
                     (AgentRunOutputViewer.initial ∅) eq_refl eq_refl))) _).
  reflexivity.
Defined.
